(** * fieldflow-reports: the report aggregation engine, the report lifecycle
    manager and the currency formatting of the export renderer.

    The development follows the TypeScript sources:
    - [src/hooks/useAIAnalysis.ts], the aggregation engine;
    - the [useReports] hook, the lifecycle manager;
    - [sanitizeCost], [formatNaira] and [generatePDF] of
      [src/components/PDFReport.tsx];
    - the interfaces of [src/types/ai.ts] and of the report types;
    - the callers: the [ReportForm] component, the handlers of
      [src/pages/Index.tsx] and the route of
      [src/components/RouteOptimizer.tsx].

    JavaScript numbers are IEEE 754 binary64 values.  They are modelled by
    the specification floats of the standard library at precision 53 and
    maximal exponent 1024, so that every arithmetic step below rounds as
    the program does and the special values ([NaN], the infinities and the
    signed zeros) behave as in the language.  Counts and array lengths,
    which are integers far below [2^53], are natural numbers and become
    numbers where the program divides by them.  Strings are the UTF-8
    bytes of their text. *)

From Stdlib Require Import List String Ascii ZArith Bool Lia Arith.
From Stdlib Require Import Permutation Sorted DecimalString.
From Stdlib Require Import Floats.SpecFloat.
Import ListNotations.

Local Open Scope string_scope.
Local Open Scope list_scope.

(* ================================================================== *)
(** ** JavaScript numbers *)
(* ================================================================== *)

Module Num.

Definition number : Type := spec_float.

Definition prec : Z := 53.
Definition emax : Z := 1024.

Definition nan : number := S754_nan.
Definition zero : number := S754_zero false.

Definition add (x y : number) : number := SFadd prec emax x y.
Definition sub (x y : number) : number := SFsub prec emax x y.
Definition mul (x y : number) : number := SFmul prec emax x y.
Definition div (x y : number) : number := SFdiv prec emax x y.

(** An integer as a number (exact below [2^53], rounded to nearest even
    above). *)
Definition of_Z (z : Z) : number := binary_normalize prec emax z 0 false.
Definition of_nat (n : nat) : number := of_Z (Z.of_nat n).

(** The decimal literal with digits [n] and [k] digits after the dot:
    the double nearest to [n / 10^k].  [1.1] is [dec 11 1]. *)
Definition pow10 (k : nat) : positive := Z.to_pos (10 ^ Z.of_nat k).

Definition dec (n : Z) (k : nat) : number :=
  match n with
  | Z0 => zero
  | Zpos p => div (S754_finite false p 0) (S754_finite false (pow10 k) 0)
  | Zneg p => div (S754_finite true p 0) (S754_finite false (pow10 k) 0)
  end.

(** Comparisons: every comparison with [NaN] is false. *)
Definition lt (x y : number) : bool := SFltb x y.
Definition gt (x y : number) : bool := SFltb y x.
Definition ge (x y : number) : bool := SFleb y x.

Definition isNaN (x : number) : bool :=
  match x with S754_nan => true | _ => false end.

(** [ToBoolean]: [NaN], [+0] and [-0] are falsy. *)
Definition truthy (x : number) : bool :=
  match x with
  | S754_nan | S754_zero _ => false
  | _ => true
  end.

(** [x || y] on numbers. *)
Definition or_else (x y : number) : number := if truthy x then x else y.

(** [Math.max(x, y)]: [NaN] if either is, and [+0] is above [-0]. *)
Definition Math_max (x y : number) : number :=
  match SFcompare x y with
  | None => nan
  | Some Lt => y
  | Some Gt => x
  | Some Eq =>
      match x with
      | S754_zero true => y
      | _ => x
      end
  end.

Definition Math_min (x y : number) : number :=
  match SFcompare x y with
  | None => nan
  | Some Lt => x
  | Some Gt => y
  | Some Eq =>
      match x with
      | S754_zero false => y
      | _ => x
      end
  end.

(** The sign of a comparator's result, as [Array.prototype.sort] reads
    it: negative, zero (also for [NaN]) or positive. *)
Definition sign (x : number) : comparison :=
  match SFcompare x zero with
  | Some c => c
  | None => Eq
  end.

(** [x >= 0], as the program would test it. *)
Definition nonneg (x : number) : Prop := ge x zero = true.

(** A positive finite number. *)
Definition posfin (x : number) : Prop :=
  exists m e, x = S754_finite false m e.

End Num.

(* ================================================================== *)
(** ** Strings and arrays *)
(* ================================================================== *)

Module Str.

(** [s.includes(pat)]. *)
Fixpoint includes (pat s : string) : bool :=
  if String.prefix pat s then true
  else match s with
       | EmptyString => false
       | String _ s' => includes pat s'
       end.

(** [s.split(sep)] for a non-empty separator: the scan cuts at the first
    occurrence of [sep], skips it, and goes on.  [skip] counts the
    characters of a matched separator still to drop and [piece] is the
    part read since the last cut. *)
Fixpoint split_from (sep : string) (skip : nat) (piece s : string)
  : list string :=
  match s with
  | EmptyString => [piece]
  | String c s' =>
      match skip with
      | S k => split_from sep k piece s'
      | O =>
          if String.prefix sep s
          then piece :: split_from sep (String.length sep - 1) "" s'
          else split_from sep 0 (String.append piece (String c "")) s'
      end
  end.

Definition split (sep s : string) : list string := split_from sep 0 "" s.

(** [s.replace(/re/g, '')] for a character class: the characters that do
    not match are kept. *)
Fixpoint strip (matches : ascii -> bool) (s : string) : string :=
  match s with
  | EmptyString => EmptyString
  | String c s' =>
      if matches c then strip matches s' else String c (strip matches s')
  end.

(** [parts.join(sep)]. *)
Definition join (sep : string) (parts : list string) : string :=
  String.concat sep parts.

End Str.

Module Arr.

Section Sort.
Context {A : Type}.
Variable compareFn : A -> A -> comparison.

(** [compareFn x y = Gt] is a positive comparator result: [x] goes after
    [y].  On any other result [x], which came first, stays first. *)
Fixpoint insert (x : A) (l : list A) : list A :=
  match l with
  | [] => [x]
  | y :: l' =>
      match compareFn x y with
      | Gt => y :: insert x l'
      | _ => x :: l
      end
  end.

(** [Array.prototype.sort(compareFn)], which is stable: for a consistent
    comparator the outcome is the one sorted arrangement that keeps
    equal elements in their order, and this is how it is computed. *)
Definition sort (l : list A) : list A := fold_right insert [] l.

(** [x] may stay before [y]. *)
Definition inOrder (x y : A) : Prop := compareFn x y <> Gt.

End Sort.

(** [l.slice(0, n)] and [l.slice(-n)]. *)
Definition slice_first {A} (n : nat) (l : list A) : list A := firstn n l.
Definition slice_last {A} (n : nat) (l : list A) : list A :=
  skipn (List.length l - n) l.

(** [l.reduce((a, b) => a + b, 0)]. *)
Definition sum (l : list Num.number) : Num.number :=
  fold_left Num.add l Num.zero.

End Arr.

(** A [Map] with string keys: [entries()] come in the order in which
    the keys were first set. *)
Module JSMap.

Section Map.
Context {V : Type}.

Definition t : Type := list (string * V).

Definition empty : t := [].

Fixpoint get (m : t) (k : string) : option V :=
  match m with
  | [] => None
  | (k', v) :: m' => if String.eqb k' k then Some v else get m' k
  end.

Definition has (m : t) (k : string) : bool :=
  match get m k with Some _ => true | None => false end.

Fixpoint set (m : t) (k : string) (v : V) : t :=
  match m with
  | [] => [(k, v)]
  | (k', v') :: m' =>
      if String.eqb k' k then (k', v) :: m' else (k', v') :: set m' k v
  end.

Definition entries (m : t) : list (string * V) := m.
Definition values (m : t) : list V := map snd m.
Definition keys (m : t) : list string := map fst m.

(** What the map holds at [k], or [init]. *)
Definition held (init : V) (m : t) (k : string) : V :=
  match get m k with Some v => v | None => init end.

End Map.

(** The elements whose key is [k]. *)
Definition groupOf {X : Type} (key : X -> string) (k : string)
  (xs : list X) : list X :=
  filter (fun x => String.eqb (key x) k) xs.

Arguments t : clear implicits.

End JSMap.

(** What a statement can do besides returning: throw. *)
Inductive JSError : Type :=
| RangeError (message : string)
| ReferenceError (message : string)
| ServiceError (message : string).

Inductive completion (A : Type) : Type :=
| Returns (a : A)
| Throws (e : JSError).

Arguments Returns {A} a.
Arguments Throws {A} e.

(** The host environment: the parts of [Date] and [String] that the
    engine calls and that depend on the JavaScript engine and its locale
    data. *)
Class Host : Type := {
  (** [new Date(s).getTime()]: the time value in milliseconds, [None]
      for an invalid date (the number is [NaN]). *)
  Date_getTime : string -> option Z;
  (** [new Date(t).toISOString().slice(0, 7)] for a time value [t]. *)
  Date_isoMonth : Z -> string;
  (** The sign of [a.localeCompare(b)]. *)
  localeCompare : string -> string -> comparison;
  (** The order in which [array.sort(compare)] leaves an array when the
      comparator is not consistent (it answers [NaN], read as [0], for
      some pairs without being an order): the language leaves that
      order to the engine. *)
  Array_sort : forall A : Type, (A -> A -> comparison) -> list A -> list A
}.

(* ================================================================== *)
(** ** Record model ([ReportItem], [Report] and [src/types/ai.ts]) *)
(* ================================================================== *)

Module ReportItem.
Record t : Type := mk {
  id : string;
  location : string;
  transportation : string;
  cost : Num.number
}.
End ReportItem.

Inductive ReportType : Type :=
| verification
| recovery
| post_disbursement.

Module Report.
Record t : Type := mk {
  id : string;
  reportType : ReportType;
  reportDate : string;
  description : string;
  items : list ReportItem.t;
  totalCost : Num.number;
  accountNumber : string;
  accountName : string;
  bankName : string;
  createdAt : string
}.

(** The report object after its [items] array has been overwritten. *)
Definition with_items (r : t) (its : list ReportItem.t) : t :=
  mk (id r) (reportType r) (reportDate r) (description r) its (totalCost r)
     (accountNumber r) (accountName r) (bankName r) (createdAt r).
End Report.

(** An element of [allTransportItems]: the item spread, tagged with its
    report. *)
Module TransportItem.
Record t : Type := mk {
  id : string;
  location : string;
  transportation : string;
  cost : Num.number;
  reportType : ReportType;
  reportDate : string;
  reportId : string
}.
End TransportItem.

Inductive CostTrend : Type := increasing | decreasing | stable.

Inductive CostEfficiency : Type := high | medium | low.

(** The histogram [transportationTypes], an object used as a dictionary,
    is not carried: nothing below reads it. *)
Module TransportPattern.
Record t : Type := mk {
  location : string;
  visitCount : nat;
  totalCost : Num.number;
  averageCost : Num.number;
  lastVisited : string;
  costTrend : CostTrend;
  efficiency : Num.number;
  recommendations : list string
}.
End TransportPattern.

Module FrequentRoute.
Record t : Type := mk {
  from : string;
  to : string;
  frequency : nat;
  averageCost : Num.number;
  efficiency : Num.number
}.
End FrequentRoute.

Module OptimalRoute.
Record t : Type := mk {
  locations : list string;
  estimatedCost : Num.number;
  estimatedTime : string;
  efficiency : Num.number
}.
End OptimalRoute.

(** [coverageMap], a second object used as a dictionary, is not carried
    either. *)
Module RouteAnalysis.
Record t : Type := mk {
  frequentRoutes : list FrequentRoute.t;
  optimalRoute : OptimalRoute.t
}.
End RouteAnalysis.

Module CostAnalysis.
Record t : Type := mk {
  totalSpent : Num.number;
  averagePerVisit : Num.number;
  monthlyTrend : Num.number;
  costEfficiency : CostEfficiency;
  projectedAnnualCost : Num.number
}.
End CostAnalysis.

(** The fields of [AIInsights] that are computed from the reports; the
    sentence [summary], [preferredTransport] and the constant
    placeholders are left out. *)
Module AIInsights.
Record t : Type := mk {
  recommendations : list string;
  costAnalysis : CostAnalysis.t;
  visitsPerMonth : Num.number;
  efficiencyScore : Num.number;
  mostFrequentLocations : list string;
  costHotspots : list string;
  costForecast_nextMonth : Num.number;
  costForecast_nextQuarter : Num.number;
  costForecast_trend : CostTrend;
  potentialSavings : Num.number
}.
End AIInsights.

(** [aiInsights], three sentences built from the same numbers, is left
    out. *)
Module TransportEfficiency.
Record t : Type := mk {
  transportationType : string;
  totalUsage : nat;
  totalCost : Num.number;
  averageCost : Num.number;
  efficiency : Num.number;
  recommendations : list string
}.
End TransportEfficiency.

(* ================================================================== *)
(** ** Aggregation engine ([src/hooks/useAIAnalysis.ts]) *)
(* ================================================================== *)

Module Engine.

(** A visit kept per location. *)
Module Visit.
Record t : Type := mk {
  cost : Num.number;
  transportation : string;
  date : string
}.
End Visit.

Module LocationData.
Record t : Type := mk {
  visits : list Visit.t;
  totalCost : Num.number
}.
End LocationData.

(** The value type of [routeMap] and of [efficiencyMap]; the counter is
    [frequency] in the first and [usage] in the second. *)
Module Tally.
Record t : Type := mk {
  count : nat;
  totalCost : Num.number;
  costs : list Num.number
}.
End Tally.

Definition n0 : Num.number := Num.zero.
Definition n1 : Num.number := Num.of_Z 1.
Definition n12 : Num.number := Num.of_Z 12.
Definition n50 : Num.number := Num.of_Z 50.
Definition n100 : Num.number := Num.of_Z 100.
Definition n1000 : Num.number := Num.of_Z 1000.
Definition n2000 : Num.number := Num.of_Z 2000.
Definition n3000 : Num.number := Num.of_Z 3000.
Definition n1_1 : Num.number := Num.dec 11 1.
Definition n0_9 : Num.number := Num.dec 9 1.
Definition n1_05 : Num.number := Num.dec 105 2.
Definition n3_15 : Num.number := Num.dec 315 2.
Definition n0_15 : Num.number := Num.dec 15 2.
(** [1000 * 60 * 60 * 24 * 30] *)
Definition msPerMonth : Num.number := Num.of_Z 2592000000.

Definition arrow : string := " → ".

(** [Math.max(0, 100 - (x / d))] *)
Definition efficiencyOf (x d : Num.number) : Num.number :=
  Num.Math_max n0 (Num.sub n100 (Num.div x d)).

(** [allTransportItems] *)
Definition allTransportItems (reports : list Report.t)
  : list TransportItem.t :=
  flat_map
    (fun report =>
       map (fun item =>
              TransportItem.mk
                (ReportItem.id item) (ReportItem.location item)
                (ReportItem.transportation item) (ReportItem.cost item)
                (Report.reportType report) (Report.reportDate report)
                (Report.id report))
           (Report.items report))
    reports.

(** *** Transport patterns by location *)

(** The visit pushed for an item. *)
Definition visitOf (item : TransportItem.t) : Visit.t :=
  Visit.mk (TransportItem.cost item) (TransportItem.transportation item)
           (TransportItem.reportDate item).

(** The body of the [forEach] that fills [locationMap]. *)
Definition addVisit (locationMap : JSMap.t LocationData.t)
  (item : TransportItem.t) : JSMap.t LocationData.t :=
  let key := TransportItem.location item in
  let locationMap :=
    if negb (JSMap.has locationMap key)
    then JSMap.set locationMap key (LocationData.mk [] n0)
    else locationMap in
  match JSMap.get locationMap key with
  | Some location =>
      JSMap.set locationMap key
        (LocationData.mk
           (LocationData.visits location ++ [visitOf item])
           (Num.add (LocationData.totalCost location)
                    (TransportItem.cost item)))
  | None => locationMap
  end.

Definition locationMapOf (items : list TransportItem.t)
  : JSMap.t LocationData.t :=
  fold_left addVisit items JSMap.empty.

(** The mean of a window: [costs.reduce((a, b) => a + b, 0) / costs.length] *)
Definition mean (costs : list Num.number) : Num.number :=
  Num.div (Arr.sum costs) (Num.of_nat (List.length costs)).

(** The classification of two windows of costs. *)
Definition costTrendOf (recentCosts olderCosts : list Num.number)
  : CostTrend :=
  if (2 <=? List.length recentCosts)%nat && (2 <=? List.length olderCosts)%nat
  then
    let recentAvg := mean recentCosts in
    let olderAvg := mean olderCosts in
    if Num.gt recentAvg (Num.mul olderAvg n1_1) then increasing
    else if Num.lt recentAvg (Num.mul olderAvg n0_9) then decreasing
    else stable
  else stable.

(** The two steps of each grouping, "set the key to an empty value
    unless it is there, then update what it holds", amount to one
    update of what the key held; these are the empty values and the
    updates. *)
Definition initLocation : LocationData.t := LocationData.mk [] n0.

Definition updLocation (d : LocationData.t) (item : TransportItem.t)
  : LocationData.t :=
  LocationData.mk (LocationData.visits d ++ [visitOf item])
                  (Num.add (LocationData.totalCost d)
                           (TransportItem.cost item)).

Definition initTally : Tally.t := Tally.mk 0 n0 [].

Definition updTally (t : Tally.t) (cost : Num.number) : Tally.t :=
  Tally.mk (S (Tally.count t)) (Num.add (Tally.totalCost t) cost)
           (Tally.costs t ++ [cost]).

Section WithHost.
Context {host : Host}.

(** [(a, b) => new Date(a.date).getTime() - new Date(b.date).getTime()],
    read by its sign.  Two valid time values are integers of at most
    8.64e15 in magnitude, so their difference has the sign of their
    order; with an invalid date the difference is [NaN], which the sort
    reads as zero. *)
Definition compareByDate (a b : Visit.t) : comparison :=
  match Date_getTime (Visit.date a), Date_getTime (Visit.date b) with
  | Some ta, Some tb => Z.compare ta tb
  | _, _ => Eq
  end.

(** Every visit has a date that [new Date] reads. *)
Definition datesValid (visits : list Visit.t) : bool :=
  forallb (fun visit =>
             match Date_getTime (Visit.date visit) with
             | Some _ => true
             | None => false
             end)
          visits.

(** [data.visits.sort(...)].  When every date is valid the comparator
    is the order of the time values and the sort, which is stable,
    leaves the one arrangement that [Arr.sort] computes.  With a date
    that cannot be read the comparator answers [NaN] for the pairs with
    that date and a sign for the others: it is not consistent, and the
    order is the engine's. *)
Definition sortedVisitsOf (data : LocationData.t) : list Visit.t :=
  let visits := LocationData.visits data in
  if datesValid visits then Arr.sort compareByDate visits
  else Array_sort Visit.t compareByDate visits.

Definition recentCostsOf (data : LocationData.t) : list Num.number :=
  map Visit.cost (Arr.slice_last 3 (sortedVisitsOf data)).

Definition olderCostsOf (data : LocationData.t) : list Num.number :=
  map Visit.cost (Arr.slice_first 3 (sortedVisitsOf data)).

(** The body of the [map] over the entries of [locationMap]. *)
Definition patternOf (entry : string * LocationData.t)
  : TransportPattern.t :=
  let '(location, data) := entry in
  let visitCount := List.length (LocationData.visits data) in
  let averageCost :=
    Num.div (LocationData.totalCost data) (Num.of_nat visitCount) in
  let sortedVisits := sortedVisitsOf data in
  let costTrend := costTrendOf (recentCostsOf data) (olderCostsOf data) in
  let efficiency := efficiencyOf averageCost n50 in
  let recommendations :=
    (if Num.gt averageCost n2000
     then ["Consider more cost-effective transportation options"] else [])
    ++ (if (visitCount <? 3)%nat
        then ["Limited visits - consider if this location is necessary"]
        else [])
    ++ (match costTrend with
        | increasing => ["Costs are increasing - monitor this location"]
        | _ => []
        end) in
  TransportPattern.mk
    location visitCount (LocationData.totalCost data) averageCost
    (match List.last (map Some sortedVisits) None with
     | Some v => Visit.date v
     | None => ""
     end)
    costTrend efficiency recommendations.

(** [(a, b) => b.visitCount - a.visitCount] *)
Definition compareByVisitCount (a b : TransportPattern.t) : comparison :=
  Nat.compare (TransportPattern.visitCount b) (TransportPattern.visitCount a).

Definition transportPatterns (items : list TransportItem.t)
  : list TransportPattern.t :=
  Arr.sort compareByVisitCount
    (map patternOf (JSMap.entries (locationMapOf items))).

(** *** Route analysis *)

(** [(a, b) => a.location.localeCompare(b.location)] *)
Definition compareByLocation (a b : ReportItem.t) : comparison :=
  localeCompare (ReportItem.location a) (ReportItem.location b).

Definition routeKeyOf (a b : ReportItem.t) : string :=
  String.append (ReportItem.location a)
    (String.append arrow (ReportItem.location b)).

(** The body of the inner loop at [i], with [a = sortedItems[i]] and
    [b = sortedItems[i + 1]]. *)
Definition bumpRoute (routeMap : JSMap.t Tally.t) (a b : ReportItem.t)
  : JSMap.t Tally.t :=
  let routeKey := routeKeyOf a b in
  let routeMap :=
    if negb (JSMap.has routeMap routeKey)
    then JSMap.set routeMap routeKey (Tally.mk 0 n0 [])
    else routeMap in
  match JSMap.get routeMap routeKey with
  | Some route =>
      JSMap.set routeMap routeKey
        (Tally.mk (S (Tally.count route))
                  (Num.add (Tally.totalCost route) (ReportItem.cost a))
                  (Tally.costs route ++ [ReportItem.cost a]))
  | None => routeMap
  end.

(** [for (let i = 0; i < sortedItems.length - 1; i++)] *)
Fixpoint chainRoutes (routeMap : JSMap.t Tally.t)
  (sortedItems : list ReportItem.t) : JSMap.t Tally.t :=
  match sortedItems with
  | a :: rest =>
      match rest with
      | b :: _ => chainRoutes (bumpRoute routeMap a b) rest
      | [] => routeMap
      end
  | [] => routeMap
  end.

(** The inner loop on a pair of neighbours, and the key of the pair. *)
Definition bumpPair (routeMap : JSMap.t Tally.t)
  (pair : ReportItem.t * ReportItem.t) : JSMap.t Tally.t :=
  bumpRoute routeMap (fst pair) (snd pair).

Definition keyOfPair (pair : ReportItem.t * ReportItem.t) : string :=
  routeKeyOf (fst pair) (snd pair).

(** The body of [reports.forEach]: [report.items.sort(...)] sorts the
    array of the report itself and returns it, so the report is left
    with the sorted array.  The state is [routeMap] and the reports
    already visited, as they now are. *)
Definition visitReport (st : JSMap.t Tally.t * list Report.t)
  (report : Report.t) : JSMap.t Tally.t * list Report.t :=
  let sortedItems := Arr.sort compareByLocation (Report.items report) in
  (chainRoutes (fst st) sortedItems,
   snd st ++ [Report.with_items report sortedItems]).

Definition walkReports (reports : list Report.t)
  : JSMap.t Tally.t * list Report.t :=
  fold_left visitReport reports (JSMap.empty, []).

Definition routeOf (entry : string * Tally.t) : FrequentRoute.t :=
  let '(route, data) := entry in
  let parts := Str.split arrow route in
  let averageCost :=
    Num.div (Tally.totalCost data) (Num.of_nat (Tally.count data)) in
  FrequentRoute.mk (nth 0 parts "") (nth 1 parts "") (Tally.count data)
                   averageCost (efficiencyOf averageCost n50).

(** [(a, b) => b.frequency - a.frequency] *)
Definition compareByFrequency (a b : FrequentRoute.t) : comparison :=
  Nat.compare (FrequentRoute.frequency b) (FrequentRoute.frequency a).

Definition frequentRoutesOf (routeMap : JSMap.t Tally.t)
  : list FrequentRoute.t :=
  Arr.slice_first 10
    (Arr.sort compareByFrequency (map routeOf (JSMap.entries routeMap))).

Definition hoursOf (n : nat) : string :=
  String.append (NilEmpty.string_of_uint (Nat.to_uint (n * 2))) " hours".

Definition calculateOptimalRoute (patterns : list TransportPattern.t)
  : OptimalRoute.t :=
  let topLocations :=
    map TransportPattern.location (Arr.slice_first 5 patterns) in
  let estimatedCost :=
    fold_left (fun sum p => Num.add sum (TransportPattern.averageCost p))
              (Arr.slice_first 5 patterns) n0 in
  OptimalRoute.mk topLocations estimatedCost
                  (hoursOf (List.length topLocations))
                  (efficiencyOf estimatedCost n100).

(** Reading a [const] of the body of the hook: [None] is the binding
    before its declaration has been evaluated, and reading it then
    throws. *)
Definition readConst {A : Type} (name : string) (binding : option A)
  : completion A :=
  match binding with
  | Some value => Returns value
  | None =>
      Throws (ReferenceError
                (String.append "Cannot access '"
                   (String.append name "' before initialization")))
  end.

(** The callback of [routeAnalysis], together with the reports as it
    leaves them.  It walks the reports, computes [frequentRoutes] and
    then reads [calculateOptimalRoute], in the state [binding] in which
    that [const] is when the callback runs. *)
Definition routeAnalysisCallback
  (binding : option (list TransportPattern.t -> OptimalRoute.t))
  (reports : list Report.t) (patterns : list TransportPattern.t)
  : completion RouteAnalysis.t * list Report.t :=
  let '(routeMap, reports') := walkReports reports in
  let frequentRoutes := frequentRoutesOf routeMap in
  match readConst "calculateOptimalRoute" binding with
  | Returns calculate =>
      (Returns (RouteAnalysis.mk frequentRoutes (calculate patterns)),
       reports')
  | Throws e => (Throws e, reports')
  end.

(** [routeAnalysis]: [useMemo] runs the callback during the render, at
    the place of the [useMemo] in the body of the hook.  The [const]
    [calculateOptimalRoute] is declared after it, so the callback reads
    the binding before it is initialized. *)
Definition routeAnalysis (reports : list Report.t)
  (patterns : list TransportPattern.t)
  : completion RouteAnalysis.t * list Report.t :=
  routeAnalysisCallback None reports patterns.

(** *** Insights summary *)

(** The body of the [forEach] that fills [monthlyData].  [toISOString]
    throws a [RangeError] on an invalid date, which ends the whole
    computation. *)
Definition addMonth (monthlyData : completion (JSMap.t Num.number))
  (item : TransportItem.t) : completion (JSMap.t Num.number) :=
  match monthlyData with
  | Throws e => Throws e
  | Returns monthlyData =>
      match Date_getTime (TransportItem.reportDate item) with
      | None => Throws (RangeError "Invalid time value")
      | Some t =>
          let month := Date_isoMonth t in
          let sofar :=
            match JSMap.get monthlyData month with
            | Some v => Num.or_else v n0
            | None => n0
            end in
          Returns (JSMap.set monthlyData month
                             (Num.add sofar (TransportItem.cost item)))
      end
  end.

(** What a month holds after an item: [(held || 0) + item.cost]. *)
Definition updMonth (sofar : Num.number) (item : TransportItem.t)
  : Num.number :=
  Num.add (Num.or_else sofar n0) (TransportItem.cost item).

Definition monthlyDataOf (items : list TransportItem.t)
  : completion (JSMap.t Num.number) :=
  fold_left addMonth items (Returns JSMap.empty).

(** [Array.from(monthlyData.values()).slice(-2).reduce((a, b) => b - a, 0)] *)
Definition monthlyTrendOf (monthlyData : JSMap.t Num.number)
  : Num.number :=
  fold_left (fun a b => Num.sub b a)
            (Arr.slice_last 2 (JSMap.values monthlyData)) n0.

(** The time value of an item as a number. *)
Definition timeOf (item : TransportItem.t) : Num.number :=
  match Date_getTime (TransportItem.reportDate item) with
  | Some t => Num.of_Z t
  | None => Num.nan
  end.

(** [new Date(x).getTime()] for a number [x] that is a time value, an
    infinity or [NaN]. *)
Definition timeClip (x : Num.number) : Num.number :=
  match x with
  | S754_infinity _ => Num.nan
  | _ => x
  end.

Definition generateAIInsights (items : list TransportItem.t)
  (patterns : list TransportPattern.t) : completion AIInsights.t :=
  let totalSpent :=
    fold_left (fun sum item => Num.add sum (TransportItem.cost item))
              items n0 in
  let totalVisits := List.length items in
  let averagePerVisit := Num.div totalSpent (Num.of_nat totalVisits) in
  match monthlyDataOf items with
  | Throws e => Throws e
  | Returns monthlyData =>
      let monthlyTrend := monthlyTrendOf monthlyData in
      let costEfficiency :=
        if Num.lt averagePerVisit n1000 then high
        else if Num.gt averagePerVisit n3000 then low
        else medium in
      let mostFrequentLocations :=
        map TransportPattern.location (Arr.slice_first 5 patterns) in
      let firstDate :=
        timeClip (fold_left Num.Math_min (map timeOf items)
                            (S754_infinity false)) in
      let lastDate :=
        timeClip (fold_left Num.Math_max (map timeOf items)
                            (S754_infinity true)) in
      let monthsDiff := Num.div (Num.sub lastDate firstDate) msPerMonth in
      let visitsPerMonth :=
        Num.div (Num.of_nat totalVisits) (Num.Math_max monthsDiff n1) in
      let recommendations :=
        (match costEfficiency with
         | low =>
             ["Consider using more cost-effective transportation options for frequent routes"]
         | _ => []
         end)
        ++ (if existsb (fun p => match TransportPattern.costTrend p with
                                 | increasing => true
                                 | _ => false
                                 end) patterns
            then ["Transport costs are increasing in some areas - consider alternative routes"]
            else [])
        ++ (if (0 <? List.length mostFrequentLocations)%nat
            then [String.append
                    "Focus on optimizing routes to your most frequent locations: "
                    (Str.join ", " (Arr.slice_first 3 mostFrequentLocations))]
            else []) in
      let projectedAnnualCost := Num.mul totalSpent n12 in
      let efficiencyScore := efficiencyOf averagePerVisit n50 in
      let costHotspots :=
        map TransportPattern.location
            (Arr.slice_first 5
               (filter (fun p => Num.gt (TransportPattern.averageCost p) n2000)
                       patterns)) in
      Returns
        (AIInsights.mk
           recommendations
           (CostAnalysis.mk totalSpent averagePerVisit monthlyTrend
                            costEfficiency projectedAnnualCost)
           visitsPerMonth efficiencyScore mostFrequentLocations costHotspots
           (Num.mul totalSpent n1_05) (Num.mul totalSpent n3_15)
           (if Num.gt monthlyTrend n0 then increasing else decreasing)
           (Num.mul totalSpent n0_15))
  end.

(** *** Transport-mode efficiency *)

(** The body of the [forEach] that fills [efficiencyMap]. *)
Definition addUsage (efficiencyMap : JSMap.t Tally.t)
  (item : TransportItem.t) : JSMap.t Tally.t :=
  let key := TransportItem.transportation item in
  let efficiencyMap :=
    if negb (JSMap.has efficiencyMap key)
    then JSMap.set efficiencyMap key (Tally.mk 0 n0 [])
    else efficiencyMap in
  match JSMap.get efficiencyMap key with
  | Some transport =>
      JSMap.set efficiencyMap key
        (Tally.mk (S (Tally.count transport))
                  (Num.add (Tally.totalCost transport)
                           (TransportItem.cost item))
                  (Tally.costs transport ++ [TransportItem.cost item]))
  | None => efficiencyMap
  end.

Definition efficiencyMapOf (items : list TransportItem.t)
  : JSMap.t Tally.t :=
  fold_left addUsage items JSMap.empty.

Definition modeOf (entry : string * Tally.t) : TransportEfficiency.t :=
  let '(type, data) := entry in
  let averageCost :=
    Num.div (Tally.totalCost data) (Num.of_nat (Tally.count data)) in
  let efficiency := efficiencyOf averageCost n100 in
  let recommendations :=
    (if Num.gt averageCost n2000
     then ["Consider more cost-effective alternatives"] else [])
    ++ (if (Tally.count data <? 5)%nat
        then ["Limited usage - evaluate if this transport type is necessary"]
        else []) in
  TransportEfficiency.mk type (Tally.count data) (Tally.totalCost data)
                         averageCost efficiency recommendations.

(** [(a, b) => b.efficiency - a.efficiency] *)
Definition compareByEfficiency (a b : TransportEfficiency.t) : comparison :=
  Num.sign (Num.sub (TransportEfficiency.efficiency b)
                    (TransportEfficiency.efficiency a)).

Definition transportEfficiency (items : list TransportItem.t)
  : list TransportEfficiency.t :=
  Arr.sort compareByEfficiency
    (map modeOf (JSMap.entries (efficiencyMapOf items))).

End WithHost.

End Engine.

(* ================================================================== *)
(** ** Report lifecycle manager (the [useReports] hook) *)
(* ================================================================== *)

Module Manager.

Record User : Type := { user_id : string }.

(** [Omit<Report, 'id' | 'createdAt'>] *)
Module Draft.
Record t : Type := mk {
  reportType : ReportType;
  reportDate : string;
  description : string;
  items : list ReportItem.t;
  totalCost : Num.number;
  accountNumber : string;
  accountName : string;
  bankName : string
}.
End Draft.

(** The rows that the select returns; [null] columns are [None] and the
    numeric columns arrive as numbers. *)
Record DbItem : Type := {
  item_id : string;
  item_location : string;
  item_transportation : string;
  item_cost : Num.number
}.

Record DbReport : Type := {
  row_id : string;
  report_type : ReportType;
  report_date : string;
  row_description : option string;
  total_cost : Num.number;
  account_number : option string;
  account_name : option string;
  bank_name : option string;
  created_at : string;
  report_items : option (list DbItem)
}.

(** The columns written by an insert into, or an update of, [reports]. *)
Record ReportColumns : Type := {
  col_report_type : ReportType;
  col_report_date : string;
  col_description : string;
  col_total_cost : Num.number;
  col_account_number : string;
  col_account_name : string;
  col_bank_name : string
}.

(** A row written into [report_items]. *)
Record ItemColumns : Type := {
  col_report_id : string;
  col_location : string;
  col_transportation : string;
  col_cost : Num.number
}.

(** The calls to the persistence collaborator. *)
Inductive Persistence : Type :=
| SelectReports
| InsertReport (user_id : string) (columns : ReportColumns)
| InsertItems (rows : list ItemColumns)
| UpdateReport (reportId user_id : string) (columns : ReportColumns)
| DeleteItems (reportId : string)
| DeleteReport (reportId user_id : string).

(** What the manager does to the outside, in order. *)
Inductive Event : Type :=
| AuthGetUser
| Persist (call : Persistence)
| Toast (title description : string) (destructive : bool)
| ConsoleError (label : string).

(** The answer [{ data, error }] of a persistence call; a rejected
    promise ends in the same [catch] as an [error] that the manager
    throws itself, so it is an [Error] here. *)
Inductive Answer (A : Type) : Type :=
| Data (data : A)
| Error (error : JSError).

Arguments Data {A} data.
Arguments Error {A} error.

(** The collaborators.  An answer may depend on everything done so
    far. *)
Record Backend : Type := {
  (** [data.user] of [supabase.auth.getUser()], [None] for [null]. *)
  auth_getUser : list Event -> completion (option User);
  select_reports : list Event -> Answer (option (list DbReport));
  (** The inserted row, of which the manager reads the [id]. *)
  insert_report : list Event -> string -> ReportColumns -> Answer string;
  insert_items : list Event -> list ItemColumns -> Answer unit;
  update_report :
    list Event -> string -> string -> ReportColumns -> Answer unit;
  delete_items : list Event -> string -> Answer unit;
  delete_report : list Event -> string -> string -> Answer unit
}.

(** The state of the hook and the trace of what it did. *)
Module World.
Record t : Type := mk {
  reports : list Report.t;
  loading : bool;
  trace : list Event
}.
End World.

Definition M (A : Type) : Type := World.t -> completion A * World.t.

Definition ret {A} (a : A) : M A := fun w => (Returns a, w).

Definition bind {A B} (c : M A) (k : A -> M B) : M B :=
  fun w =>
    match c w with
    | (Returns a, w') => k a w'
    | (Throws e, w') => (Throws e, w')
    end.

(** [try { body } catch (error) { handler }] *)
Definition try_catch {A} (body : M A) (handler : JSError -> M A) : M A :=
  fun w =>
    match body w with
    | (Returns a, w') => (Returns a, w')
    | (Throws e, w') => handler e w'
    end.

(** [try { body } finally { after }], for an [after] that only
    returns. *)
Definition try_finally {A} (body : M A) (after : M unit) : M A :=
  fun w =>
    match body w with
    | (r, w') =>
        match after w' with
        | (Returns _, w'') => (r, w'')
        | (Throws e, w'') => (Throws e, w'')
        end
    end.

Definition emit (ev : Event) : M unit :=
  fun w =>
    (Returns tt,
     World.mk (World.reports w) (World.loading w) (World.trace w ++ [ev])).

Definition toast (title description : string) (destructive : bool)
  : M unit := emit (Toast title description destructive).

Definition console_error (label : string) : M unit :=
  emit (ConsoleError label).

Definition setLoading (b : bool) : M unit :=
  fun w => (Returns tt, World.mk (World.reports w) b (World.trace w)).

Definition setReports (rs : list Report.t) : M unit :=
  fun w => (Returns tt, World.mk rs (World.loading w) (World.trace w)).

Notation "x <- c ;; k" := (bind c (fun x => k))
  (at level 61, c at next level, right associativity).
Notation "c ;;; k" := (bind c (fun _ => k))
  (at level 61, right associativity).

Section WithBackend.
Variable backend : Backend.

(** [await supabase.auth.getUser()], destructured to [user]. *)
Definition getUser : M (option User) :=
  fun w =>
    (auth_getUser backend (World.trace w),
     World.mk (World.reports w) (World.loading w)
              (World.trace w ++ [AuthGetUser])).

(** A persistence call, followed by [if (error) throw error]. *)
Definition persist {A} (call : Persistence)
  (answer : list Event -> Answer A) : M A :=
  fun w =>
    let w' := World.mk (World.reports w) (World.loading w)
                       (World.trace w ++ [Persist call]) in
    match answer (World.trace w) with
    | Data a => (Returns a, w')
    | Error e => (Throws e, w')
    end.

Definition or_empty (s : option string) : string :=
  match s with Some s => s | None => "" end.

(** The transformation of a row into a [Report]. *)
Definition transform (dbReport : DbReport) : Report.t :=
  Report.mk (row_id dbReport) (report_type dbReport) (report_date dbReport)
    (or_empty (row_description dbReport))
    (map (fun item =>
            ReportItem.mk (item_id item) (item_location item)
                          (item_transportation item) (item_cost item))
         (match report_items dbReport with Some l => l | None => [] end))
    (total_cost dbReport)
    (or_empty (account_number dbReport))
    (or_empty (account_name dbReport))
    (or_empty (bank_name dbReport))
    (created_at dbReport).

Definition fetchReports : M unit :=
  try_finally
    (try_catch
       (setLoading true ;;;
        reportsData <- persist SelectReports (select_reports backend) ;;
        setReports
          (map transform
               (match reportsData with Some l => l | None => [] end)))
       (fun error =>
          console_error "Error fetching reports:" ;;;
          toast "Error" "Failed to fetch reports. Please try again." true))
    (setLoading false).

Definition columnsOf (reportData : Draft.t) : ReportColumns :=
  {| col_report_type := Draft.reportType reportData;
     col_report_date := Draft.reportDate reportData;
     col_description := Draft.description reportData;
     col_total_cost := Draft.totalCost reportData;
     col_account_number := Draft.accountNumber reportData;
     col_account_name := Draft.accountName reportData;
     col_bank_name := Draft.bankName reportData |}.

Definition itemRowsOf (report_id : string) (items : list ReportItem.t)
  : list ItemColumns :=
  map (fun item =>
         {| col_report_id := report_id;
            col_location := ReportItem.location item;
            col_transportation := ReportItem.transportation item;
            col_cost := ReportItem.cost item |})
      items.

(** [createReport]: the new id, or [None] for [null]. *)
Definition createReport (reportData : Draft.t) : M (option string) :=
  try_catch
    (user <- getUser ;;
     match user with
     | None =>
         toast "Authentication Required"
               "Please sign in to create reports." true ;;;
         ret None
     | Some user =>
         let columns := columnsOf reportData in
         reportResult <-
           persist (InsertReport (user_id user) columns)
                   (fun tr => insert_report backend tr (user_id user) columns) ;;
         (if (0 <? List.length (Draft.items reportData))%nat
          then
            let rows := itemRowsOf reportResult (Draft.items reportData) in
            persist (InsertItems rows)
                    (fun tr => insert_items backend tr rows)
          else ret tt) ;;;
         fetchReports ;;;
         toast "Report Created Successfully"
               "Your field report has been saved to the database." false ;;;
         ret (Some reportResult)
     end)
    (fun error =>
       console_error "Error creating report:" ;;;
       toast "Error" "Failed to create report. Please try again." true ;;;
       ret None).

Definition updateReport (reportId : string) (reportData : Draft.t)
  : M bool :=
  try_catch
    (user <- getUser ;;
     match user with
     | None =>
         toast "Authentication Required"
               "Please sign in to update reports." true ;;;
         ret false
     | Some user =>
         let columns := columnsOf reportData in
         persist (UpdateReport reportId (user_id user) columns)
                 (fun tr =>
                    update_report backend tr reportId (user_id user) columns) ;;;
         persist (DeleteItems reportId)
                 (fun tr => delete_items backend tr reportId) ;;;
         (if (0 <? List.length (Draft.items reportData))%nat
          then
            let rows := itemRowsOf reportId (Draft.items reportData) in
            persist (InsertItems rows)
                    (fun tr => insert_items backend tr rows)
          else ret tt) ;;;
         fetchReports ;;;
         toast "Report Updated Successfully"
               "Your field report has been updated." false ;;;
         ret true
     end)
    (fun error =>
       console_error "Error updating report:" ;;;
       toast "Error" "Failed to update report. Please try again." true ;;;
       ret false).

Definition deleteReport (reportId : string) : M bool :=
  try_catch
    (user <- getUser ;;
     match user with
     | None =>
         toast "Authentication Required"
               "Please sign in to delete reports." true ;;;
         ret false
     | Some user =>
         persist (DeleteReport reportId (user_id user))
                 (fun tr =>
                    delete_report backend tr reportId (user_id user)) ;;;
         fetchReports ;;;
         toast "Report Deleted"
               "The report has been successfully deleted." false ;;;
         ret true
     end)
    (fun error =>
       console_error "Error deleting report:" ;;;
       toast "Error" "Failed to delete report. Please try again." true ;;;
       ret false).

End WithBackend.

(** The persistence calls in a trace. *)
Definition persistenceCalls (tr : list Event) : list Persistence :=
  flat_map (fun ev => match ev with Persist c => [c] | _ => [] end) tr.

(** The world after a refusal: the user was asked for and the toast of
    the operation was shown; nothing else happened. *)
Definition refused (w : World.t) (description : string) : World.t :=
  World.mk (World.reports w) (World.loading w)
           (World.trace w
              ++ [AuthGetUser;
                  Toast "Authentication Required" description true]).

End Manager.

(* ================================================================== *)
(** ** Currency formatting of the export renderer
       ([src/components/PDFReport.tsx]) *)
(* ================================================================== *)

Module Renderer.

(** [number | string] *)
Inductive CostInput : Type :=
| OfNumber (n : Num.number)
| OfString (s : string).

Definition isDigit (c : ascii) : bool :=
  let n := nat_of_ascii c in ((48 <=? n) && (n <=? 57))%nat.

Definition isDot (c : ascii) : bool := Ascii.eqb c ".".

(** A match of [/[^\d.]/]: neither a digit nor a dot. *)
Definition notDigitNorDot (c : ascii) : bool := negb (isDigit c || isDot c).

Definition digitValue (c : ascii) : Z := Z.of_nat (nat_of_ascii c) - 48.

(** The leading digits of [s]: their value appended to [acc], their
    number added to [count], and what follows them. *)
Fixpoint readDigits (s : string) (acc : Z) (count : nat)
  : Z * nat * string :=
  match s with
  | EmptyString => (acc, count, s)
  | String c s' =>
      if isDigit c then readDigits s' (acc * 10 + digitValue c) (S count)
      else (acc, count, s)
  end.

(** [parseFloat] on a string of digits and dots, the strings it is given
    here: the longest prefix of the form [digits], [digits.digits],
    [digits.] or [.digits] is read as a decimal literal, and there is
    [NaN] without one. *)
Definition parseFloat (s : string) : Num.number :=
  let '(whole, nwhole, rest) := readDigits s 0 0 in
  match rest with
  | String "." rest' =>
      let '(all, nfrac, _) := readDigits rest' whole 0 in
      if (nwhole + nfrac =? 0)%nat then Num.nan else Num.dec all nfrac
  | _ => if (nwhole =? 0)%nat then Num.nan else Num.dec whole 0
  end.

Definition cleanedOf (input : string) : string :=
  Str.strip notDigitNorDot input.

Definition sanitizeCost (input : CostInput) : Num.number :=
  match input with
  | OfString input =>
      let cleaned := cleanedOf input in
      Num.or_else (parseFloat cleaned) Num.zero
  | OfNumber input => input
  end.



End Renderer.

(* ================================================================== *)
(** ** A host for the scenarios *)
(* ================================================================== *)

(** A host that reads the date-only form [YYYY-MM-DD], which is what the
    [report_date] column holds, and compares strings by their code
    units, which is the collation order on the upper-case names of the
    scenarios. *)
Module IsoHost.

Local Open Scope Z_scope.

(** Days from 1970-01-01 to the civil date [y-m-d]. *)
Definition daysFromCivil (y m d : Z) : Z :=
  let y := if m <=? 2 then y - 1 else y in
  let era := y / 400 in
  let yoe := y - era * 400 in
  let doy := (153 * (if 2 <? m then m - 3 else m + 9) + 2) / 5 + d - 1 in
  let doe := yoe * 365 + yoe / 4 - yoe / 100 + doy in
  era * 146097 + doe - 719468.

(** The civil year and month of a day number. *)
Definition civilFromDays (z : Z) : Z * Z :=
  let z := z + 719468 in
  let era := z / 146097 in
  let doe := z - era * 146097 in
  let yoe := (doe - doe / 1460 + doe / 36524 - doe / 146096) / 365 in
  let doy := doe - (365 * yoe + yoe / 4 - yoe / 100) in
  let mp := (5 * doy + 2) / 153 in
  let m := if mp <? 10 then mp + 3 else mp - 9 in
  ((yoe + era * 400) + (if m <=? 2 then 1 else 0), m).

Definition digit (c : ascii) : option Z :=
  let n := Z.of_nat (nat_of_ascii c) in
  if (48 <=? n) && (n <=? 57) then Some (n - 48) else None.

Fixpoint digits (cs : list ascii) (acc : Z) : option Z :=
  match cs with
  | [] => Some acc
  | c :: cs' =>
      match digit c with
      | Some v => digits cs' (acc * 10 + v)
      | None => None
      end
  end.

Definition isLeap (y : Z) : bool :=
  ((y mod 4 =? 0) && negb (y mod 100 =? 0)) || (y mod 400 =? 0).

Definition daysInMonth (y m : Z) : Z :=
  if m =? 2 then (if isLeap y then 29 else 28)
  else if (m =? 4) || (m =? 6) || (m =? 9) || (m =? 11) then 30
  else 31.

Definition getTime (s : string) : option Z :=
  match list_ascii_of_string s with
  | [y1; y2; y3; y4; d1; m1; m2; d2; a1; a2] =>
      if Ascii.eqb d1 "-" && Ascii.eqb d2 "-" then
        match digits [y1; y2; y3; y4] 0, digits [m1; m2] 0,
              digits [a1; a2] 0 with
        | Some y, Some m, Some d =>
            if (1 <=? m) && (m <=? 12) && (1 <=? d)
               && (d <=? daysInMonth y m)
            then Some (daysFromCivil y m d * 86400000)
            else None
        | _, _, _ => None
        end
      else None
  | _ => None
  end.

Definition decimal (n : Z) : string :=
  NilZero.string_of_uint (N.to_uint (Z.to_N n)).

(** [n] in at least [w] digits. *)
Definition padded (w : nat) (n : Z) : string :=
  let s := decimal n in
  String.append
    (string_of_list_ascii (repeat "0"%char (w - String.length s))) s.

(** The first seven characters of the ISO form: [YYYY-MM], or a sign
    and six digits of the year outside 0..9999. *)
Definition isoMonth (t : Z) : string :=
  let '(y, m) := civilFromDays (t / 86400000) in
  if (0 <=? y) && (y <=? 9999)
  then String.append (padded 4 y) (String.append "-" (padded 2 m))
  else String.append (if y <? 0 then "-" else "+") (padded 6 (Z.abs y)).

(** Binary insertion from the left, the way an engine sorts a short
    array: each element in turn is put in the part already in place,
    where a binary search ends; the search goes left when the
    comparator is negative and right otherwise. *)
Fixpoint search {A : Type} (compare : A -> A -> comparison) (pivot : A)
  (placed : list A) (left right fuel : nat) : nat :=
  match fuel with
  | O => left
  | S fuel =>
      if (left <? right)%nat then
        let mid := (left + (right - left) / 2)%nat in
        match compare pivot (nth mid placed pivot) with
        | Lt => search compare pivot placed left mid fuel
        | _ => search compare pivot placed (S mid) right fuel
        end
      else left
  end.

Definition place {A : Type} (compare : A -> A -> comparison)
  (placed : list A) (pivot : A) : list A :=
  let n := List.length placed in
  let k := search compare pivot placed 0 n (S n) in
  firstn k placed ++ pivot :: skipn k placed.

Definition binaryInsertion (A : Type) (compare : A -> A -> comparison)
  (array : list A) : list A :=
  fold_left (place compare) array [].

Definition host : Host :=
  {| Date_getTime := getTime;
     Date_isoMonth := isoMonth;
     localeCompare := String.compare;
     Array_sort := binaryInsertion |}.

End IsoHost.

(* ================================================================== *)
(** ** The specification's words *)
(* ================================================================== *)

(** What the specification says of the engine, stated on the reports and
    not on the maps that the engine builds. *)
Module Spec.

(** The distinct strings of a list, in the order in which each is first
    met. *)
Fixpoint firstSeen (ks : list string) : list string :=
  match ks with
  | [] => []
  | k :: ks' => k :: filter (fun k' => negb (String.eqb k k')) (firstSeen ks')
  end.

(** The neighbours of a list, from left to right. *)
Fixpoint adjacentPairs {A : Type} (l : list A) : list (A * A) :=
  match l with
  | [] => []
  | a :: rest =>
      match rest with
      | [] => []
      | b :: _ => (a, b) :: adjacentPairs rest
      end
  end.

(** The items at a location, and their visits, in the order of the
    items. *)
Definition itemsAt (location : string) (items : list TransportItem.t)
  : list TransportItem.t :=
  filter (fun item => String.eqb (TransportItem.location item) location)
         items.

Definition visitsAt (location : string) (items : list TransportItem.t)
  : list Engine.Visit.t :=
  map Engine.visitOf (itemsAt location items).

(** The items of a transportation label. *)
Definition itemsBy (label : string) (items : list TransportItem.t)
  : list TransportItem.t :=
  filter (fun item => String.eqb (TransportItem.transportation item) label)
         items.

(** The mean of a window in the words of the specification: the sum
    of its costs, from the first on, divided by their number. *)
Definition meanOf (costs : list Num.number) : Num.number :=
  Num.div (fold_left Num.add costs Num.zero)
          (Num.of_nat (List.length costs)).

(** "The recent mean exceeds 1.1 times the older mean" and "is below
    0.9 times the older mean". *)
Definition exceeds (recent older : list Num.number) : bool :=
  Num.gt (meanOf recent) (Num.mul (meanOf older) (Num.dec 11 1)).

Definition isBelow (recent older : list Num.number) : bool :=
  Num.lt (meanOf recent) (Num.mul (meanOf older) (Num.dec 9 1)).

(** The rule of the cost trend on a recent and an older window. *)
Inductive TrendRule (recent older : list Num.number) : CostTrend -> Prop :=
| trend_short :
    (List.length recent < 2 \/ List.length older < 2)%nat ->
    TrendRule recent older stable
| trend_increasing :
    (2 <= List.length recent)%nat -> (2 <= List.length older)%nat ->
    exceeds recent older = true ->
    TrendRule recent older increasing
| trend_decreasing :
    (2 <= List.length recent)%nat -> (2 <= List.length older)%nat ->
    exceeds recent older = false ->
    isBelow recent older = true ->
    TrendRule recent older decreasing
| trend_stable :
    (2 <= List.length recent)%nat -> (2 <= List.length older)%nat ->
    exceeds recent older = false ->
    isBelow recent older = false ->
    TrendRule recent older stable.

(** A monthly total as the engine keeps it: each cost is added to what
    the month holds, a falsy holding counting as [0]. *)
Definition monthlyTotal (costs : list Num.number) : Num.number :=
  fold_left (fun sofar cost => Num.add (Num.or_else sofar Engine.n0) cost)
            costs Engine.n0.

(** Later minus earlier of the last two of a list of totals; the only
    total when there is one, and [0] when there is none. *)
Definition laterMinusEarlier (totals : list Num.number) : Num.number :=
  match rev totals with
  | later :: earlier :: _ => Num.sub later earlier
  | [only] => only
  | [] => Engine.n0
  end.

Section WithHost.
Context {host : Host}.

(** [a] is not dated after [b]; an invalid date is not compared. *)
Definition notLater (a b : Engine.Visit.t) : Prop :=
  match Date_getTime (Engine.Visit.date a),
        Date_getTime (Engine.Visit.date b) with
  | Some ta, Some tb => (ta <= tb)%Z
  | _, _ => True
  end.

(** The dates are valid and in chronological order. *)
Definition chronological (dates : list string) : Prop :=
  exists times,
    map Date_getTime dates = map Some times /\ Sorted Z.le times.

(** The month of an item with a valid date. *)
Definition monthOf (item : TransportItem.t) : string :=
  match Date_getTime (TransportItem.reportDate item) with
  | Some t => Date_isoMonth t
  | None => ""
  end.

Definition itemsOfMonth (month : string) (items : list TransportItem.t)
  : list TransportItem.t :=
  filter (fun item => String.eqb (monthOf item) month) items.

(** What the map of the months is after an item with a valid date. *)
Definition stepMonth (monthlyData : JSMap.t Num.number)
  (item : TransportItem.t) : JSMap.t Num.number :=
  JSMap.set monthlyData (monthOf item)
            (Engine.updMonth (JSMap.held Engine.n0 monthlyData (monthOf item))
                             item).

(** The items of a report in the order of their locations, and the
    pairs of neighbours of all reports. *)
Definition sortedItems (report : Report.t) : list ReportItem.t :=
  Arr.sort Engine.compareByLocation (Report.items report).

Definition routePairs (reports : list Report.t)
  : list (ReportItem.t * ReportItem.t) :=
  flat_map (fun report => adjacentPairs (sortedItems report)) reports.

Definition isRoute (from to : string) (pair : ReportItem.t * ReportItem.t)
  : bool :=
  String.eqb (ReportItem.location (fst pair)) from
  && String.eqb (ReportItem.location (snd pair)) to.

(** The occurrences of the pair [(from, to)]. *)
Definition occurrences (from to : string) (reports : list Report.t)
  : list (ReportItem.t * ReportItem.t) :=
  filter (isRoute from to) (routePairs reports).

End WithHost.

(** The names of a route, and the key that stands for two names. *)
Definition fromTo (r : FrequentRoute.t) : string * string :=
  (FrequentRoute.from r, FrequentRoute.to r).

Definition keyOfNames (names : string * string) : string :=
  String.append (fst names) (String.append Engine.arrow (snd names)).

(** No location of any report contains an arrow. *)
Definition arrowFree (reports : list Report.t) : Prop :=
  forall report item,
    In report reports -> In item (Report.items report) ->
    Str.includes "→" (ReportItem.location item) = false.

End Spec.

(* ================================================================== *)
(** ** Scenarios *)
(* ================================================================== *)

Module Scenario.

Definition item (id location transportation : string) (cost : Z)
  : ReportItem.t :=
  ReportItem.mk id location transportation (Num.of_Z cost).

Definition report (id date : string) (items : list ReportItem.t)
  : Report.t :=
  Report.mk id verification date "" items
            (Arr.sum (map ReportItem.cost items))
            "0123456789" "A. Officer" "First Bank" "2024-06-01T09:00:00Z".

(** Two reports, the later one first: a visit in March to three places
    and one in January to two of them, the second by a taxi used only
    once, at 10000. *)
Definition march : Report.t :=
  report "r1" "2024-03-10"
         [item "i1" "Yaba" "Bus" 500;
          item "i2" "Ikeja" "Keke" 300;
          item "i3" "Lekki" "Bus" 200].

Definition january : Report.t :=
  report "r2" "2024-01-05"
         [item "i4" "Lekki" "Taxi" 10000;
          item "i5" "Ikeja" "Bus" 400].

Definition reports : list Report.t := [march; january].

(** One location visited five times, in chronological order. *)
Definition fiveVisits : list Report.t :=
  [report "v1" "2024-01-01" [item "a" "Lekki" "Bus" 100];
   report "v2" "2024-02-01" [item "b" "Lekki" "Bus" 100];
   report "v3" "2024-03-01" [item "c" "Lekki" "Bus" 100];
   report "v4" "2024-04-01" [item "d" "Lekki" "Bus" 5000];
   report "v5" "2024-05-01" [item "e" "Lekki" "Bus" 5000]].

(** A report with a location that contains the separator of the route
    keys. *)
Definition arrowReports : list Report.t :=
  [report "w1" "2024-02-02"
          [item "x" "A → B" "Bus" 100; item "y" "C" "Bus" 200]].

(** A backend without a signed-in user; it would answer every
    persistence call. *)
Definition signedOut : Manager.Backend :=
  {| Manager.auth_getUser := fun _ => Returns None;
     Manager.select_reports := fun _ => Manager.Data (Some []);
     Manager.insert_report := fun _ _ _ => Manager.Data "new-id";
     Manager.insert_items := fun _ _ => Manager.Data tt;
     Manager.update_report := fun _ _ _ _ => Manager.Data tt;
     Manager.delete_items := fun _ _ => Manager.Data tt;
     Manager.delete_report := fun _ _ _ => Manager.Data tt |}.

Definition draft : Manager.Draft.t :=
  Manager.Draft.mk verification "2024-03-10" ""
                   (Report.items march) (Report.totalCost march)
                   "0123456789" "A. Officer" "First Bank".

Definition world : Manager.World.t := Manager.World.mk reports false [].

End Scenario.

(* ================================================================== *)
(** ** The report form (the [ReportForm] component) *)
(* ================================================================== *)

(** [String.prototype.trim], whose white space is that of the Unicode
    tables of the JavaScript engine. *)
Class Text : Type := {
  trim : string -> string
}.

Module ReportForm.

(** The state of the form.  [reportType] is a string that is empty or
    one of the report types; the empty string is [None]. *)
Record t : Type := mk {
  reportType : option ReportType;
  reportDate : string;
  description : string;
  accountNumber : string;
  accountName : string;
  bankName : string;
  items : list ReportItem.t
}.

(** [{ id: crypto.randomUUID(), location: "", transportation: "", cost: 0 }],
    for the identifier that was drawn. *)
Definition blankItem (id : string) : ReportItem.t :=
  ReportItem.mk id "" "" Num.zero.

(** The form as it starts and as it is reset. *)
Definition blank (id : string) : t := mk None "" "" "" "" "" [blankItem id].

(** The effect that runs when a report is given for editing. *)
Definition load (editingReport : Report.t) : t :=
  mk (Some (Report.reportType editingReport))
     (Report.reportDate editingReport)
     (Report.description editingReport)
     (Report.accountNumber editingReport)
     (Report.accountName editingReport)
     (Report.bankName editingReport)
     (Report.items editingReport).

Definition addItem (id : string) (items : list ReportItem.t)
  : list ReportItem.t :=
  items ++ [blankItem id].

Definition removeItem (id : string) (items : list ReportItem.t)
  : list ReportItem.t :=
  if (1 <? List.length items)%nat
  then filter (fun item => negb (String.eqb (ReportItem.id item) id)) items
  else items.

(** A field of [ReportItem] with a value of its type. *)
Inductive FieldValue : Type :=
| IdIs (value : string)
| LocationIs (value : string)
| TransportationIs (value : string)
| CostIs (value : Num.number).

(** [{ ...item, [field]: value }] *)
Definition withField (item : ReportItem.t) (fv : FieldValue) : ReportItem.t :=
  match fv with
  | IdIs value =>
      ReportItem.mk value (ReportItem.location item)
                    (ReportItem.transportation item) (ReportItem.cost item)
  | LocationIs value =>
      ReportItem.mk (ReportItem.id item) value
                    (ReportItem.transportation item) (ReportItem.cost item)
  | TransportationIs value =>
      ReportItem.mk (ReportItem.id item) (ReportItem.location item)
                    value (ReportItem.cost item)
  | CostIs value =>
      ReportItem.mk (ReportItem.id item) (ReportItem.location item)
                    (ReportItem.transportation item) value
  end.

Definition updateItem (id : string) (fv : FieldValue)
  (items : list ReportItem.t) : list ReportItem.t :=
  map (fun item =>
         if String.eqb (ReportItem.id item) id then withField item fv
         else item)
      items.

(** [items.reduce((sum, item) => sum + item.cost, 0)] *)
Definition totalCost (items : list ReportItem.t) : Num.number :=
  fold_left (fun sum item => Num.add sum (ReportItem.cost item))
            items Num.zero.

(** What the user does to the list of the items. *)
Inductive Action : Type :=
| AddItem (id : string)
| RemoveItem (id : string)
| UpdateItem (id : string) (fv : FieldValue).

Definition act (items : list ReportItem.t) (a : Action)
  : list ReportItem.t :=
  match a with
  | AddItem id => addItem id items
  | RemoveItem id => removeItem id items
  | UpdateItem id fv => updateItem id fv items
  end.

(** What a submission comes to: a destructive toast, or the call of
    [onSubmit]. *)
Inductive Outcome : Type :=
| Refused (title description : string)
| Submitted (reportData : Manager.Draft.t).

Section WithText.
Context {text : Text}.

(** The truth value of [s.trim()]. *)
Definition filled (s : string) : bool := negb (String.eqb (trim s) "").

(** [item.location.trim() && item.transportation.trim() && item.cost > 0] *)
Definition isValidItem (item : ReportItem.t) : bool :=
  filled (ReportItem.location item)
  && filled (ReportItem.transportation item)
  && Num.gt (ReportItem.cost item) Num.zero.

(** [handleSubmit]: the outcome and the form as it is left; [fresh] is
    the identifier drawn for the blank item of a reset. *)
Definition handleSubmit (editingReport : option Report.t) (fresh : string)
  (form : t) : Outcome * t :=
  match reportType form with
  | Some type =>
      if String.eqb (reportDate form) ""
         || negb (filled (accountNumber form))
         || negb (filled (accountName form))
         || negb (filled (bankName form))
      then
        (Refused "Missing Information"
           "Please fill in all required fields including complete account details",
         form)
      else
        let validItems := filter isValidItem (items form) in
        if (List.length validItems =? 0)%nat
        then
          (Refused "No Valid Items"
             "Please add at least one complete journey record",
           form)
        else
          (Submitted
             (Manager.Draft.mk type (reportDate form) (description form)
                validItems (totalCost (items form))
                (accountNumber form) (accountName form) (bankName form)),
           match editingReport with
           | Some _ => form
           | None => blank fresh
           end)
  | None =>
      (Refused "Missing Information"
         "Please fill in all required fields including complete account details",
       form)
  end.

End WithText.

End ReportForm.

(* ================================================================== *)
(** ** The download of a report ([generatePDF]) and the page
       ([src/pages/Index.tsx]) *)
(* ================================================================== *)

Module Page.

(** A report type as the string that it is. *)
Definition reportTypeText (type : ReportType) : string :=
  match type with
  | verification => "verification"
  | recovery => "recovery"
  | post_disbursement => "post-disbursement"
  end.

(** [`${report.reportType}-report-${report.reportDate}.pdf`] *)
Definition downloadName (report : Report.t) : string :=
  String.append (reportTypeText (Report.reportType report))
    (String.append "-report-"
       (String.append (Report.reportDate report) ".pdf")).

(** The state of the page: the hook of the reports, the form, and the
    files handed to the browser, each with the report it renders. *)
Record t : Type := mk {
  world : Manager.World.t;
  form : ReportForm.t;
  activeTab : string;
  viewingReport : option Report.t;
  editingReport : option Report.t;
  downloads : list (string * Report.t)
}.

Definition with_world (p : t) (w : Manager.World.t) : t :=
  mk w (form p) (activeTab p) (viewingReport p) (editingReport p)
     (downloads p).

Section WithBackend.
Variable backend : Manager.Backend.
(** [await asPdf.toBlob()], which may reject. *)
Variable toBlob : Report.t -> completion unit.

(** [generatePDF(report)] *)
Definition generatePDF (report : Report.t) (p : t) : completion unit * t :=
  match toBlob report with
  | Returns _ =>
      (Returns tt,
       mk (world p) (form p) (activeTab p) (viewingReport p)
          (editingReport p) (downloads p ++ [(downloadName report, report)]))
  | Throws e => (Throws e, p)
  end.

(** [{ ...reportData, id: reportId, createdAt: now }] *)
Definition newReportOf (reportData : Manager.Draft.t) (reportId now : string)
  : Report.t :=
  Report.mk reportId (Manager.Draft.reportType reportData)
            (Manager.Draft.reportDate reportData)
            (Manager.Draft.description reportData)
            (Manager.Draft.items reportData)
            (Manager.Draft.totalCost reportData)
            (Manager.Draft.accountNumber reportData)
            (Manager.Draft.accountName reportData)
            (Manager.Draft.bankName reportData)
            now.

(** [handleReportSubmit]; [now] is [new Date().toISOString()]. *)
Definition handleReportSubmit (now : string) (reportData : Manager.Draft.t)
  (p : t) : completion unit * t :=
  match editingReport p with
  | Some editing =>
      match Manager.updateReport backend (Report.id editing) reportData
                                 (world p) with
      | (Returns success, w) =>
          if success
          then (Returns tt,
                mk w (form p) "history" (viewingReport p) None (downloads p))
          else (Returns tt, with_world p w)
      | (Throws e, w) => (Throws e, with_world p w)
      end
  | None =>
      match Manager.createReport backend reportData (world p) with
      | (Returns reportId, w) =>
          match reportId with
          | Some reportId =>
              if String.eqb reportId "" then (Returns tt, with_world p w)
              else
                match generatePDF (newReportOf reportData reportId now)
                                  (with_world p w) with
                | (Returns _, p') =>
                    (Returns tt,
                     mk (world p') (form p') "history" (viewingReport p')
                        (editingReport p') (downloads p'))
                | (Throws e, p') => (Throws e, p')
                end
          | None => (Returns tt, with_world p w)
          end
      | (Throws e, w) => (Throws e, with_world p w)
      end
  end.

Section WithText.
Context {text : Text}.

(** The submission of the form on the page: [handleSubmit] of the form
    with [handleReportSubmit] for [onSubmit].  The toast of a refusal
    is shown by the same toaster as those of the hook. *)
Definition submit (now fresh : string) (p : t) : completion unit * t :=
  match ReportForm.handleSubmit (editingReport p) fresh (form p) with
  | (ReportForm.Refused title description, form') =>
      match Manager.toast title description true (world p) with
      | (_, w) =>
          (Returns tt,
           mk w form' (activeTab p) (viewingReport p) (editingReport p)
              (downloads p))
      end
  | (ReportForm.Submitted reportData, form') =>
      handleReportSubmit now reportData
        (mk (world p) form' (activeTab p) (viewingReport p)
            (editingReport p) (downloads p))
  end.

End WithText.

End WithBackend.

End Page.

(* ================================================================== *)
(** ** The route optimizer ([src/components/RouteOptimizer.tsx]) *)
(* ================================================================== *)

Module RouteOptimizer.

Inductive OptimizationType : Type := cost | time | efficiency.

Module OptimizedRoute.
Record t : Type := mk {
  route : list string;
  totalCost : Num.number;
  estimatedTime : string;
  efficiency : Num.number;
  optimizationType : OptimizationType
}.
End OptimizedRoute.

(** [l.includes(x)] on strings. *)
Definition includes (l : list string) (x : string) : bool :=
  existsb (String.eqb x) l.

(** [(a, b) => a.averageCost - b.averageCost] *)
Definition compareByAverageCost (a b : TransportPattern.t) : comparison :=
  Num.sign (Num.sub (TransportPattern.averageCost a)
                    (TransportPattern.averageCost b)).

(** [p.visitCount / p.averageCost] *)
Definition ratioOf (p : TransportPattern.t) : Num.number :=
  Num.div (Num.of_nat (TransportPattern.visitCount p))
          (TransportPattern.averageCost p).

(** [(a, b) => bEfficiency - aEfficiency] *)
Definition compareByRatio (a b : TransportPattern.t) : comparison :=
  Num.sign (Num.sub (ratioOf b) (ratioOf a)).

(** The comparator of the [switch]. *)
Definition comparatorOf (optimizationType : OptimizationType)
  : TransportPattern.t -> TransportPattern.t -> comparison :=
  match optimizationType with
  | cost => compareByAverageCost
  | time => Engine.compareByVisitCount
  | efficiency => compareByRatio
  end.

Definition selectedPatternsOf (selectedLocations : list string)
  (transportPatterns : list TransportPattern.t) : list TransportPattern.t :=
  filter (fun p => includes selectedLocations (TransportPattern.location p))
         transportPatterns.

(** [optimizedRoute], [None] for [null]. *)
Definition optimizedRoute (selectedLocations : list string)
  (optimizationType : OptimizationType)
  (transportPatterns : list TransportPattern.t)
  : option OptimizedRoute.t :=
  if (List.length selectedLocations =? 0)%nat then None
  else
    let selectedPatterns :=
      selectedPatternsOf selectedLocations transportPatterns in
    if (List.length selectedPatterns =? 0)%nat then None
    else
      let sortedPatterns :=
        Arr.sort (comparatorOf optimizationType) selectedPatterns in
      let route := map TransportPattern.location sortedPatterns in
      Some
        (OptimizedRoute.mk
           route
           (fold_left
              (fun sum p => Num.add sum (TransportPattern.averageCost p))
              sortedPatterns Num.zero)
           (Engine.hoursOf (List.length route))
           (fold_left (fun sum p => Num.add sum (ratioOf p))
                      sortedPatterns Num.zero)
           optimizationType).

(** The update of [selectedLocations] by [handleLocationToggle]. *)
Definition handleLocationToggle (location : string) (prev : list string)
  : list string :=
  if includes prev location
  then filter (fun l => negb (String.eqb l location)) prev
  else prev ++ [location].

End RouteOptimizer.

(* ================================================================== *)
(** ** Notions used to state the properties, and further scenarios *)
(* ================================================================== *)

Module Reading.

Section WithHost.
Context {host : Host}.

(** The dates of two visits are valid and the first is not after the
    second. *)
Definition upTo (a b : Engine.Visit.t) : Prop :=
  exists ta tb,
    Date_getTime (Engine.Visit.date a) = Some ta /\
    Date_getTime (Engine.Visit.date b) = Some tb /\ (ta <= tb)%Z.

End WithHost.

(** The last element of a list. *)
Definition endsWith {A : Type} (l : list A) (x : A) : Prop :=
  exists before, l = before ++ [x].

(** An action as the form performs it: the identifier of a new item is
    drawn afresh, and the fields edited are the location, the
    transportation and the cost. *)
Definition performed (items : list ReportItem.t) (a : ReportForm.Action)
  : Prop :=
  match a with
  | ReportForm.AddItem id => ~ In id (map ReportItem.id items)
  | ReportForm.UpdateItem _ (ReportForm.IdIs _) => False
  | _ => True
  end.

(** Every action of a session is performed so, each on the list that
    the actions before it have led to. *)
Fixpoint session (items : list ReportItem.t)
  (actions : list ReportForm.Action) : Prop :=
  match actions with
  | [] => True
  | a :: rest => performed items a /\ session (ReportForm.act items a) rest
  end.

(** What a call may write for a draft: the columns of the draft, and
    rows made of its items, of which there is one at least. *)
Definition writesOf (reportData : Manager.Draft.t)
  (call : Manager.Persistence) : Prop :=
  match call with
  | Manager.InsertReport _ columns
  | Manager.UpdateReport _ _ columns =>
      columns = Manager.columnsOf reportData
  | Manager.InsertItems rows =>
      Manager.Draft.items reportData <> [] /\
      exists id,
        rows = Manager.itemRowsOf id (Manager.Draft.items reportData)
  | _ => True
  end.

End Reading.

(** White space as far as the ASCII characters go: tab, line feed,
    vertical tab, form feed, carriage return and space. *)
Module PlainText.

Definition isSpace (c : ascii) : bool :=
  let n := nat_of_ascii c in
  ((9 <=? n) && (n <=? 13) || (n =? 32))%nat.

Fixpoint trimStart (cs : list ascii) : list ascii :=
  match cs with
  | c :: cs' => if isSpace c then trimStart cs' else cs
  | [] => []
  end.

Definition trim (s : string) : string :=
  string_of_list_ascii
    (rev (trimStart (rev (trimStart (list_ascii_of_string s))))).

Definition text : Text := Build_Text trim.

End PlainText.

Module Cases.

(** A backend with a signed-in user that answers every call. *)
Definition signedIn : Manager.Backend :=
  {| Manager.auth_getUser :=
       fun _ => Returns (Some {| Manager.user_id := "u1" |});
     Manager.select_reports := fun _ => Manager.Data (Some []);
     Manager.insert_report := fun _ _ _ => Manager.Data "new-id";
     Manager.insert_items := fun _ _ => Manager.Data tt;
     Manager.update_report := fun _ _ _ _ => Manager.Data tt;
     Manager.delete_items := fun _ _ => Manager.Data tt;
     Manager.delete_report := fun _ _ _ => Manager.Data tt |}.

(** The same, but the insert of the items fails. *)
Definition itemsFail : Manager.Backend :=
  {| Manager.auth_getUser :=
       fun _ => Returns (Some {| Manager.user_id := "u1" |});
     Manager.select_reports := fun _ => Manager.Data (Some []);
     Manager.insert_report := fun _ _ _ => Manager.Data "new-id";
     Manager.insert_items :=
       fun _ _ => Manager.Error (ServiceError "insert failed");
     Manager.update_report := fun _ _ _ _ => Manager.Data tt;
     Manager.delete_items := fun _ _ => Manager.Data tt;
     Manager.delete_report := fun _ _ _ => Manager.Data tt |}.

(** The same as the first, but the select of the refresh fails. *)
Definition selectFails : Manager.Backend :=
  {| Manager.auth_getUser :=
       fun _ => Returns (Some {| Manager.user_id := "u1" |});
     Manager.select_reports :=
       fun _ => Manager.Error (ServiceError "select failed");
     Manager.insert_report := fun _ _ _ => Manager.Data "new-id";
     Manager.insert_items := fun _ _ => Manager.Data tt;
     Manager.update_report := fun _ _ _ _ => Manager.Data tt;
     Manager.delete_items := fun _ _ => Manager.Data tt;
     Manager.delete_report := fun _ _ _ => Manager.Data tt |}.

(** A form filled in with two journeys, the second without its
    location. *)
Definition filledForm : ReportForm.t :=
  ReportForm.mk (Some verification) "2024-03-10" "" "0123456789"
                "A. Officer" "First Bank"
                [Scenario.item "f1" "Yaba" "Bus" 500;
                 Scenario.item "f2" "  " "Keke" 300].

(** The same form with no journey filled in. *)
Definition emptyForm : ReportForm.t :=
  ReportForm.mk (Some verification) "2024-03-10" "" "0123456789"
                "A. Officer" "First Bank" [ReportForm.blankItem "f1"].

Definition page (form : ReportForm.t) : Page.t :=
  Page.mk Scenario.world form "create" None None [].

(** Six places in a first report, five of them again in a second. *)
Definition sixPlaces : list Report.t :=
  [Scenario.report "s1" "2024-04-01"
     [Scenario.item "a1" "Ajah" "Bus" 100;
      Scenario.item "a2" "Badagry" "Bus" 100;
      Scenario.item "a3" "Epe" "Bus" 100;
      Scenario.item "a4" "Festac" "Bus" 100;
      Scenario.item "a5" "Gbagada" "Bus" 100;
      Scenario.item "a6" "Ikoyi" "Bus" 100];
   Scenario.report "s2" "2024-04-02"
     [Scenario.item "b2" "Badagry" "Bus" 100;
      Scenario.item "b3" "Epe" "Bus" 100;
      Scenario.item "b4" "Festac" "Bus" 100;
      Scenario.item "b5" "Gbagada" "Bus" 100;
      Scenario.item "b6" "Ikoyi" "Bus" 100]].

(** A location visited four times, the reports listed out of the order
    of their dates. *)
Definition outOfOrder : list Report.t :=
  [Scenario.report "o1" "2024-03-01" [Scenario.item "a" "Lekki" "Bus" 200];
   Scenario.report "o2" "2024-01-01" [Scenario.item "b" "Lekki" "Bus" 100];
   Scenario.report "o3" "2024-04-01" [Scenario.item "c" "Lekki" "Bus" 5000];
   Scenario.report "o4" "2024-02-01" [Scenario.item "d" "Lekki" "Bus" 100]].

(** A location visited four times, one of the reports with a date that
    cannot be read. *)
Definition oneUnreadable : list Report.t :=
  [Scenario.report "u1" "2024-02-01" [Scenario.item "a" "Lekki" "Bus" 1000];
   Scenario.report "u2" "2024-03-01" [Scenario.item "b" "Lekki" "Bus" 1000];
   Scenario.report "u3" "someday" [Scenario.item "c" "Lekki" "Bus" 5000];
   Scenario.report "u4" "2024-01-01" [Scenario.item "d" "Lekki" "Bus" 100]].

(** One report with an item whose date cannot be read. *)
Definition undated : list Report.t :=
  [Scenario.report "r" "someday" [Scenario.item "i" "Yaba" "Bus" 500]].

End Cases.

(* ================================================================== *)
(** * Properties *)
(* ================================================================== *)


(* ================================================================== *)
(** ** Numbers *)
(* ================================================================== *)

Module NumFacts.

Import Num.

Lemma nonneg_inv (x : Num.number) :
  nonneg x ->
  (exists s, x = S754_zero s) \/ x = S754_infinity false \/ posfin x.
Proof.
  unfold nonneg, Num.ge, SFleb, posfin.
  destruct x as [s | [|] | | [|] m e]; simpl; try discriminate; eauto.
Qed.

Lemma nonneg_not_nan (x : Num.number) : nonneg x -> Num.isNaN x = false.
Proof.
  intros H. destruct (nonneg_inv x H) as [[s ->] | [-> | (m & e & ->)]];
    reflexivity.
Qed.

Lemma shr_1_nonneg (mrs : shr_record) :
  (0 <= shr_m mrs)%Z -> (0 <= shr_m (shr_1 mrs))%Z.
Proof.
  destruct mrs as [m r s]. simpl.
  destruct m as [| [p | p |] | p]; simpl; lia.
Qed.

Lemma iter_shr_1_nonneg (p : positive) (mrs : shr_record) :
  (0 <= shr_m mrs)%Z -> (0 <= shr_m (iter_pos shr_1 p mrs))%Z.
Proof.
  revert mrs. induction p as [p IH | p IH |]; intros mrs H; simpl.
  - apply IH, IH, shr_1_nonneg, H.
  - apply IH, IH, H.
  - apply shr_1_nonneg, H.
Qed.

Lemma shr_fexp_nonneg (m e : Z) (l : location) :
  (0 <= m)%Z ->
  (0 <= shr_m (fst (shr_fexp Num.prec Num.emax m e l)))%Z.
Proof.
  intros H. unfold shr_fexp, shr.
  assert (H0 : (0 <= shr_m (shr_record_of_loc m l))%Z).
  { destruct l as [| []]; simpl; exact H. }
  destruct (fexp Num.prec Num.emax (Zdigits2 m + e) - e)%Z; simpl;
    auto using iter_shr_1_nonneg.
Qed.

Lemma round_nearest_even_nonneg (m : Z) (l : location) :
  (0 <= m)%Z -> (0 <= round_nearest_even m l)%Z.
Proof.
  intros H. destruct l as [| []]; simpl; try lia.
  destruct (Z.even m); lia.
Qed.

(** Rounding a non-negative mantissa gives a zero, a finite number or an
    infinity of the sign asked for, never [NaN]. *)
Lemma binary_round_aux_sign (sx : bool) (m e : Z) (l : location) :
  (0 <= m)%Z ->
  let r := binary_round_aux Num.prec Num.emax sx m e l in
  r = S754_zero sx \/ r = S754_infinity sx \/
  exists m' e', r = S754_finite sx m' e'.
Proof.
  intros H. unfold binary_round_aux.
  pose proof (shr_fexp_nonneg m e l H) as H1.
  destruct (shr_fexp Num.prec Num.emax m e l) as [mrs' e'] eqn:E1.
  simpl in H1.
  pose proof (shr_fexp_nonneg
                (round_nearest_even (shr_m mrs') (loc_of_shr_record mrs'))
                e' loc_Exact
                (round_nearest_even_nonneg _ _ H1)) as H2.
  destruct (shr_fexp Num.prec Num.emax
              (round_nearest_even (shr_m mrs') (loc_of_shr_record mrs'))
              e' loc_Exact) as [mrs'' e''] eqn:E2.
  simpl in H2. simpl.
  destruct (shr_m mrs'') as [| p | p].
  - left. reflexivity.
  - destruct (e'' <=? _)%Z;
      [right; right; eauto | right; left; reflexivity].
  - lia.
Qed.

Lemma binary_round_sign (sx : bool) (m : positive) (e : Z) :
  let r := binary_round Num.prec Num.emax sx m e in
  r = S754_zero sx \/ r = S754_infinity sx \/
  exists m' e', r = S754_finite sx m' e'.
Proof.
  unfold binary_round.
  destruct (shl_align m e _) as [mz ez].
  apply binary_round_aux_sign. lia.
Qed.

Lemma binary_normalize_not_nan (m e : Z) :
  Num.isNaN (binary_normalize Num.prec Num.emax m e false) = false.
Proof.
  destruct m as [| p | p]; simpl; [reflexivity | |].
  - destruct (binary_round_sign false p e) as [-> | [-> | (m' & e' & ->)]];
      reflexivity.
  - destruct (binary_round_sign true p e) as [-> | [-> | (m' & e' & ->)]];
      reflexivity.
Qed.

Lemma nonneg_zero (s : bool) : nonneg (S754_zero s).
Proof. reflexivity. Qed.

Lemma nonneg_pinf : nonneg (S754_infinity false).
Proof. reflexivity. Qed.

Lemma nonneg_finite (m : positive) (e : Z) : nonneg (S754_finite false m e).
Proof. reflexivity. Qed.

Lemma nonneg_round (r : Num.number) :
  (r = S754_zero false \/ r = S754_infinity false \/
   exists m' e', r = S754_finite false m' e') -> nonneg r.
Proof. intros [-> | [-> | (m' & e' & ->)]]; reflexivity. Qed.

Lemma add_nonneg (x y : Num.number) :
  nonneg x -> nonneg y -> nonneg (Num.add x y).
Proof.
  intros Hx Hy.
  destruct (nonneg_inv x Hx) as [[sx ->] | [-> | (mx & ex & ->)]];
    destruct (nonneg_inv y Hy) as [[sy ->] | [-> | (my & ey & ->)]];
    try reflexivity.
  - destruct sx, sy; reflexivity.
  - unfold Num.add, SFadd. simpl cond_Zopp.
    apply nonneg_round.
    match goal with
    | |- context [binary_normalize _ _ (Z.pos ?a + Z.pos ?b) ?e _] =>
        change (Z.pos a + Z.pos b)%Z with (Z.pos (a + b));
        simpl binary_normalize
    end.
    apply binary_round_sign.
Qed.

Lemma sum_from_nonneg (costs : list Num.number) (acc : Num.number) :
  nonneg acc -> Forall nonneg costs -> nonneg (fold_left Num.add costs acc).
Proof.
  revert acc. induction costs as [| c costs IH]; intros acc Ha Hc; simpl.
  - exact Ha.
  - inversion Hc; subst. apply IH; auto using add_nonneg.
Qed.

Lemma div_core_nonneg (m1 m2 : positive) (e1 e2 : Z) :
  (0 <= fst (fst (SFdiv_core_binary Num.prec Num.emax
                                     (Z.pos m1) e1 (Z.pos m2) e2)))%Z.
Proof.
  unfold SFdiv_core_binary.
  set (s := (e1 - e2 - _)%Z).
  set (m' := match s with Z0 => Z.pos m1 | Z.pos _ => Z.shiftl (Z.pos m1) s
                     | Z.neg _ => 0%Z end).
  assert (Hm : (0 <= m')%Z).
  { subst m'. destruct s; try lia. apply Z.shiftl_nonneg. lia. }
  pose proof (Z_div_mod m' (Z.pos m2) ltac:(lia)) as Hd.
  destruct (Z.div_eucl m' (Z.pos m2)) as [q r]. simpl.
  destruct Hd as [Hd Hr]. nia.
Qed.

Lemma div_nonneg (x y : Num.number) :
  nonneg x -> posfin y -> nonneg (Num.div x y).
Proof.
  intros Hx (my & ey & ->).
  destruct (nonneg_inv x Hx) as [[sx ->] | [-> | (mx & ex & ->)]];
    try reflexivity.
  unfold Num.div, SFdiv.
  pose proof (div_core_nonneg mx my ex ey) as H.
  destruct (SFdiv_core_binary _ _ _ _ _ _) as [[mz ez] lz]. simpl in H.
  apply nonneg_round, binary_round_aux_sign, H.
Qed.

Lemma sub_finite_not_nan (sx : bool) (mx : positive) (ex : Z)
  (y : Num.number) :
  nonneg y -> Num.isNaN (Num.sub (S754_finite sx mx ex) y) = false.
Proof.
  intros Hy.
  destruct (nonneg_inv y Hy) as [[sy ->] | [-> | (my & ey & ->)]];
    try reflexivity.
  unfold Num.sub, SFsub. apply binary_normalize_not_nan.
Qed.

Lemma Math_max_zero_nonneg (x : Num.number) :
  Num.isNaN x = false -> nonneg (Num.Math_max Num.zero x).
Proof.
  destruct x as [s | [|] | | [|] m e]; simpl; intros H;
    try discriminate; reflexivity.
Qed.

Lemma efficiencyOf_nonneg (x d : Num.number) :
  nonneg x -> posfin d -> nonneg (Engine.efficiencyOf x d).
Proof.
  intros Hx Hd. unfold Engine.efficiencyOf.
  apply Math_max_zero_nonneg.
  change Engine.n100 with (S754_finite false 7036874417766400 (-46)).
  apply sub_finite_not_nan, div_nonneg; assumption.
Qed.

(** *** Integers below [2^53] are numbers *)

Lemma digits2_pos_lower (p : positive) :
  (2 ^ (Z.pos (digits2_pos p) - 1) <= Z.pos p)%Z.
Proof.
  induction p as [p IH | p IH |]; simpl digits2_pos.
  - rewrite Pos2Z.inj_succ.
    replace (Z.succ (Z.pos (digits2_pos p)) - 1)%Z
      with (Z.succ (Z.pos (digits2_pos p) - 1))%Z by lia.
    rewrite Z.pow_succ_r by lia. lia.
  - rewrite Pos2Z.inj_succ.
    replace (Z.succ (Z.pos (digits2_pos p)) - 1)%Z
      with (Z.succ (Z.pos (digits2_pos p) - 1))%Z by lia.
    rewrite Z.pow_succ_r by lia. lia.
  - simpl. lia.
Qed.

Lemma digits2_pos_bound (p : positive) :
  (Z.pos p < 2 ^ 53)%Z -> (Z.pos (digits2_pos p) <= 53)%Z.
Proof.
  intros H. pose proof (digits2_pos_lower p) as L.
  destruct (Z_le_gt_dec (Z.pos (digits2_pos p)) 53) as [|G]; [assumption|].
  exfalso.
  assert (2 ^ 53 <= 2 ^ (Z.pos (digits2_pos p) - 1))%Z
    by (apply Z.pow_le_mono_r; lia).
  lia.
Qed.

Lemma digits2_pos_iter_xO (p k : positive) :
  Z.pos (digits2_pos (Pos.iter xO p k)) = (Z.pos (digits2_pos p) + Z.pos k)%Z.
Proof.
  induction k as [| k IH] using Pos.peano_ind.
  - simpl. lia.
  - rewrite Pos.iter_succ. simpl digits2_pos.
    rewrite Pos2Z.inj_succ, IH. lia.
Qed.

(** A mantissa of 53 digits with an exponent in range is its own
    rounding. *)
Lemma binary_round_aux_exact (sx : bool) (m : positive) (e : Z) :
  Z.pos (digits2_pos m) = 53%Z -> (-1074 <= e <= 971)%Z ->
  binary_round_aux Num.prec Num.emax sx (Z.pos m) e loc_Exact
  = S754_finite sx m e.
Proof.
  intros Hd He.
  assert (Hs : shr_fexp Num.prec Num.emax (Z.pos m) e loc_Exact
               = ({| shr_m := Z.pos m; shr_r := false; shr_s := false |}, e)).
  { unfold shr_fexp, fexp, emin, Num.prec, Num.emax. simpl Zdigits2.
    rewrite Hd.
    replace (Z.max (53 + e - 53) (3 - 1024 - 53) - e)%Z with 0%Z by lia.
    reflexivity. }
  unfold binary_round_aux. rewrite Hs. simpl round_nearest_even.
  rewrite Hs. simpl shr_m.
  replace (e <=? Num.emax - Num.prec)%Z with true; [reflexivity |].
  symmetry. apply Z.leb_le. unfold Num.emax, Num.prec. lia.
Qed.

Lemma of_Z_posfin (z : Z) :
  (1 <= z < 2 ^ 53)%Z -> posfin (Num.of_Z z).
Proof.
  intros [H1 H2]. destruct z as [| p | p]; try lia.
  unfold Num.of_Z. simpl binary_normalize. unfold binary_round.
  pose proof (digits2_pos_bound p H2) as Hd.
  assert (Hp : (0 < Z.pos (digits2_pos p))%Z) by lia.
  unfold fexp, emin, Num.prec, Num.emax, shl_align.
  replace (Z.max (Z.pos (digits2_pos p) + 0 - 53) (3 - 1024 - 53) - 0)%Z
    with (Z.pos (digits2_pos p) - 53)%Z by lia.
  destruct (Z.pos (digits2_pos p) - 53)%Z as [| k | k] eqn:Ek; try lia.
  - exists p, 0%Z.
    apply (binary_round_aux_exact false p 0); lia.
  - exists (Pos.iter xO p k).
    eexists.
    apply (binary_round_aux_exact false).
    + rewrite digits2_pos_iter_xO. lia.
    + lia.
Qed.

Lemma of_nat_posfin (n : nat) :
  (1 <= n)%nat -> (Z.of_nat n < 2 ^ 53)%Z -> posfin (Num.of_nat n).
Proof.
  intros H1 H2. apply of_Z_posfin. lia.
Qed.

(** The score of a group of non-negative costs is never negative. *)
Lemma efficiency_of_group_nonneg (total d : Num.number) (n : nat) :
  nonneg total -> posfin d -> (1 <= n)%nat -> (Z.of_nat n < 2 ^ 53)%Z ->
  nonneg (Engine.efficiencyOf (Num.div total (Num.of_nat n)) d).
Proof.
  intros Ht Hd H1 H2.
  apply efficiencyOf_nonneg; [| assumption].
  apply div_nonneg; [assumption |]. apply of_nat_posfin; assumption.
Qed.

End NumFacts.

(* ================================================================== *)
(** ** Arrays *)
(* ================================================================== *)

Module ArrFacts.

Section Sort.
Context {A : Type}.
Variable compareFn : A -> A -> comparison.

Lemma insert_perm (x : A) (l : list A) :
  Permutation (Arr.insert compareFn x l) (x :: l).
Proof.
  induction l as [| y l IH]; simpl.
  - apply Permutation_refl.
  - destruct (compareFn x y); try apply Permutation_refl.
    eapply perm_trans; [apply perm_skip, IH | apply perm_swap].
Qed.

Lemma sort_perm (l : list A) : Permutation (Arr.sort compareFn l) l.
Proof.
  induction l as [| x l IH]; simpl.
  - constructor.
  - eapply perm_trans; [apply insert_perm | apply perm_skip, IH].
Qed.

Lemma sort_length (l : list A) :
  List.length (Arr.sort compareFn l) = List.length l.
Proof. apply Permutation_length, sort_perm. Qed.

Lemma sort_In (l : list A) (x : A) :
  In x (Arr.sort compareFn l) <-> In x l.
Proof.
  split; apply Permutation_in;
    [apply sort_perm | apply Permutation_sym, sort_perm].
Qed.

(** An array already in order is left as it is. *)
Lemma sort_fixed (l : list A) :
  Sorted (Arr.inOrder compareFn) l -> Arr.sort compareFn l = l.
Proof.
  induction 1 as [| x l Hs IH Hd]; simpl.
  - reflexivity.
  - rewrite IH. destruct Hd as [| y l Hxy]; simpl.
    + reflexivity.
    + unfold Arr.inOrder in Hxy. destruct (compareFn x y); congruence.
Qed.

Section Consistent.
Hypothesis comparator_total :
  forall x y, compareFn x y = Gt -> compareFn y x <> Gt.

Lemma insert_HdRel (x a : A) (l : list A) :
  Arr.inOrder compareFn a x ->
  HdRel (Arr.inOrder compareFn) a l ->
  HdRel (Arr.inOrder compareFn) a (Arr.insert compareFn x l).
Proof.
  intros Hax Hal. destruct l as [| y l]; simpl.
  - constructor. exact Hax.
  - inversion Hal; subst.
    destruct (compareFn x y); constructor; assumption.
Qed.

Lemma insert_sorted (x : A) (l : list A) :
  Sorted (Arr.inOrder compareFn) l ->
  Sorted (Arr.inOrder compareFn) (Arr.insert compareFn x l).
Proof.
  induction 1 as [| y l Hs IH Hd]; simpl.
  - repeat constructor.
  - destruct (compareFn x y) eqn:E.
    + constructor; [constructor; assumption |].
      constructor. unfold Arr.inOrder. congruence.
    + constructor; [constructor; assumption |].
      constructor. unfold Arr.inOrder. congruence.
    + constructor; [exact IH |].
      apply insert_HdRel; [| exact Hd].
      apply comparator_total, E.
Qed.

Lemma sort_sorted (l : list A) :
  Sorted (Arr.inOrder compareFn) (Arr.sort compareFn l).
Proof.
  induction l as [| x l IH]; simpl.
  - constructor.
  - apply insert_sorted, IH.
Qed.

(** Sorting changes an array that has two neighbours out of order. *)
Lemma sort_changes (l1 l2 : list A) (a b : A) :
  compareFn a b = Gt ->
  Arr.sort compareFn (l1 ++ a :: b :: l2) <> l1 ++ a :: b :: l2.
Proof.
  intros Hab Heq.
  pose proof (sort_sorted (l1 ++ a :: b :: l2)) as Hs.
  rewrite Heq in Hs. clear Heq.
  induction l1 as [| x l1 IH]; simpl in Hs.
  - inversion Hs as [| ? ? _ Hd]; subst.
    inversion Hd; subst. unfold Arr.inOrder in *. congruence.
  - inversion Hs; subst. auto.
Qed.

Section Transitive.
Hypothesis inOrder_trans :
  forall x y z,
    Arr.inOrder compareFn x y -> Arr.inOrder compareFn y z ->
    Arr.inOrder compareFn x z.

Lemma sort_strongly_sorted (l : list A) :
  StronglySorted (Arr.inOrder compareFn) (Arr.sort compareFn l).
Proof.
  apply Sorted_StronglySorted.
  - intros x y z. apply inOrder_trans.
  - apply sort_sorted.
Qed.

End Transitive.
End Consistent.
End Sort.

Lemma slice_first_length {A} (n : nat) (l : list A) :
  List.length (Arr.slice_first n l) = Nat.min n (List.length l).
Proof. apply length_firstn. Qed.

Lemma slice_last_length {A} (n : nat) (l : list A) :
  List.length (Arr.slice_last n l) = Nat.min n (List.length l).
Proof. unfold Arr.slice_last. rewrite length_skipn. lia. Qed.

Lemma In_firstn {A} (n : nat) (l : list A) (x : A) :
  In x (firstn n l) -> In x l.
Proof.
  intros H. rewrite <- (firstn_skipn n l). apply in_or_app. left. exact H.
Qed.

Lemma In_skipn {A} (n : nat) (l : list A) (x : A) :
  In x (skipn n l) -> In x l.
Proof.
  intros H. rewrite <- (firstn_skipn n l). apply in_or_app. right. exact H.
Qed.

Lemma StronglySorted_firstn {A} (R : A -> A -> Prop) (n : nat) (l : list A) :
  StronglySorted R l -> StronglySorted R (firstn n l).
Proof.
  intros H. revert n. induction H as [| x l Hs IH Hf]; intros [| n]; simpl;
    try constructor; auto.
  rewrite Forall_forall in *. intros y Hy. apply Hf.
  eapply In_firstn; eassumption.
Qed.

(** What a sorted array keeps beyond its first [n] elements is below
    all of these. *)
Lemma StronglySorted_split {A} (R : A -> A -> Prop) (n : nat) (l : list A)
  (x y : A) :
  StronglySorted R l -> In x (firstn n l) -> In y (skipn n l) -> R x y.
Proof.
  intros H. revert n. induction H as [| z l Hs IH Hf]; intros n Hx Hy.
  - destruct n; simpl in Hx; contradiction.
  - destruct n as [| n]; simpl in Hx, Hy; [contradiction |].
    destruct Hx as [-> | Hx].
    + rewrite Forall_forall in Hf. apply Hf.
      eapply In_skipn; eassumption.
    + eapply IH; eassumption.
Qed.

End ArrFacts.

(* ================================================================== *)
(** ** Maps and groupings *)
(* ================================================================== *)

Module MapFacts.

Section Map.
Context {V : Type}.
Implicit Types (m : JSMap.t V) (k : string) (v : V).

Lemma get_set_same m k v : JSMap.get (JSMap.set m k v) k = Some v.
Proof.
  induction m as [| [k' v'] m IH]; simpl.
  - rewrite String.eqb_refl. reflexivity.
  - destruct (String.eqb k' k) eqn:E; simpl; rewrite E; auto.
Qed.

Lemma get_set_other m k k' v :
  k <> k' -> JSMap.get (JSMap.set m k v) k' = JSMap.get m k'.
Proof.
  intros Hne. induction m as [| [k0 v0] m IH]; simpl.
  - destruct (String.eqb k k') eqn:E; [| reflexivity].
    apply String.eqb_eq in E. contradiction.
  - destruct (String.eqb k0 k) eqn:E; simpl.
    + apply String.eqb_eq in E. subst k0.
      destruct (String.eqb k k') eqn:E'; [| reflexivity].
      apply String.eqb_eq in E'. contradiction.
    + rewrite IH. reflexivity.
Qed.

Lemma set_set m k v v' :
  JSMap.set (JSMap.set m k v) k v' = JSMap.set m k v'.
Proof.
  induction m as [| [k0 v0] m IH]; simpl.
  - rewrite String.eqb_refl. reflexivity.
  - destruct (String.eqb k0 k) eqn:E; simpl; rewrite E; congruence.
Qed.

Lemma has_keys m k :
  JSMap.has m k = existsb (String.eqb k) (JSMap.keys m).
Proof.
  unfold JSMap.has. induction m as [| [k0 v0] m IH]; simpl.
  - reflexivity.
  - rewrite (String.eqb_sym k k0).
    destruct (String.eqb k0 k); simpl; auto.
Qed.

Lemma has_In m k : JSMap.has m k = true <-> In k (JSMap.keys m).
Proof.
  rewrite has_keys, existsb_exists. split.
  - intros (x & Hx & E). apply String.eqb_eq in E. subst. exact Hx.
  - intros H. exists k. split; [exact H | apply String.eqb_refl].
Qed.

Lemma keys_set m k v :
  JSMap.keys (JSMap.set m k v)
  = if JSMap.has m k then JSMap.keys m else JSMap.keys m ++ [k].
Proof.
  unfold JSMap.has. induction m as [| [k0 v0] m IH]; simpl.
  - reflexivity.
  - destruct (String.eqb k0 k) eqn:E; simpl.
    + reflexivity.
    + unfold JSMap.keys in *. simpl. rewrite IH.
      destruct (JSMap.get m k); reflexivity.
Qed.

(** With distinct keys, an entry is what [get] finds. *)
Lemma In_get m k v :
  NoDup (JSMap.keys m) -> In (k, v) m -> JSMap.get m k = Some v.
Proof.
  induction m as [| [k0 v0] m IH]; simpl; intros Hnd Hin.
  - contradiction.
  - inversion Hnd as [| ? ? Hnotin Hnd']; subst.
    destruct Hin as [E | Hin].
    + inversion E; subst. rewrite String.eqb_refl. reflexivity.
    + destruct (String.eqb k0 k) eqn:E.
      * apply String.eqb_eq in E. subst k0. exfalso. apply Hnotin.
        change (In (fst (k, v)) (map fst m)). apply in_map, Hin.
      * apply IH; assumption.
Qed.

Lemma get_In m k v : JSMap.get m k = Some v -> In (k, v) m.
Proof.
  induction m as [| [k0 v0] m IH]; simpl; intros H.
  - discriminate.
  - destruct (String.eqb k0 k) eqn:E.
    + apply String.eqb_eq in E. inversion H; subst. left. reflexivity.
    + right. apply IH, H.
Qed.

End Map.

(** *** Grouping: a fold whose step sets the entry of an element's key
    to an update of what the entry held, or of [init]. *)
Section GroupBy.
Context {X V : Type}.
Variable key : X -> string.
Variable init : V.
Variable upd : V -> X -> V.
Variable step : JSMap.t V -> X -> JSMap.t V.

Hypothesis step_sets :
  forall m x,
    step m x = JSMap.set m (key x) (upd (JSMap.held init m (key x)) x).

Lemma held_set_same (m : JSMap.t V) (k : string) (v : V) :
  JSMap.held init (JSMap.set m k v) k = v.
Proof. unfold JSMap.held. rewrite get_set_same. reflexivity. Qed.

Lemma held_set_other (m : JSMap.t V) (k k' : string) (v : V) :
  k <> k' -> JSMap.held init (JSMap.set m k v) k' = JSMap.held init m k'.
Proof.
  intros H. unfold JSMap.held. rewrite get_set_other by exact H.
  reflexivity.
Qed.

Lemma group_get (xs : list X) (m : JSMap.t V) (k : string) :
  JSMap.get (fold_left step xs m) k
  = match JSMap.groupOf key k xs with
    | [] => JSMap.get m k
    | _ :: _ =>
        Some (fold_left upd (JSMap.groupOf key k xs) (JSMap.held init m k))
    end.
Proof.
  revert m. induction xs as [| x xs IH]; intros m; simpl.
  - reflexivity.
  - rewrite IH, step_sets. destruct (String.eqb (key x) k) eqn:E.
    + apply String.eqb_eq in E. subst k.
      simpl fold_left.
      destruct (JSMap.groupOf key (key x) xs).
      * apply get_set_same.
      * f_equal. f_equal. apply held_set_same.
    + assert (Hne : key x <> k).
      { intros Heq. rewrite Heq, String.eqb_refl in E. discriminate. }
      rewrite (held_set_other _ _ _ _ Hne), (get_set_other _ _ _ _ Hne).
      reflexivity.
Qed.

Lemma filter_filter_absorb (ks seen : list string) (k : string) :
  In k seen ->
  filter (fun k' => negb (existsb (String.eqb k') seen))
         (filter (fun k' => negb (String.eqb k k')) ks)
  = filter (fun k' => negb (existsb (String.eqb k') seen)) ks.
Proof.
  intros Hin. induction ks as [| a ks IH]; simpl.
  - reflexivity.
  - destruct (String.eqb k a) eqn:E; simpl.
    + apply String.eqb_eq in E. subst a.
      assert (existsb (String.eqb k) seen = true) as ->.
      { apply existsb_exists. exists k. split; auto using String.eqb_refl. }
      simpl. exact IH.
    + rewrite IH. reflexivity.
Qed.

Lemma filter_snoc_seen (ks seen : list string) (k : string) :
  filter (fun k' => negb (existsb (String.eqb k') (seen ++ [k]))) ks
  = filter (fun k' => negb (existsb (String.eqb k') seen))
           (filter (fun k' => negb (String.eqb k k')) ks).
Proof.
  induction ks as [| a ks IH]; simpl.
  - reflexivity.
  - rewrite existsb_app. simpl. rewrite orb_false_r.
    rewrite (String.eqb_sym a k).
    destruct (String.eqb k a) eqn:E; simpl.
    + rewrite orb_true_r. simpl. exact IH.
    + rewrite orb_false_r.
      destruct (existsb (String.eqb a) seen); simpl; rewrite IH; reflexivity.
Qed.

(** The keys come in the order in which they are first met. *)
Lemma group_keys_from (xs : list X) (m : JSMap.t V) :
  JSMap.keys (fold_left step xs m)
  = JSMap.keys m
    ++ filter (fun k => negb (existsb (String.eqb k) (JSMap.keys m)))
              (Spec.firstSeen (map key xs)).
Proof.
  revert m. induction xs as [| x xs IH]; intros m; simpl.
  - rewrite app_nil_r. reflexivity.
  - rewrite IH, step_sets, keys_set. rewrite has_keys.
    destruct (existsb (String.eqb (key x)) (JSMap.keys m)) eqn:E; simpl.
    + f_equal. symmetry. apply filter_filter_absorb.
      apply existsb_exists in E. destruct E as (k & Hk & Ek).
      apply String.eqb_eq in Ek. subst. exact Hk.
    + rewrite <- app_assoc. simpl. f_equal. f_equal.
      apply filter_snoc_seen.
Qed.

Lemma group_keys (xs : list X) :
  JSMap.keys (fold_left step xs JSMap.empty) = Spec.firstSeen (map key xs).
Proof.
  rewrite group_keys_from. simpl.
  induction (Spec.firstSeen (map key xs)) as [| a l IH]; simpl; congruence.
Qed.

Lemma firstSeen_NoDup (ks : list string) : NoDup (Spec.firstSeen ks).
Proof.
  induction ks as [| k ks IH]; simpl.
  - constructor.
  - constructor.
    + rewrite filter_In. intros [_ H]. rewrite String.eqb_refl in H.
      discriminate.
    + apply NoDup_filter, IH.
Qed.

Lemma firstSeen_In (ks : list string) (k : string) :
  In k (Spec.firstSeen ks) <-> In k ks.
Proof.
  induction ks as [| a ks IH]; simpl.
  - tauto.
  - rewrite filter_In, IH. split.
    + tauto.
    + intros [-> | H]; [left; reflexivity |].
      destruct (String.eqb a k) eqn:E.
      * apply String.eqb_eq in E. left. exact E.
      * right. split; auto.
Qed.

(** An entry of the grouping holds the fold of the elements of its
    key, of which there is one at least. *)
Lemma group_entry (xs : list X) (k : string) (v : V) :
  In (k, v) (fold_left step xs JSMap.empty) ->
  JSMap.groupOf key k xs <> [] /\
  v = fold_left upd (JSMap.groupOf key k xs) init.
Proof.
  intros Hin.
  assert (Hnd : NoDup (JSMap.keys (fold_left step xs JSMap.empty))).
  { rewrite group_keys. apply firstSeen_NoDup. }
  pose proof (In_get _ _ _ Hnd Hin) as Hg.
  rewrite group_get in Hg.
  destruct (JSMap.groupOf key k xs) eqn:E.
  - simpl in Hg. discriminate.
  - split; [discriminate |]. unfold JSMap.held in Hg. simpl JSMap.get in Hg.
    inversion Hg. reflexivity.
Qed.

(** Every key that is met has its entry. *)
Lemma group_has (xs : list X) (x : X) :
  In x xs ->
  exists v, In (key x, v) (fold_left step xs JSMap.empty).
Proof.
  intros Hin.
  assert (Hg : JSMap.groupOf key (key x) xs <> []).
  { intros E. assert (In x (JSMap.groupOf key (key x) xs)).
    { apply filter_In. split; [exact Hin | apply String.eqb_refl]. }
    rewrite E in H. contradiction. }
  pose proof (group_get xs JSMap.empty (key x)) as G.
  destruct (JSMap.groupOf key (key x) xs) eqn:E; [congruence |].
  eexists. apply get_In. exact G.
Qed.

End GroupBy.

End MapFacts.

(* ================================================================== *)
(** ** Strings *)
(* ================================================================== *)

Module StrFacts.

Lemma prefix_cons (a b : ascii) (s1 s2 : string) :
  String.prefix (String a s1) (String b s2)
  = Ascii.eqb a b && String.prefix s1 s2.
Proof.
  simpl. destruct (ascii_dec a b) as [-> | Hne].
  - rewrite Ascii.eqb_refl. reflexivity.
  - apply Ascii.eqb_neq in Hne. rewrite Hne. reflexivity.
Qed.

Lemma prefix_nil (s : string) : String.prefix "" s = true.
Proof. destruct s; reflexivity. Qed.

Lemma append_nil_r (s : string) : String.append s "" = s.
Proof. induction s; simpl; congruence. Qed.

Lemma append_snoc (s : string) (c : ascii) (r : string) :
  String.append (String.append s (String c "")) r
  = String.append s (String c r).
Proof. induction s; simpl; congruence. Qed.

Lemma prefix_app_l (s1 s2 s : string) :
  String.prefix (String.append s1 s2) s = true -> String.prefix s1 s = true.
Proof.
  revert s. induction s1 as [| a s1 IH]; intros s H.
  - apply prefix_nil.
  - destruct s as [| b s]; [discriminate |].
    simpl String.append in H. rewrite prefix_cons in *.
    apply andb_true_iff in H. destruct H as [H1 H2].
    rewrite H1, (IH _ H2). reflexivity.
Qed.

Lemma includes_unfold (pat s : string) :
  Str.includes pat s
  = if String.prefix pat s then true
    else match s with
         | EmptyString => false
         | String _ s' => Str.includes pat s'
         end.
Proof. destruct s; reflexivity. Qed.

Lemma prefix_includes (pat s : string) :
  String.prefix pat s = true -> Str.includes pat s = true.
Proof. intros H. rewrite includes_unfold, H. reflexivity. Qed.

Lemma includes_tail (pat : string) (c : ascii) (s : string) :
  Str.includes pat (String c s) = false -> Str.includes pat s = false.
Proof.
  rewrite includes_unfold.
  destruct (String.prefix pat (String c s)); [discriminate | auto].
Qed.

Lemma not_includes_prefix (pat s : string) :
  Str.includes pat s = false -> String.prefix pat s = false.
Proof.
  intros H. destruct (String.prefix pat s) eqn:E; [| reflexivity].
  rewrite (prefix_includes _ _ E) in H. discriminate.
Qed.

Lemma split_from_cons (sep piece : string) (c : ascii) (s : string) :
  Str.split_from sep 0 piece (String c s)
  = if String.prefix sep (String c s)
    then piece :: Str.split_from sep (String.length sep - 1) "" s
    else Str.split_from sep 0 (String.append piece (String c "")) s.
Proof. reflexivity. Qed.

(** The separator of the route keys starts one character before an
    arrow. *)
Lemma prefix_arrow_tail (c : ascii) (s : string) :
  String.prefix Engine.arrow (String c s) = true ->
  String.prefix "→" s = true.
Proof.
  unfold Engine.arrow.
  change " → " with (String " " (String.append "→" " ")).
  rewrite prefix_cons. intros H.
  apply andb_true_iff in H. destruct H as [_ H].
  eapply prefix_app_l. exact H.
Qed.

Lemma no_arrow_no_separator (s : string) :
  Str.includes "→" s = false -> String.prefix Engine.arrow s = false.
Proof.
  intros H. destruct s as [| c s]; [reflexivity |].
  destruct (String.prefix Engine.arrow (String c s)) eqn:E; [| reflexivity].
  apply prefix_arrow_tail, prefix_includes in E.
  rewrite (includes_tail _ _ _ H) in E. discriminate.
Qed.

(** No arrow starts in a string without arrows and ends in the
    separator that follows it. *)
Lemma no_arrow_straddles (a b : string) :
  Str.includes "→" a = false ->
  String.prefix "→"
    (String.append a (String.append Engine.arrow b)) = false.
Proof.
  intros H. apply not_includes_prefix in H.
  change "→" with (String "226" (String "134" (String "146" ""))) in *.
  change (String.append Engine.arrow b)
    with (String " " (String "226" (String "134" (String "146"
            (String " " b))))).
  destruct a as [| x [| y [| z r]]]; simpl String.append.
  - reflexivity.
  - rewrite !prefix_cons. simpl. apply andb_false_r.
  - rewrite !prefix_cons. simpl. rewrite andb_false_r. apply andb_false_r.
  - rewrite !prefix_cons in *. rewrite !prefix_nil in *. exact H.
Qed.

Lemma split_no_arrow (b piece : string) :
  Str.includes "→" b = false ->
  Str.split_from Engine.arrow 0 piece b = [String.append piece b].
Proof.
  revert piece. induction b as [| c b IH]; intros piece H.
  - simpl. rewrite append_nil_r. reflexivity.
  - rewrite split_from_cons, (no_arrow_no_separator _ H).
    rewrite IH by (eapply includes_tail; exact H).
    rewrite append_snoc. reflexivity.
Qed.

Lemma split_key_from (a b piece : string) :
  Str.includes "→" a = false -> Str.includes "→" b = false ->
  Str.split_from Engine.arrow 0 piece
    (String.append a (String.append Engine.arrow b))
  = [String.append piece a; b].
Proof.
  intros Ha Hb. revert piece. induction a as [| c a IH]; intros piece.
  - change (String.append "" (String.append Engine.arrow b))
      with (String " " (String "226" (String "134" (String "146"
              (String " " b))))).
    rewrite split_from_cons.
    replace (String.prefix Engine.arrow _) with true
      by (unfold Engine.arrow; rewrite !prefix_cons, prefix_nil;
          reflexivity).
    change (String.length Engine.arrow - 1) with 4.
    change (Str.split_from Engine.arrow 4 ""
              (String "226" (String "134" (String "146" (String " " b)))))
      with (Str.split_from Engine.arrow 0 "" b).
    rewrite (split_no_arrow b "" Hb), append_nil_r. reflexivity.
  - change (String.append (String c a) (String.append Engine.arrow b))
      with (String c (String.append a (String.append Engine.arrow b))).
    rewrite split_from_cons.
    assert (E : String.prefix Engine.arrow
                  (String c (String.append a (String.append Engine.arrow b)))
                = false).
    { destruct (String.prefix Engine.arrow _) eqn:E; [| reflexivity].
      apply prefix_arrow_tail in E.
      rewrite (no_arrow_straddles a b) in E; [discriminate |].
      eapply includes_tail; exact Ha. }
    rewrite E.
    rewrite IH by (eapply includes_tail; exact Ha).
    rewrite append_snoc. reflexivity.
Qed.

(** The key of two locations without arrows splits back into the two
    locations. *)
Lemma split_key (a b : string) :
  Str.includes "→" a = false -> Str.includes "→" b = false ->
  Str.split Engine.arrow (String.append a (String.append Engine.arrow b))
  = [a; b].
Proof. intros Ha Hb. unfold Str.split. apply split_key_from; assumption. Qed.

Lemma split_from_parts (sep piece s : string) (skip : nat) :
  1 <= List.length (Str.split_from sep skip piece s).
Proof.
  revert skip piece. induction s as [| c s IH]; intros skip piece.
  - simpl. lia.
  - destruct skip as [| k].
    + rewrite split_from_cons.
      destruct (String.prefix sep (String c s)); simpl; [lia | apply IH].
    + apply IH.
Qed.

(** A route key always splits into two parts at least, so that both
    names of a route are read from the split. *)
Lemma split_key_parts (a b : string) :
  2 <= List.length
         (Str.split Engine.arrow
                    (String.append a (String.append Engine.arrow b))).
Proof.
  unfold Str.split. generalize "" as piece.
  induction a as [| c a IH]; intros piece.
  - change (String.append "" (String.append Engine.arrow b))
      with (String " " (String "226" (String "134" (String "146"
              (String " " b))))).
    rewrite split_from_cons.
    replace (String.prefix Engine.arrow _) with true
      by (unfold Engine.arrow; rewrite !prefix_cons, prefix_nil;
          reflexivity).
    apply (le_n_S 1), split_from_parts.
  - change (String.append (String c a) (String.append Engine.arrow b))
      with (String c (String.append a (String.append Engine.arrow b))).
    rewrite split_from_cons.
    destruct (String.prefix Engine.arrow _).
    + apply (le_n_S 1), split_from_parts.
    + apply IH.
Qed.

End StrFacts.

(* ================================================================== *)
(** ** The engine, step by step *)
(* ================================================================== *)

Module EngineFacts.

Import Engine.

(** *** The three groupings *)

(** "Set the key to [init] unless it is there, then update what it
    holds" sets the key to the update of what it held. *)
Lemma upsert_sets {V : Type} (m : JSMap.t V) (k : string) (init : V)
  (f : V -> V) :
  (let m' := if negb (JSMap.has m k) then JSMap.set m k init else m in
   match JSMap.get m' k with
   | Some v => JSMap.set m' k (f v)
   | None => m'
   end)
  = JSMap.set m k (f (JSMap.held init m k)).
Proof.
  unfold JSMap.has, JSMap.held.
  destruct (JSMap.get m k) as [v |] eqn:E; simpl.
  - rewrite E. reflexivity.
  - rewrite MapFacts.get_set_same. apply MapFacts.set_set.
Qed.

Lemma addVisit_sets (m : JSMap.t LocationData.t) (item : TransportItem.t) :
  addVisit m item
  = JSMap.set m (TransportItem.location item)
      (updLocation (JSMap.held initLocation m (TransportItem.location item))
                   item).
Proof.
  unfold addVisit.
  apply (upsert_sets m (TransportItem.location item) initLocation
           (fun d => updLocation d item)).
Qed.

Lemma fold_updLocation (items : list TransportItem.t) (d : LocationData.t) :
  fold_left updLocation items d
  = LocationData.mk
      (LocationData.visits d ++ map visitOf items)
      (fold_left Num.add (map TransportItem.cost items)
                 (LocationData.totalCost d)).
Proof.
  revert d. induction items as [| item items IH]; intros d; simpl.
  - rewrite app_nil_r. destruct d; reflexivity.
  - rewrite IH. simpl. rewrite <- app_assoc. reflexivity.
Qed.

Lemma fold_updTally {X : Type} (costOf : X -> Num.number) (xs : list X)
  (t : Tally.t) :
  fold_left (fun t x => updTally t (costOf x)) xs t
  = Tally.mk (Tally.count t + List.length xs)
             (fold_left Num.add (map costOf xs) (Tally.totalCost t))
             (Tally.costs t ++ map costOf xs).
Proof.
  revert t. induction xs as [| x xs IH]; intros t; simpl.
  - rewrite app_nil_r, Nat.add_0_r. destruct t; reflexivity.
  - rewrite IH. simpl. rewrite <- app_assoc.
    f_equal. lia.
Qed.

Lemma addUsage_sets (m : JSMap.t Tally.t) (item : TransportItem.t) :
  addUsage m item
  = JSMap.set m (TransportItem.transportation item)
      (updTally (JSMap.held initTally m (TransportItem.transportation item))
                (TransportItem.cost item)).
Proof.
  unfold addUsage.
  apply (upsert_sets m (TransportItem.transportation item) initTally
           (fun t => updTally t (TransportItem.cost item))).
Qed.

Lemma bumpPair_sets (m : JSMap.t Tally.t)
  (pair : ReportItem.t * ReportItem.t) :
  bumpPair m pair
  = JSMap.set m (keyOfPair pair)
      (updTally (JSMap.held initTally m (keyOfPair pair))
                (ReportItem.cost (fst pair))).
Proof.
  unfold bumpPair, bumpRoute, keyOfPair.
  apply (upsert_sets m (routeKeyOf (fst pair) (snd pair)) initTally
           (fun t => updTally t (ReportItem.cost (fst pair)))).
Qed.

(** The inner loop bumps the neighbours from left to right. *)
Lemma chainRoutes_pairs (l : list ReportItem.t) (m : JSMap.t Tally.t) :
  chainRoutes m l = fold_left bumpPair (Spec.adjacentPairs l) m.
Proof.
  revert m. induction l as [| a l IH]; intros m.
  - reflexivity.
  - destruct l as [| b l].
    + reflexivity.
    + change (chainRoutes m (a :: b :: l))
        with (chainRoutes (bumpRoute m a b) (b :: l)).
      rewrite IH. reflexivity.
Qed.

Lemma posfin_n50 : Num.posfin n50.
Proof. eexists. eexists. vm_compute. reflexivity. Qed.

Lemma posfin_n100 : Num.posfin n100.
Proof. eexists. eexists. vm_compute. reflexivity. Qed.

Lemma filter_length_le {A : Type} (f : A -> bool) (l : list A) :
  List.length (filter f l) <= List.length l.
Proof.
  induction l as [| x l IH]; simpl; [lia |].
  destruct (f x); simpl; lia.
Qed.

Lemma nonempty_length {A : Type} (l : list A) :
  l <> [] -> 1 <= List.length l.
Proof. destruct l; simpl; [congruence | lia]. Qed.

Lemma adjacentPairs_length {A : Type} (l : list A) :
  List.length (Spec.adjacentPairs l) <= List.length l.
Proof.
  induction l as [| a l IH]; [simpl; lia |].
  destruct l as [| b l]; [simpl; lia |].
  change (Spec.adjacentPairs (a :: b :: l))
    with ((a, b) :: Spec.adjacentPairs (b :: l)).
  simpl List.length in *. lia.
Qed.

Lemma adjacentPairs_In_fst {A : Type} (l : list A) (pair : A * A) :
  In pair (Spec.adjacentPairs l) -> In (fst pair) l /\ In (snd pair) l.
Proof.
  induction l as [| a l IH]; [simpl; tauto |].
  destruct l as [| b l]; [simpl; tauto |].
  change (Spec.adjacentPairs (a :: b :: l))
    with ((a, b) :: Spec.adjacentPairs (b :: l)).
  intros [<- | H].
  - simpl. tauto.
  - destruct (IH H). split; right; assumption.
Qed.

Lemma allTransportItems_cost (reports : list Report.t)
  (item : TransportItem.t) :
  In item (allTransportItems reports) ->
  exists report it,
    In report reports /\ In it (Report.items report) /\
    TransportItem.cost item = ReportItem.cost it /\
    TransportItem.location item = ReportItem.location it.
Proof.
  unfold allTransportItems. rewrite in_flat_map.
  intros (report & Hr & Hi). apply in_map_iff in Hi.
  destruct Hi as (it & <- & Hit).
  exists report, it. simpl. auto.
Qed.

Lemma allTransportItems_length (reports : list Report.t) :
  List.length (allTransportItems reports)
  = list_sum (map (fun r => List.length (Report.items r)) reports).
Proof.
  unfold allTransportItems.
  induction reports as [| r reports IH]; simpl.
  - reflexivity.
  - rewrite length_app, length_map, IH. reflexivity.
Qed.

Section WithHost.
Context {host : Host}.

Lemma walkReports_from (reports : list Report.t) (m : JSMap.t Tally.t)
  (seen : list Report.t) :
  fold_left visitReport reports (m, seen)
  = (fold_left bumpPair (Spec.routePairs reports) m,
     seen ++ map (fun r => Report.with_items r (Spec.sortedItems r)) reports).
Proof.
  revert m seen. induction reports as [| r reports IH]; intros m seen; simpl.
  - rewrite app_nil_r. reflexivity.
  - unfold visitReport at 2. simpl fst. simpl snd.
    rewrite IH, chainRoutes_pairs, fold_left_app, <- app_assoc.
    reflexivity.
Qed.

Lemma walkReports_eq (reports : list Report.t) :
  walkReports reports
  = (fold_left bumpPair (Spec.routePairs reports) JSMap.empty,
     map (fun r => Report.with_items r (Spec.sortedItems r)) reports).
Proof. unfold walkReports. rewrite walkReports_from. reflexivity. Qed.

(** *** What an element of each output is *)

Lemma pattern_inv (items : list TransportItem.t) (p : TransportPattern.t) :
  In p (transportPatterns items) ->
  exists location,
    let group := Spec.itemsAt location items in
    group <> [] /\
    p = patternOf
          (location,
           LocationData.mk (map visitOf group)
                           (Arr.sum (map TransportItem.cost group))).
Proof.
  unfold transportPatterns. rewrite ArrFacts.sort_In, in_map_iff.
  intros ([location data] & <- & Hin).
  unfold JSMap.entries, locationMapOf in Hin.
  destruct (MapFacts.group_entry TransportItem.location initLocation
              updLocation addVisit addVisit_sets items location data Hin)
    as [Hne Hdata].
  exists location. split; [exact Hne |].
  rewrite Hdata, fold_updLocation. reflexivity.
Qed.

Lemma patternOf_location (entry : string * LocationData.t) :
  TransportPattern.location (patternOf entry) = fst entry.
Proof. destruct entry. reflexivity. Qed.

Lemma mode_inv (items : list TransportItem.t) (e : TransportEfficiency.t) :
  In e (transportEfficiency items) ->
  exists label,
    let group := Spec.itemsBy label items in
    group <> [] /\
    e = modeOf
          (label,
           Tally.mk (List.length group)
                    (Arr.sum (map TransportItem.cost group))
                    (map TransportItem.cost group)).
Proof.
  unfold transportEfficiency. rewrite ArrFacts.sort_In, in_map_iff.
  intros ([label data] & <- & Hin).
  unfold JSMap.entries, efficiencyMapOf in Hin.
  destruct (MapFacts.group_entry TransportItem.transportation initTally
              (fun t item => updTally t (TransportItem.cost item))
              addUsage addUsage_sets items label data Hin)
    as [Hne Hdata].
  exists label. split; [exact Hne |].
  rewrite Hdata, fold_updTally. reflexivity.
Qed.

Lemma route_entry_inv (reports : list Report.t) (k : string) (t : Tally.t) :
  In (k, t) (fst (walkReports reports)) ->
  let group := JSMap.groupOf keyOfPair k (Spec.routePairs reports) in
  group <> [] /\
  t = Tally.mk (List.length group)
               (Arr.sum (map (fun pair => ReportItem.cost (fst pair)) group))
               (map (fun pair => ReportItem.cost (fst pair)) group).
Proof.
  rewrite walkReports_eq. simpl fst. intros Hin.
  destruct (MapFacts.group_entry keyOfPair initTally
              (fun t pair => updTally t (ReportItem.cost (fst pair)))
              bumpPair bumpPair_sets _ k t Hin) as [Hne Hdata].
  split; [exact Hne |].
  rewrite Hdata, fold_updTally. reflexivity.
Qed.

Lemma routePairs_length (reports : list Report.t) :
  List.length (Spec.routePairs reports)
  <= List.length (allTransportItems reports).
Proof.
  rewrite allTransportItems_length. unfold Spec.routePairs.
  induction reports as [| r reports IH]; simpl.
  - lia.
  - rewrite length_app.
    pose proof (adjacentPairs_length (Spec.sortedItems r)) as H.
    unfold Spec.sortedItems in H at 2. rewrite ArrFacts.sort_length in H.
    lia.
Qed.

Lemma routePairs_In (reports : list Report.t)
  (pair : ReportItem.t * ReportItem.t) :
  In pair (Spec.routePairs reports) ->
  exists report,
    In report reports /\
    In (fst pair) (Report.items report) /\
    In (snd pair) (Report.items report).
Proof.
  unfold Spec.routePairs. rewrite in_flat_map.
  intros (report & Hr & Hp). exists report. split; [exact Hr |].
  apply adjacentPairs_In_fst in Hp. unfold Spec.sortedItems in Hp.
  rewrite !ArrFacts.sort_In in Hp. exact Hp.
Qed.

(** What [routeAnalysis] comes to: the callback throws where it reads
    [calculateOptimalRoute], after the walk that has sorted the items
    of every report. *)
Lemma routeAnalysis_eq (reports : list Report.t)
  (patterns : list TransportPattern.t) :
  routeAnalysis reports patterns
  = (Throws (ReferenceError
               "Cannot access 'calculateOptimalRoute' before initialization"),
     map (fun report =>
            Report.with_items report
              (Arr.sort compareByLocation (Report.items report)))
         reports).
Proof.
  unfold routeAnalysis, routeAnalysisCallback.
  rewrite walkReports_eq. reflexivity.
Qed.

Lemma datesValid_true (visits : list Visit.t) :
  Forall (fun v => Date_getTime (Visit.date v) <> None) visits ->
  datesValid visits = true.
Proof.
  intros H. unfold datesValid. apply forallb_forall. intros v Hv.
  rewrite Forall_forall in H. specialize (H v Hv).
  destruct (Date_getTime (Visit.date v)); congruence.
Qed.

(** With valid dates the visits are sorted by the comparator. *)
Lemma sortedVisitsOf_valid (data : LocationData.t) :
  Forall (fun v => Date_getTime (Visit.date v) <> None)
         (LocationData.visits data) ->
  sortedVisitsOf data = Arr.sort compareByDate (LocationData.visits data).
Proof.
  intros H. unfold sortedVisitsOf. rewrite (datesValid_true _ H).
  reflexivity.
Qed.

(** The routes that the callback of [routeAnalysis] computes. *)
Lemma frequentRoutes_inv (reports : list Report.t) (r : FrequentRoute.t) :
  In r (frequentRoutesOf (fst (walkReports reports))) ->
  exists key,
    let group := JSMap.groupOf keyOfPair key (Spec.routePairs reports) in
    group <> [] /\
    r = routeOf
          (key,
           Tally.mk (List.length group)
             (Arr.sum (map (fun pair => ReportItem.cost (fst pair)) group))
             (map (fun pair => ReportItem.cost (fst pair)) group)).
Proof.
  unfold frequentRoutesOf, Arr.slice_first. intros Hin.
  apply ArrFacts.In_firstn, ArrFacts.sort_In, in_map_iff in Hin.
  destruct Hin as ([key t] & <- & Hin).
  destruct (route_entry_inv reports key t Hin) as [Hne ->].
  exists key. split; [exact Hne | reflexivity].
Qed.

End WithHost.

(** The scenario, as the engine sees it. *)
Example scenario_patterns :
  map (fun p => (TransportPattern.location p, TransportPattern.visitCount p,
                 TransportPattern.lastVisited p, TransportPattern.costTrend p))
      (@transportPatterns IsoHost.host (allTransportItems Scenario.reports))
  = [("Ikeja", 2, "2024-03-10", stable);
     ("Lekki", 2, "2024-03-10", stable);
     ("Yaba", 1, "2024-03-10", stable)].
Proof. reflexivity. Qed.

Example scenario_modes :
  map (fun e => (TransportEfficiency.transportationType e,
                 TransportEfficiency.totalUsage e))
      (transportEfficiency (allTransportItems Scenario.reports))
  = [("Keke", 1); ("Bus", 3); ("Taxi", 1)].
Proof. reflexivity. Qed.

(** An invalid date ends the insights with a [RangeError] and leaves the
    patterns alone. *)
Example invalid_date_throws :
  let items :=
    allTransportItems
      [Scenario.report "r" "someday" [Scenario.item "i" "Yaba" "Bus" 500]] in
  @generateAIInsights IsoHost.host items
    (@transportPatterns IsoHost.host items)
  = Throws (RangeError "Invalid time value") /\
  map TransportPattern.location (@transportPatterns IsoHost.host items)
  = ["Yaba"].
Proof. split; reflexivity. Qed.

(** A date that cannot be read among the visits of a location: the
    comparator is not consistent, and binary insertion leaves the
    visits of February, March, an unreadable date and January with the
    three dated ones in order and the other one last; the trend is that
    of the windows of this arrangement. *)
Example unreadable_date_order :
  let items := allTransportItems Cases.oneUnreadable in
  map (fun entry => map Visit.date (@sortedVisitsOf IsoHost.host (snd entry)))
      (locationMapOf items)
  = [["2024-01-01"; "2024-02-01"; "2024-03-01"; "someday"]] /\
  map (fun p => (TransportPattern.lastVisited p, TransportPattern.costTrend p))
      (@transportPatterns IsoHost.host items)
  = [("someday", increasing)].
Proof. split; reflexivity. Qed.

(** The callback of [routeAnalysis] throws on the scenario, as on every
    input. *)
Example scenario_routes_throw :
  fst (@routeAnalysis IsoHost.host Scenario.reports [])
  = Throws (ReferenceError
              "Cannot access 'calculateOptimalRoute' before initialization").
Proof. reflexivity. Qed.

End EngineFacts.

(* ================================================================== *)
(** ** The empty collection *)
(* ================================================================== *)

Module EmptyCollection.
Import Engine.

(** C1.  The engine on the empty report collection.  The flattened
    items, the pattern list and the transport-efficiency list are empty,
    and the insights are returned with [totalSpent], [monthlyTrend] and
    the projection at [0].  But the division [totalSpent / totalVisits]
    is not guarded: [averagePerVisit] is [0 / 0], that is [NaN], not
    [0], and so are [efficiencyScore] and [visitsPerMonth].  And the
    callback of [routeAnalysis] does not return: it throws a
    [ReferenceError] where it reads [calculateOptimalRoute]. *)
Theorem C1_empty_collection {host : Host} :
  let items := allTransportItems [] in
  let patterns := transportPatterns items in
  items = [] /\
  patterns = [] /\
  transportEfficiency items = [] /\
  routeAnalysis [] patterns
  = (Throws (ReferenceError
               "Cannot access 'calculateOptimalRoute' before initialization"),
     []) /\
  exists insights,
    generateAIInsights items patterns = Returns insights /\
    CostAnalysis.totalSpent (AIInsights.costAnalysis insights) = Num.zero /\
    CostAnalysis.averagePerVisit (AIInsights.costAnalysis insights)
    = Num.nan /\
    CostAnalysis.averagePerVisit (AIInsights.costAnalysis insights)
    <> Num.zero /\
    CostAnalysis.monthlyTrend (AIInsights.costAnalysis insights)
    = Num.zero /\
    CostAnalysis.projectedAnnualCost (AIInsights.costAnalysis insights)
    = Num.zero /\
    AIInsights.efficiencyScore insights = Num.nan /\
    AIInsights.visitsPerMonth insights = Num.nan /\
    AIInsights.mostFrequentLocations insights = [] /\
    AIInsights.recommendations insights = [].
Proof.
  repeat split; try reflexivity.
  eexists. split; [reflexivity |].
  repeat split; try reflexivity.
  simpl. discriminate.
Qed.

End EmptyCollection.

(* ================================================================== *)
(** ** The cost trend *)
(* ================================================================== *)

Module CostTrendWindows.
Import Engine.

Lemma Sorted_weaken {A : Type} (R R' : A -> A -> Prop) (l : list A) :
  (forall x y, R x y -> R' x y) -> Sorted R l -> Sorted R' l.
Proof.
  intros Himp. induction 1 as [| x l Hs IH Hd]; constructor.
  - exact IH.
  - destruct Hd; constructor. apply Himp. assumption.
Qed.

(** The classification follows the rule of the specification. *)
Lemma costTrendOf_rule (recent older : list Num.number) :
  Spec.TrendRule recent older (costTrendOf recent older).
Proof.
  unfold costTrendOf.
  change (Num.gt (mean recent) (Num.mul (mean older) n1_1))
    with (Spec.exceeds recent older).
  change (Num.lt (mean recent) (Num.mul (mean older) n0_9))
    with (Spec.isBelow recent older).
  destruct (2 <=? List.length recent)%nat eqn:Er; cbn [andb].
  - destruct (2 <=? List.length older)%nat eqn:Eo.
    + apply Nat.leb_le in Er, Eo.
      destruct (Spec.exceeds recent older) eqn:Eg.
      * apply Spec.trend_increasing; assumption.
      * destruct (Spec.isBelow recent older) eqn:El.
        -- apply Spec.trend_decreasing; assumption.
        -- apply Spec.trend_stable; assumption.
    + apply Nat.leb_gt in Eo. apply Spec.trend_short. right. exact Eo.
  - apply Nat.leb_gt in Er. apply Spec.trend_short. left. exact Er.
Qed.

Section WithHost.
Context {host : Host}.

Lemma compareByDate_total (a b : Visit.t) :
  compareByDate a b = Gt -> compareByDate b a <> Gt.
Proof.
  unfold compareByDate.
  destruct (Date_getTime (Visit.date a)) as [ta |];
    destruct (Date_getTime (Visit.date b)) as [tb |]; try discriminate.
  intros H. rewrite Z.compare_antisym, H. discriminate.
Qed.

Lemma inOrder_notLater (a b : Visit.t) :
  Arr.inOrder compareByDate a b -> Spec.notLater a b.
Proof.
  unfold Arr.inOrder, compareByDate, Spec.notLater.
  destruct (Date_getTime (Visit.date a)) as [ta |];
    destruct (Date_getTime (Visit.date b)) as [tb |]; auto.
Qed.

(** C2.  For a location whose visits have dates that can be read, the
    cost trend of its pattern is the rule of the specification on two
    windows of the visits of the location, sorted by date ascending
    (visits of equal date in the order of the items): the costs of the
    last three and the costs of the first three.  The rule: with fewer
    than two costs in a window, [stable]; otherwise [increasing] when
    the mean of the recent window exceeds 1.1 times the mean of the
    older one, [decreasing] when it is below 0.9 times that mean, and
    [stable] in between. *)
Theorem C2_cost_trend_windows (items : list TransportItem.t)
  (pattern : TransportPattern.t) :
  In pattern (transportPatterns items) ->
  (forall item,
      In item items ->
      TransportItem.location item = TransportPattern.location pattern ->
      Date_getTime (TransportItem.reportDate item) <> None) ->
  let visits := Spec.visitsAt (TransportPattern.location pattern) items in
  let sorted := Arr.sort compareByDate visits in
  let recent := map Visit.cost (skipn (List.length sorted - 3) sorted) in
  let older := map Visit.cost (firstn 3 sorted) in
  visits <> [] /\
  Permutation sorted visits /\
  Sorted Spec.notLater sorted /\
  List.length recent = Nat.min 3 (List.length visits) /\
  List.length older = Nat.min 3 (List.length visits) /\
  Spec.TrendRule recent older (TransportPattern.costTrend pattern).
Proof.
  intros Hin.
  destruct (EngineFacts.pattern_inv items pattern Hin)
    as (location & Hne & ->).
  simpl TransportPattern.location.
  intros Hvalid visits sorted recent older.
  split.
  { subst visits. unfold Spec.visitsAt. intros E.
    apply map_eq_nil in E. contradiction. }
  split; [apply ArrFacts.sort_perm |].
  split.
  { eapply Sorted_weaken; [apply inOrder_notLater |].
    apply ArrFacts.sort_sorted. intros x y. apply compareByDate_total. }
  split.
  { subst recent. rewrite length_map, length_skipn.
    subst sorted. rewrite ArrFacts.sort_length. lia. }
  split.
  { subst older. rewrite length_map, length_firstn.
    subst sorted. rewrite ArrFacts.sort_length. reflexivity. }
  assert (Hvisits : Forall (fun v => Date_getTime (Visit.date v) <> None)
                           visits).
  { apply Forall_forall. intros v Hv. apply in_map_iff in Hv.
    destruct Hv as (item & <- & Hitem). apply filter_In in Hitem.
    destruct Hitem as [Hitem Hloc]. apply String.eqb_eq in Hloc.
    simpl. apply Hvalid; assumption. }
  unfold patternOf. cbn [TransportPattern.costTrend].
  unfold recentCostsOf, olderCostsOf.
  rewrite (EngineFacts.sortedVisitsOf_valid
             (LocationData.mk (map visitOf (Spec.itemsAt location items))
                (Arr.sum (map TransportItem.cost
                              (Spec.itemsAt location items))))
             Hvisits).
  apply costTrendOf_rule.
Qed.

End WithHost.

Lemma outOfOrder_dates_valid :
  forall item,
    In item (allTransportItems Cases.outOfOrder) ->
    TransportItem.location item = "Lekki" ->
    @Date_getTime IsoHost.host (TransportItem.reportDate item) <> None.
Proof.
  intros item Hin _. simpl in Hin.
  repeat (destruct Hin as [<- | Hin]; [discriminate |]).
  contradiction.
Qed.

(** Four visits of Lekki listed as March, January, April and February:
    the older window is January to March, at 100, 100 and 200, the
    recent one February to April, at 100, 200 and 5000, and the trend
    is [increasing]. *)
Lemma C2_cost_trend_windows_witness :
  exists pattern,
    In pattern
       (@transportPatterns IsoHost.host
          (allTransportItems Cases.outOfOrder)) /\
    TransportPattern.location pattern = "Lekki" /\
    map Visit.date
        (Arr.sort (@compareByDate IsoHost.host)
                  (Spec.visitsAt "Lekki" (allTransportItems Cases.outOfOrder)))
    = ["2024-01-01"; "2024-02-01"; "2024-03-01"; "2024-04-01"] /\
    Spec.TrendRule (map Num.of_Z [100; 200; 5000]%Z)
                   (map Num.of_Z [100; 100; 200]%Z)
                   (TransportPattern.costTrend pattern) /\
    TransportPattern.costTrend pattern = increasing.
Proof.
  eexists. split; [left; reflexivity |].
  split; [reflexivity |]. split; [reflexivity |].
  split; [| reflexivity].
  match goal with
  | |- Spec.TrendRule _ _ (TransportPattern.costTrend ?p) =>
      destruct (@C2_cost_trend_windows IsoHost.host
                  (allTransportItems Cases.outOfOrder) p
                  (or_introl eq_refl) outOfOrder_dates_valid)
        as (_ & _ & _ & _ & _ & Hrule)
  end.
  exact Hrule.
Defined.

End CostTrendWindows.

(* ================================================================== *)
(** ** Five visits to one location *)
(* ================================================================== *)

Module FiveVisits.
Import Engine.

Section WithHost.
Context {host : Host}.

(** Items of one location make one entry. *)
Lemma one_location_from (location : string) (items : list TransportItem.t)
  (d : LocationData.t) :
  Forall (fun item => TransportItem.location item = location) items ->
  fold_left addVisit items [(location, d)]
  = [(location, fold_left updLocation items d)].
Proof.
  intros H. revert d. induction H as [| item items Hl _ IH]; intros d; simpl.
  - reflexivity.
  - rewrite EngineFacts.addVisit_sets, Hl. unfold JSMap.held. simpl.
    rewrite String.eqb_refl. apply IH.
Qed.

Lemma one_location (location : string) (items : list TransportItem.t) :
  items <> [] ->
  Forall (fun item => TransportItem.location item = location) items ->
  locationMapOf items
  = [(location,
      LocationData.mk (map visitOf items)
                      (Arr.sum (map TransportItem.cost items)))].
Proof.
  intros Hne H. destruct items as [| item items]; [congruence |].
  inversion H as [| ? ? Hl Hrest]; subst.
  unfold locationMapOf. simpl fold_left.
  rewrite EngineFacts.addVisit_sets. simpl JSMap.set.
  rewrite (one_location_from _ _ _ Hrest).
  change (updLocation (JSMap.held initLocation JSMap.empty
                                  (TransportItem.location item)) item)
    with (fold_left updLocation [item] initLocation).
  rewrite <- (fold_left_app updLocation [item] items).
  simpl app. rewrite EngineFacts.fold_updLocation. reflexivity.
Qed.

(** Visits in chronological order are in the order of the sort. *)
Lemma chronological_inOrder (items : list TransportItem.t) :
  Spec.chronological (map TransportItem.reportDate items) ->
  Sorted (Arr.inOrder compareByDate) (map visitOf items).
Proof.
  intros (times & Ht & Hs). revert items Ht.
  induction Hs as [| t times Hs IH Hd]; intros items Ht.
  - destruct items; [constructor | discriminate].
  - destruct items as [| item items]; [discriminate |].
    simpl in Ht. injection Ht as Ht1 Ht2.
    simpl. constructor; [apply IH, Ht2 |].
    destruct Hd as [| t' times' Hle].
    + destruct items; [constructor | discriminate].
    + destruct items as [| item' items]; [discriminate |].
      simpl in Ht2. injection Ht2 as Ht2 _.
      simpl. constructor. unfold Arr.inOrder, compareByDate, visitOf. simpl.
      rewrite Ht1, Ht2. intros Hc. apply Z.compare_gt_iff in Hc. lia.
Qed.

(** Dates in chronological order are valid. *)
Lemma chronological_valid (items : list TransportItem.t) :
  Spec.chronological (map TransportItem.reportDate items) ->
  Forall (fun v => Date_getTime (Visit.date v) <> None) (map visitOf items).
Proof.
  intros (times & Ht & _). revert times Ht.
  induction items as [| item items IH]; intros times Ht; simpl.
  - constructor.
  - destruct times as [| t times]; [discriminate |].
    simpl in Ht. injection Ht as Ht1 Ht2. constructor.
    + simpl. rewrite Ht1. discriminate.
    + apply (IH times Ht2).
Qed.

(** C3, corrected.  A location visited five times, in chronological
    order, at the costs 100, 100, 100, 5000 and 5000 has the recent
    window 100, 5000, 5000 of mean 10100 / 3 (about 3366.67), the older
    window 100, 100, 100 of mean 100, and the cost trend
    [increasing]. *)
Theorem C3_five_visits (items : list TransportItem.t) (location : string) :
  map TransportItem.location items = repeat location 5 ->
  map TransportItem.cost items = map Num.of_Z [100; 100; 100; 5000; 5000]%Z ->
  Spec.chronological (map TransportItem.reportDate items) ->
  exists data pattern,
    locationMapOf items = [(location, data)] /\
    recentCostsOf data = map Num.of_Z [100; 5000; 5000]%Z /\
    mean (recentCostsOf data) = Num.div (Num.of_Z 10100) (Num.of_Z 3) /\
    olderCostsOf data = map Num.of_Z [100; 100; 100]%Z /\
    mean (olderCostsOf data) = Num.of_Z 100 /\
    transportPatterns items = [pattern] /\
    TransportPattern.location pattern = location /\
    TransportPattern.visitCount pattern = 5 /\
    TransportPattern.costTrend pattern = increasing.
Proof.
  intros Hloc Hcost Hchron.
  assert (Hmap : locationMapOf items
                 = [(location,
                     LocationData.mk (map visitOf items)
                       (Arr.sum (map TransportItem.cost items)))]).
  { apply one_location.
    - intros ->. discriminate.
    - clear - Hloc. revert Hloc. generalize 5.
      induction items as [| item items IH]; intros n H; constructor.
      + destruct n; simpl in H; [discriminate | congruence].
      + destruct n; simpl in H; [discriminate |].
        injection H as _ H. eapply IH, H. }
  pose proof (ArrFacts.sort_fixed compareByDate _
                (chronological_inOrder items Hchron)) as Hsorted.
  set (data := LocationData.mk (map visitOf items)
                 (Arr.sum (map TransportItem.cost items))) in *.
  assert (Hvisits : sortedVisitsOf data = map visitOf items).
  { rewrite EngineFacts.sortedVisitsOf_valid.
    - exact Hsorted.
    - apply chronological_valid, Hchron. }
  assert (Hrecent : recentCostsOf data = map Num.of_Z [100; 5000; 5000]%Z).
  { unfold recentCostsOf. rewrite Hvisits.
    destruct items as [| i1 [| i2 [| i3 [| i4 [| i5 [| i6 r]]]]]];
      try discriminate.
    simpl in Hcost. injection Hcost as H1 H2 H3 H4 H5.
    unfold Arr.slice_last. simpl. unfold visitOf. simpl.
    rewrite H3, H4, H5. reflexivity. }
  assert (Holder : olderCostsOf data = map Num.of_Z [100; 100; 100]%Z).
  { unfold olderCostsOf. rewrite Hvisits.
    destruct items as [| i1 [| i2 [| i3 [| i4 [| i5 [| i6 r]]]]]];
      try discriminate.
    simpl in Hcost. injection Hcost as H1 H2 H3 H4 H5.
    unfold Arr.slice_first. simpl. unfold visitOf. simpl.
    rewrite H1, H2, H3. reflexivity. }
  exists data, (patternOf (location, data)).
  split; [exact Hmap |].
  split; [exact Hrecent |].
  split; [rewrite Hrecent; vm_compute; reflexivity |].
  split; [exact Holder |].
  split; [rewrite Holder; vm_compute; reflexivity |].
  split; [unfold transportPatterns; rewrite Hmap; reflexivity |].
  split; [reflexivity |].
  split.
  - simpl. rewrite length_map.
    rewrite <- (length_map TransportItem.location), Hloc. reflexivity.
  - unfold patternOf. simpl TransportPattern.costTrend.
    rewrite Hrecent, Holder. vm_compute. reflexivity.
Qed.

End WithHost.

(** The scenario on dated reports. *)
Lemma C3_five_visits_witness :
  map TransportItem.location (allTransportItems Scenario.fiveVisits)
  = repeat "Lekki" 5 /\
  @Spec.chronological IsoHost.host
    (map TransportItem.reportDate (allTransportItems Scenario.fiveVisits)) /\
  exists pattern,
    @transportPatterns IsoHost.host (allTransportItems Scenario.fiveVisits)
    = [pattern] /\
    TransportPattern.costTrend pattern = increasing.
Proof.
  assert (Hc : @Spec.chronological IsoHost.host
                 (map TransportItem.reportDate
                      (allTransportItems Scenario.fiveVisits))).
  { exists [1704067200000; 1706745600000; 1709251200000;
            1711929600000; 1714521600000]%Z.
    split; [vm_compute; reflexivity |].
    repeat constructor; discriminate. }
  split; [reflexivity |]. split; [exact Hc |].
  destruct (@C3_five_visits IsoHost.host
              (allTransportItems Scenario.fiveVisits) "Lekki"
              eq_refl eq_refl Hc)
    as (data & pattern & _ & _ & _ & _ & _ & Hp & _ & _ & Ht).
  exists pattern. split; assumption.
Defined.

(** C3 with the figures of the specification does not hold: the recent
    mean of the scenario is not 3400 (and the older mean is not
    1066.7). *)
Lemma C3_counterexample :
  ~ (exists data,
        JSMap.get (locationMapOf (allTransportItems Scenario.fiveVisits))
                  "Lekki" = Some data /\
        mean (@recentCostsOf IsoHost.host data) = Num.of_Z 3400 /\
        mean (@olderCostsOf IsoHost.host data) = Num.dec 10667 1 /\
        costTrendOf (@recentCostsOf IsoHost.host data)
                    (@olderCostsOf IsoHost.host data) = increasing).
Proof.
  intros (data & Hget & Hrecent & _).
  vm_compute in Hget. inversion Hget; subst data.
  vm_compute in Hrecent. discriminate.
Qed.

End FiveVisits.

(* ================================================================== *)
(** ** Frequent routes *)
(* ================================================================== *)

Module FrequentRoutes.
Import Engine.
Import EngineFacts.

Lemma StronglySorted_weaken {A : Type} (R R' : A -> A -> Prop) (l : list A) :
  (forall x y, R x y -> R' x y) -> StronglySorted R l -> StronglySorted R' l.
Proof.
  intros Himp. induction 1 as [| x l Hs IH Hf]; constructor.
  - exact IH.
  - eapply Forall_impl; [| exact Hf]. intros y. apply Himp.
Qed.

Lemma NoDup_firstn {A : Type} (n : nat) (l : list A) :
  NoDup l -> NoDup (firstn n l).
Proof.
  intros H. rewrite <- (firstn_skipn n l) in H.
  eapply NoDup_app_remove_r. exact H.
Qed.

Lemma compareByFrequency_total (a b : FrequentRoute.t) :
  compareByFrequency a b = Gt -> compareByFrequency b a <> Gt.
Proof.
  unfold compareByFrequency. intros H.
  rewrite Nat.compare_antisym, H. discriminate.
Qed.

Lemma compareByFrequency_le (a b : FrequentRoute.t) :
  Arr.inOrder compareByFrequency a b <->
  FrequentRoute.frequency b <= FrequentRoute.frequency a.
Proof.
  unfold Arr.inOrder, compareByFrequency.
  destruct (Nat.compare_spec (FrequentRoute.frequency b)
                             (FrequentRoute.frequency a));
    split; intros; try lia; try discriminate; congruence.
Qed.

Section WithHost.
Context {host : Host}.

Lemma pair_arrowFree (reports : list Report.t)
  (pair : ReportItem.t * ReportItem.t) :
  Spec.arrowFree reports -> In pair (Spec.routePairs reports) ->
  Str.includes "→" (ReportItem.location (fst pair)) = false /\
  Str.includes "→" (ReportItem.location (snd pair)) = false.
Proof.
  intros Hfree Hin.
  destruct (routePairs_In reports pair Hin) as (report & Hr & H1 & H2).
  split; eapply Hfree; eassumption.
Qed.

Lemma key_split (reports : list Report.t)
  (pair : ReportItem.t * ReportItem.t) :
  Spec.arrowFree reports -> In pair (Spec.routePairs reports) ->
  Str.split arrow (keyOfPair pair)
  = [ReportItem.location (fst pair); ReportItem.location (snd pair)].
Proof.
  intros Hfree Hin. destruct (pair_arrowFree reports pair Hfree Hin).
  apply StrFacts.split_key; assumption.
Qed.

Lemma key_eqb (reports : list Report.t)
  (p q : ReportItem.t * ReportItem.t) :
  Spec.arrowFree reports ->
  In p (Spec.routePairs reports) -> In q (Spec.routePairs reports) ->
  String.eqb (keyOfPair p) (keyOfPair q)
  = Spec.isRoute (ReportItem.location (fst q)) (ReportItem.location (snd q)) p.
Proof.
  intros Hfree Hp Hq.
  pose proof (key_split reports p Hfree Hp) as Sp.
  pose proof (key_split reports q Hfree Hq) as Sq.
  unfold Spec.isRoute.
  destruct (String.eqb (keyOfPair p) (keyOfPair q)) eqn:E.
  - apply String.eqb_eq in E. rewrite E, Sq in Sp.
    injection Sp as <- <-. rewrite !String.eqb_refl. reflexivity.
  - symmetry. apply andb_false_iff.
    destruct (String.eqb (ReportItem.location (fst p))
                         (ReportItem.location (fst q))) eqn:E1;
      [| left; reflexivity].
    destruct (String.eqb (ReportItem.location (snd p))
                         (ReportItem.location (snd q))) eqn:E2;
      [| right; reflexivity].
    apply String.eqb_eq in E1, E2.
    assert (keyOfPair p = keyOfPair q)
      by (unfold keyOfPair, routeKeyOf; rewrite E1, E2; reflexivity).
    apply String.eqb_neq in E. contradiction.
Qed.

(** The group of a key is the occurrences of its pair of locations. *)
Lemma group_occurrences (reports : list Report.t)
  (q : ReportItem.t * ReportItem.t) :
  Spec.arrowFree reports -> In q (Spec.routePairs reports) ->
  JSMap.groupOf keyOfPair (keyOfPair q) (Spec.routePairs reports)
  = Spec.occurrences (ReportItem.location (fst q))
                     (ReportItem.location (snd q)) reports.
Proof.
  intros Hfree Hq. unfold JSMap.groupOf, Spec.occurrences.
  apply filter_ext_in. intros p Hp. apply (key_eqb reports); assumption.
Qed.

(** What an element of [frequentRoutes] is, on locations without
    arrows. *)
Lemma route_inv (reports : list Report.t) (r : FrequentRoute.t) :
  Spec.arrowFree reports ->
  In r (map routeOf (JSMap.entries (fst (walkReports reports)))) ->
  exists q,
    In q (Spec.routePairs reports) /\
    FrequentRoute.from r = ReportItem.location (fst q) /\
    FrequentRoute.to r = ReportItem.location (snd q) /\
    let found := Spec.occurrences (FrequentRoute.from r)
                                  (FrequentRoute.to r) reports in
    found <> [] /\
    FrequentRoute.frequency r = List.length found /\
    FrequentRoute.averageCost r
    = Num.div (Arr.sum (map (fun pair => ReportItem.cost (fst pair)) found))
              (Num.of_nat (FrequentRoute.frequency r)).
Proof.
  intros Hfree Hin. apply in_map_iff in Hin.
  destruct Hin as ([key t] & <- & Hin).
  destruct (EngineFacts.route_entry_inv reports key t Hin) as [Hne ->].
  destruct (JSMap.groupOf keyOfPair key (Spec.routePairs reports))
    as [| q rest] eqn:G; [congruence |].
  assert (Hq : In q (JSMap.groupOf keyOfPair key (Spec.routePairs reports)))
    by (rewrite G; left; reflexivity).
  apply filter_In in Hq. destruct Hq as [Hq Hk].
  apply String.eqb_eq in Hk. subst key.
  rewrite (group_occurrences reports q Hfree Hq) in G.
  exists q. split; [exact Hq |].
  unfold routeOf. rewrite (key_split reports q Hfree Hq).
  simpl. rewrite G. repeat split. discriminate.
Qed.

Lemma key_of_route (reports : list Report.t) (entry : string * Tally.t) :
  Spec.arrowFree reports ->
  In entry (JSMap.entries (fst (walkReports reports))) ->
  Spec.keyOfNames (Spec.fromTo (routeOf entry)) = fst entry.
Proof.
  intros Hfree Hin. destruct entry as [key t].
  destruct (EngineFacts.route_entry_inv reports key t Hin) as [Hne _].
  destruct (JSMap.groupOf keyOfPair key (Spec.routePairs reports))
    as [| q rest] eqn:G; [congruence |].
  assert (Hq : In q (JSMap.groupOf keyOfPair key (Spec.routePairs reports)))
    by (rewrite G; left; reflexivity).
  apply filter_In in Hq. destruct Hq as [Hq Hk].
  apply String.eqb_eq in Hk. subst key.
  unfold routeOf, Spec.fromTo, Spec.keyOfNames.
  rewrite (key_split reports q Hfree Hq). reflexivity.
Qed.

Lemma routes_NoDup (reports : list Report.t) :
  Spec.arrowFree reports ->
  NoDup (map Spec.fromTo
             (map routeOf (JSMap.entries (fst (walkReports reports))))).
Proof.
  intros Hfree.
  apply (NoDup_map_inv Spec.keyOfNames).
  rewrite !map_map.
  rewrite (map_ext_in _ fst)
    by (intros e He; apply (key_of_route reports); assumption).
  rewrite EngineFacts.walkReports_eq. simpl fst.
  change (NoDup (JSMap.keys (fold_left bumpPair (Spec.routePairs reports)
                                       JSMap.empty))).
  rewrite (MapFacts.group_keys keyOfPair initTally
             (fun t pair => updTally t (ReportItem.cost (fst pair)))
             bumpPair EngineFacts.bumpPair_sets).
  apply MapFacts.firstSeen_NoDup.
Qed.

(** The [frequentRoutes] that the callback holds when it reaches the
    read of [calculateOptimalRoute], on reports whose locations contain
    no arrow: each route stands for a pair of locations that are
    neighbours in some report once its items are sorted by location;
    its frequency is the number of occurrences of the pair over all
    reports and its average cost the sum of the costs of the first
    items of these occurrences, divided by the frequency; no pair is
    listed twice; at most ten routes are kept, by descending frequency,
    and a pair that is left out occurs no more often than any route
    kept. *)
Lemma routes_before_the_throw (reports : list Report.t) :
  (forall report item,
      In report reports -> In item (Report.items report) ->
      Str.includes "→" (ReportItem.location item) = false) ->
  let routes := frequentRoutesOf (fst (walkReports reports)) in
  (forall r, In r routes ->
     let found := Spec.occurrences (FrequentRoute.from r)
                                   (FrequentRoute.to r) reports in
     found <> [] /\
     FrequentRoute.frequency r = List.length found /\
     FrequentRoute.averageCost r
     = Num.div (Arr.sum (map (fun pair => ReportItem.cost (fst pair)) found))
               (Num.of_nat (FrequentRoute.frequency r))) /\
  NoDup (map (fun r => (FrequentRoute.from r, FrequentRoute.to r)) routes) /\
  List.length routes <= 10 /\
  StronglySorted
    (fun a b => FrequentRoute.frequency b <= FrequentRoute.frequency a)
    routes /\
  (forall pair, In pair (Spec.routePairs reports) ->
     let from := ReportItem.location (fst pair) in
     let to := ReportItem.location (snd pair) in
     (exists r, In r routes /\
                FrequentRoute.from r = from /\ FrequentRoute.to r = to) \/
     (List.length routes = 10 /\
      forall r, In r routes ->
                List.length (Spec.occurrences from to reports)
                <= FrequentRoute.frequency r)).
Proof.
  intros Hfree routes.
  assert (Hroutes :
            routes
            = firstn 10
                (Arr.sort compareByFrequency
                   (map routeOf
                        (JSMap.entries (fst (walkReports reports)))))).
  { subst routes. reflexivity. }
  set (all := map routeOf (JSMap.entries (fst (walkReports reports)))) in *.
  set (sorted := Arr.sort compareByFrequency all) in *.
  assert (Hsorted : StronglySorted
                      (fun a b => FrequentRoute.frequency b
                                  <= FrequentRoute.frequency a) sorted).
  { eapply StronglySorted_weaken;
      [intros x y; apply compareByFrequency_le |].
    apply ArrFacts.sort_strongly_sorted.
    - apply compareByFrequency_total.
    - intros x y z. rewrite !compareByFrequency_le. lia. }
  assert (Hin : forall r, In r routes -> In r all).
  { intros r Hr. rewrite Hroutes in Hr.
    apply ArrFacts.In_firstn in Hr.
    exact (proj1 (ArrFacts.sort_In compareByFrequency all r) Hr). }
  split; [| split; [| split; [| split]]].
  - intros r Hr.
    destruct (route_inv reports r Hfree (Hin r Hr))
      as (q & _ & _ & _ & H). exact H.
  - rewrite Hroutes.
    change (fun r => (FrequentRoute.from r, FrequentRoute.to r))
      with Spec.fromTo.
    rewrite <- firstn_map. apply NoDup_firstn.
    eapply Permutation_NoDup; [| apply routes_NoDup; exact Hfree].
    apply Permutation_map, Permutation_sym, ArrFacts.sort_perm.
  - rewrite Hroutes. apply firstn_le_length.
  - rewrite Hroutes. apply ArrFacts.StronglySorted_firstn, Hsorted.
  - intros pair Hpair from to.
    destruct (MapFacts.group_has keyOfPair initTally
                (fun t pair => updTally t (ReportItem.cost (fst pair)))
                bumpPair EngineFacts.bumpPair_sets _ pair Hpair) as [t Ht].
    assert (Hall : In (routeOf (keyOfPair pair, t)) all).
    { subst all. apply in_map. rewrite EngineFacts.walkReports_eq. exact Ht. }
    destruct (route_inv reports _ Hfree Hall)
      as (q & Hq & Hfrom & Hto & _ & Hfreq & _).
    assert (Hnames : FrequentRoute.from (routeOf (keyOfPair pair, t)) = from
                     /\ FrequentRoute.to (routeOf (keyOfPair pair, t)) = to).
    { unfold routeOf. rewrite (key_split reports pair Hfree Hpair).
      split; reflexivity. }
    destruct Hnames as [Hf Ht'].
    rewrite Hf, Ht' in Hfreq.
    assert (Hs : In (routeOf (keyOfPair pair, t)) sorted)
      by (exact (proj2 (ArrFacts.sort_In compareByFrequency all _) Hall)).
    rewrite <- (firstn_skipn 10 sorted) in Hs. apply in_app_or in Hs.
    destruct Hs as [Hs | Hs].
    + left. exists (routeOf (keyOfPair pair, t)).
      rewrite Hroutes. auto.
    + right. split.
      * rewrite Hroutes, length_firstn.
        destruct (Nat.le_gt_cases (List.length sorted) 10) as [Hle | Hgt];
          [| lia].
        rewrite skipn_all2 in Hs by exact Hle. contradiction.
      * intros r Hr. rewrite <- Hfreq. rewrite Hroutes in Hr.
        apply (ArrFacts.StronglySorted_split _ 10 sorted r _ Hsorted Hr Hs).
Qed.

(** C4.  The callback of [routeAnalysis] sorts the items of the
    reports, tallies the pairs of neighbours and computes the frequent
    routes, and then reads [calculateOptimalRoute], a [const] that the
    hook declares after the [useMemo] that runs the callback: on every
    input it throws a [ReferenceError], and no route analysis, hence no
    list of frequent routes, is returned. *)
Theorem C4_frequent_routes (reports : list Report.t)
  (patterns : list TransportPattern.t) :
  fst (routeAnalysis reports patterns)
  = Throws (ReferenceError
              "Cannot access 'calculateOptimalRoute' before initialization")
  /\
  forall analysis : RouteAnalysis.t,
    fst (routeAnalysis reports patterns) <> Returns analysis.
Proof.
  rewrite EngineFacts.routeAnalysis_eq. simpl.
  split; [reflexivity | discriminate].
Qed.

End WithHost.

(** The scenario: Ikeja and Lekki are neighbours in both reports, Lekki
    and Yaba in one. *)
Example scenario_routes :
  map (fun r => (FrequentRoute.from r, FrequentRoute.to r,
                 FrequentRoute.frequency r))
      (frequentRoutesOf (fst (@walkReports IsoHost.host Scenario.reports)))
  = [("Ikeja", "Lekki", 2); ("Lekki", "Yaba", 1)].
Proof. reflexivity. Qed.

(** On a location that contains the separator of the route keys, the
    one route computed is from "A" to "B", which are neighbours in no
    report. *)
Example arrow_in_a_location :
  ~ (forall r,
        In r (frequentRoutesOf
                (fst (@walkReports IsoHost.host Scenario.arrowReports))) ->
        FrequentRoute.frequency r
        = List.length
            (@Spec.occurrences IsoHost.host (FrequentRoute.from r)
               (FrequentRoute.to r) Scenario.arrowReports)).
Proof.
  intros H.
  specialize (H _ (or_introl eq_refl)).
  vm_compute in H. discriminate.
Qed.

End FrequentRoutes.

(* ================================================================== *)
(** ** The monthly trend *)
(* ================================================================== *)

Module MonthlyTrend.
Import Engine.

Lemma sub_zero_r (x : Num.number) : Num.sub x Num.zero = x.
Proof. destruct x as [[|] | [|] | | s m e]; reflexivity. Qed.

(** The reduction over the last two totals. *)
Lemma monthlyTrendOf_spec (monthlyData : JSMap.t Num.number) :
  monthlyTrendOf monthlyData
  = Spec.laterMinusEarlier (JSMap.values monthlyData).
Proof.
  unfold monthlyTrendOf, Spec.laterMinusEarlier, Arr.slice_last.
  generalize (JSMap.values monthlyData) as totals. intros totals.
  rewrite <- (rev_involutive totals) at 1 2.
  destruct (rev totals) as [| later [| earlier rest]]; simpl.
  - reflexivity.
  - apply sub_zero_r.
  - rewrite <- app_assoc. simpl.
    rewrite length_app. simpl.
    replace (List.length (rev rest) + 2 - 2) with (List.length (rev rest) + 0)
      by lia.
    rewrite skipn_app, Nat.add_0_r, skipn_all. simpl.
    replace (List.length (rev rest) - List.length (rev rest)) with 0 by lia.
    simpl. rewrite sub_zero_r. reflexivity.
Qed.

Section WithHost.
Context {host : Host}.

Lemma addMonth_valid (m : JSMap.t Num.number) (item : TransportItem.t) :
  Date_getTime (TransportItem.reportDate item) <> None ->
  addMonth (Returns m) item = Returns (Spec.stepMonth m item).
Proof.
  unfold addMonth, Spec.stepMonth, Spec.monthOf, updMonth, JSMap.held.
  destruct (Date_getTime (TransportItem.reportDate item)) as [t |];
    [| congruence].
  intros _. destruct (JSMap.get m (Date_isoMonth t)); reflexivity.
Qed.

Lemma monthlyData_valid (items : list TransportItem.t)
  (m : JSMap.t Num.number) :
  (forall item, In item items ->
                Date_getTime (TransportItem.reportDate item) <> None) ->
  fold_left addMonth items (Returns m)
  = Returns (fold_left Spec.stepMonth items m).
Proof.
  revert m. induction items as [| item items IH]; intros m H;
    cbn [fold_left].
  - reflexivity.
  - rewrite addMonth_valid by (apply H; left; reflexivity).
    apply IH. intros it Hit. apply H. right. exact Hit.
Qed.

Lemma fold_updMonth (items : list TransportItem.t) (v : Num.number) :
  fold_left updMonth items v
  = fold_left (fun sofar cost => Num.add (Num.or_else sofar n0) cost)
              (map TransportItem.cost items) v.
Proof.
  revert v. induction items as [| item items IH]; intros v; simpl.
  - reflexivity.
  - apply IH.
Qed.

(** C5.  When every date is valid the insights are returned, and their
    [monthlyTrend] is later minus earlier of the last two monthly totals
    in the order of the map: the months come in the order in which they
    are first met among the items, whatever their order in the
    calendar. *)
Theorem C5_monthly_trend (items : list TransportItem.t)
  (patterns : list TransportPattern.t) :
  (forall item, In item items ->
                Date_getTime (TransportItem.reportDate item) <> None) ->
  exists insights monthlyData,
    generateAIInsights items patterns = Returns insights /\
    monthlyDataOf items = Returns monthlyData /\
    JSMap.keys monthlyData = Spec.firstSeen (map Spec.monthOf items) /\
    (forall month total,
        In (month, total) (JSMap.entries monthlyData) ->
        total
        = Spec.monthlyTotal
            (map TransportItem.cost (Spec.itemsOfMonth month items))) /\
    CostAnalysis.monthlyTrend (AIInsights.costAnalysis insights)
    = Spec.laterMinusEarlier (JSMap.values monthlyData).
Proof.
  intros Hvalid.
  assert (Hdata : monthlyDataOf items
                  = Returns (fold_left Spec.stepMonth items JSMap.empty)).
  { unfold monthlyDataOf. apply monthlyData_valid, Hvalid. }
  unfold generateAIInsights. rewrite Hdata.
  eexists. exists (fold_left Spec.stepMonth items JSMap.empty).
  split; [reflexivity |]. split; [reflexivity |].
  split.
  { apply (MapFacts.group_keys Spec.monthOf n0 updMonth Spec.stepMonth).
    reflexivity. }
  split.
  { intros month total Hin.
    destruct (MapFacts.group_entry Spec.monthOf n0 updMonth Spec.stepMonth
                (fun m x => eq_refl) items month total Hin) as [_ ->].
    apply fold_updMonth. }
  simpl. apply monthlyTrendOf_spec.
Qed.

End WithHost.

(** The scenario: the report of March is met before the report of
    January, so the trend is the total of January minus the total of
    March. *)
Lemma C5_monthly_trend_witness :
  exists insights monthlyData,
    @generateAIInsights IsoHost.host
      (allTransportItems Scenario.reports) [] = Returns insights /\
    @monthlyDataOf IsoHost.host (allTransportItems Scenario.reports)
    = Returns monthlyData /\
    monthlyData = [("2024-03", Num.of_Z 1000); ("2024-01", Num.of_Z 10400)] /\
    CostAnalysis.monthlyTrend (AIInsights.costAnalysis insights)
    = Num.of_Z 9400.
Proof.
  assert (Hvalid : forall item,
             In item (allTransportItems Scenario.reports) ->
             @Date_getTime IsoHost.host (TransportItem.reportDate item)
             <> None).
  { intros item Hin. simpl in Hin.
    repeat (destruct Hin as [<- | Hin]; [discriminate |]).
    contradiction. }
  destruct (@C5_monthly_trend IsoHost.host
              (allTransportItems Scenario.reports) [] Hvalid)
    as (insights & monthlyData & Hins & Hdata & _ & _ & Htrend).
  exists insights, monthlyData.
  split; [exact Hins |]. split; [exact Hdata |].
  assert (E : monthlyData
              = [("2024-03", Num.of_Z 1000); ("2024-01", Num.of_Z 10400)]).
  { vm_compute in Hdata. injection Hdata as <-. vm_compute. reflexivity. }
  split; [exact E |].
  rewrite Htrend, E. vm_compute. reflexivity.
Defined.

End MonthlyTrend.

(* ================================================================== *)
(** ** Efficiency scores *)
(* ================================================================== *)

Module Efficiency.
Import Engine.
Import EngineFacts.

Section WithHost.
Context {host : Host}.

(** C6.  When no item has a negative cost, every efficiency of a
    location in the patterns, of a route pair in the [frequentRoutes]
    that the callback of [routeAnalysis] computes, and of a transport
    mode in the transport-efficiency list is at least [0].  The items
    are taken to be fewer than [2^53], so that their counts are exact
    numbers; an array holds fewer than [2^32]. *)
Theorem C6_efficiency_nonnegative (reports : list Report.t) :
  (forall report item,
      In report reports -> In item (Report.items report) ->
      Num.ge (ReportItem.cost item) Num.zero = true) ->
  (Z.of_nat (List.length (allTransportItems reports)) < 2 ^ 53)%Z ->
  let items := allTransportItems reports in
  (forall p, In p (transportPatterns items) ->
             Num.ge (TransportPattern.efficiency p) Num.zero = true) /\
  (forall r,
      In r (frequentRoutesOf (fst (walkReports reports))) ->
      Num.ge (FrequentRoute.efficiency r) Num.zero = true) /\
  (forall e, In e (transportEfficiency items) ->
             Num.ge (TransportEfficiency.efficiency e) Num.zero = true).
Proof.
  intros Hcost Hsize items. fold items in Hsize.
  assert (Hitems : forall item, In item items ->
                                Num.nonneg (TransportItem.cost item)).
  { intros item Hin.
    destruct (allTransportItems_cost reports item Hin)
      as (report & it & Hr & Hit & -> & _).
    apply (Hcost report it Hr Hit). }
  split; [| split].
  - intros p Hp.
    destruct (EngineFacts.pattern_inv items p Hp) as (location & Hne & ->).
    simpl TransportPattern.efficiency. rewrite length_map.
    pose proof (filter_length_le
                  (fun item => String.eqb (TransportItem.location item)
                                          location) items) as Hle.
    apply NumFacts.efficiency_of_group_nonneg.
    + apply NumFacts.sum_from_nonneg; [reflexivity |].
      apply Forall_forall. intros c Hc. apply in_map_iff in Hc.
      destruct Hc as (item & <- & Hin). apply Hitems.
      apply filter_In in Hin. tauto.
    + apply posfin_n50.
    + apply nonempty_length, Hne.
    + unfold Spec.itemsAt. lia.
  - intros r Hr.
    destruct (frequentRoutes_inv reports r Hr) as (key & Hne & ->).
    simpl FrequentRoute.efficiency.
    pose proof (filter_length_le
                  (fun pair => String.eqb (keyOfPair pair) key)
                  (Spec.routePairs reports)) as Hle.
    pose proof (routePairs_length reports) as Hlen.
    apply NumFacts.efficiency_of_group_nonneg.
    + apply NumFacts.sum_from_nonneg; [reflexivity |].
      apply Forall_forall. intros c Hc. apply in_map_iff in Hc.
      destruct Hc as (pair & <- & Hin).
      apply filter_In in Hin. destruct Hin as [Hin _].
      destruct (routePairs_In reports pair Hin) as (report & H1 & H2 & _).
      apply (Hcost report (fst pair) H1 H2).
    + apply posfin_n50.
    + apply nonempty_length, Hne.
    + unfold JSMap.groupOf. fold items in Hlen. lia.
  - intros e He.
    destruct (EngineFacts.mode_inv items e He) as (label & Hne & ->).
    simpl TransportEfficiency.efficiency.
    pose proof (filter_length_le
                  (fun item => String.eqb (TransportItem.transportation item)
                                          label) items) as Hle.
    apply NumFacts.efficiency_of_group_nonneg.
    + apply NumFacts.sum_from_nonneg; [reflexivity |].
      apply Forall_forall. intros c Hc. apply in_map_iff in Hc.
      destruct Hc as (item & <- & Hin). apply Hitems.
      apply filter_In in Hin. tauto.
    + apply posfin_n100.
    + apply nonempty_length, Hne.
    + unfold Spec.itemsBy. lia.
Qed.

End WithHost.

(** The scenario: the location Lekki, at an average of 5100, and the
    taxi are clamped to [0]; the route from Ikeja to Lekki, at an
    average of 350, is at 93. *)
Lemma C6_efficiency_nonnegative_witness :
  Forall (fun p => Num.ge (TransportPattern.efficiency p) Num.zero = true)
         (@transportPatterns IsoHost.host
            (allTransportItems Scenario.reports)) /\
  Forall (fun r => Num.ge (FrequentRoute.efficiency r) Num.zero = true)
         (frequentRoutesOf (fst (@walkReports IsoHost.host Scenario.reports)))
  /\
  Forall (fun e => Num.ge (TransportEfficiency.efficiency e) Num.zero = true)
         (transportEfficiency (allTransportItems Scenario.reports)) /\
  map TransportPattern.efficiency
      (@transportPatterns IsoHost.host (allTransportItems Scenario.reports))
  = [Num.of_Z 93; Num.zero; Num.of_Z 90] /\
  map FrequentRoute.efficiency
      (frequentRoutesOf (fst (@walkReports IsoHost.host Scenario.reports)))
  = [Num.of_Z 93; Num.of_Z 96] /\
  map TransportEfficiency.efficiency
      (transportEfficiency (allTransportItems Scenario.reports))
  = [Num.of_Z 97;
     Num.sub (Num.of_Z 100)
             (Num.div (Num.div (Num.of_Z 1100) (Num.of_Z 3)) (Num.of_Z 100));
     Num.zero].
Proof.
  assert (Hcost : forall report item,
             In report Scenario.reports -> In item (Report.items report) ->
             Num.ge (ReportItem.cost item) Num.zero = true).
  { intros report item Hr Hi. simpl in Hr.
    repeat (destruct Hr as [<- | Hr];
            [simpl in Hi;
             repeat (destruct Hi as [<- | Hi]; [reflexivity |]);
             contradiction |]).
    contradiction. }
  destruct (@C6_efficiency_nonnegative IsoHost.host Scenario.reports
              Hcost eq_refl) as (Hp & Hr & He).
  split; [apply Forall_forall; exact Hp |].
  split; [apply Forall_forall; exact Hr |].
  split; [apply Forall_forall; exact He |].
  repeat split; vm_compute; reflexivity.
Defined.

End Efficiency.

(* ================================================================== *)
(** ** Transport modes *)
(* ================================================================== *)

Module TransportModes.
Import Engine.

Lemma mode_of_label (items : list TransportItem.t) (item : TransportItem.t) :
  In item items ->
  let label := TransportItem.transportation item in
  let group := Spec.itemsBy label items in
  In (modeOf (label,
              Tally.mk (List.length group)
                       (Arr.sum (map TransportItem.cost group))
                       (map TransportItem.cost group)))
     (transportEfficiency items).
Proof.
  intros Hin label group.
  destruct (MapFacts.group_has TransportItem.transportation initTally
              (fun t item => updTally t (TransportItem.cost item))
              addUsage EngineFacts.addUsage_sets items item Hin)
    as [t Ht].
  destruct (MapFacts.group_entry TransportItem.transportation initTally
              (fun t item => updTally t (TransportItem.cost item))
              addUsage EngineFacts.addUsage_sets items _ _ Ht)
    as [_ Hdata].
  rewrite EngineFacts.fold_updTally in Hdata. simpl in Hdata.
  unfold transportEfficiency. apply ArrFacts.sort_In, in_map_iff.
  exists (label, t). split; [| exact Ht].
  rewrite Hdata. reflexivity.
Qed.

(** C7.  Each element of the transport-efficiency output stands for one
    transportation label: its usage is the number of the items of that
    label, its total cost their sum, its average cost the quotient, and
    its efficiency [max(0, 100 - averageCost / 100)]; a label used once,
    at the cost 10000, has the efficiency [0].  The efficiency of a
    location divides by 50 instead. *)
Theorem C7_mode_efficiency (items : list TransportItem.t) :
  (forall e, In e (transportEfficiency items) ->
     let group := Spec.itemsBy (TransportEfficiency.transportationType e)
                               items in
     group <> [] /\
     TransportEfficiency.totalUsage e = List.length group /\
     TransportEfficiency.totalCost e
     = Arr.sum (map TransportItem.cost group) /\
     TransportEfficiency.averageCost e
     = Num.div (TransportEfficiency.totalCost e)
               (Num.of_nat (TransportEfficiency.totalUsage e)) /\
     TransportEfficiency.efficiency e
     = Num.Math_max Num.zero
         (Num.sub (Num.of_Z 100)
                  (Num.div (TransportEfficiency.averageCost e)
                           (Num.of_Z 100)))) /\
  (forall item,
     Spec.itemsBy (TransportItem.transportation item) items = [item] ->
     TransportItem.cost item = Num.of_Z 10000 ->
     exists e,
       In e (transportEfficiency items) /\
       TransportEfficiency.transportationType e
       = TransportItem.transportation item /\
       TransportEfficiency.totalUsage e = 1 /\
       TransportEfficiency.efficiency e = Num.zero) /\
  (forall (host : Host) p, In p (transportPatterns items) ->
     TransportPattern.efficiency p
     = Num.Math_max Num.zero
         (Num.sub (Num.of_Z 100)
                  (Num.div (TransportPattern.averageCost p)
                           (Num.of_Z 50)))).
Proof.
  split; [| split].
  - intros e He. destruct (EngineFacts.mode_inv items e He)
      as (label & Hne & ->).
    simpl. repeat split; try reflexivity. exact Hne.
  - intros item Hgroup Hcost.
    assert (Hin : In item items).
    { assert (H : In item (Spec.itemsBy (TransportItem.transportation item)
                                        items))
        by (rewrite Hgroup; left; reflexivity).
      apply filter_In in H. tauto. }
    pose proof (mode_of_label items item Hin) as Hmode.
    simpl in Hmode. rewrite Hgroup in Hmode. simpl in Hmode.
    eexists. split; [exact Hmode |].
    simpl. rewrite Hcost. repeat split; reflexivity.
  - intros host p Hp. destruct (EngineFacts.pattern_inv items p Hp)
      as (location & _ & ->).
    reflexivity.
Qed.

(** The taxi of the scenario, used once at 10000. *)
Lemma C7_mode_efficiency_witness :
  exists e,
    In e (transportEfficiency (allTransportItems Scenario.reports)) /\
    TransportEfficiency.transportationType e = "Taxi" /\
    TransportEfficiency.totalUsage e = 1 /\
    TransportEfficiency.efficiency e = Num.zero.
Proof.
  destruct (C7_mode_efficiency (allTransportItems Scenario.reports))
    as (_ & H & _).
  apply (H (TransportItem.mk "i4" "Lekki" "Taxi" (Num.of_Z 10000)
                             verification "2024-01-05" "r2"));
    reflexivity.
Defined.

End TransportModes.

(* ================================================================== *)
(** ** Mutations without a user *)
(* ================================================================== *)

Module Unauthenticated.
Import Manager.

Lemma persistenceCalls_app (tr1 tr2 : list Event) :
  persistenceCalls (tr1 ++ tr2) = persistenceCalls tr1 ++ persistenceCalls tr2.
Proof. unfold persistenceCalls. apply flat_map_app. Qed.

Lemma refused_no_persistence (w : World.t) (description : string) :
  persistenceCalls (World.trace (refused w description))
  = persistenceCalls (World.trace w).
Proof.
  unfold refused. simpl. rewrite persistenceCalls_app. simpl.
  apply app_nil_r.
Qed.

(** C8.  Without an authenticated user each of create, update and
    delete makes no persistence call, shows the destructive toast
    "Authentication Required", and returns its failure value: [null]
    for create, [false] for update and for delete. *)
Theorem C8_unauthenticated (backend : Backend) (w : World.t)
  (reportId : string) (reportData : Draft.t) :
  auth_getUser backend (World.trace w) = Returns None ->
  createReport backend reportData w
  = (Returns None, refused w "Please sign in to create reports.") /\
  updateReport backend reportId reportData w
  = (Returns false, refused w "Please sign in to update reports.") /\
  deleteReport backend reportId w
  = (Returns false, refused w "Please sign in to delete reports.") /\
  forall description,
    persistenceCalls (World.trace (refused w description))
    = persistenceCalls (World.trace w).
Proof.
  intros Hauth.
  repeat split.
  - unfold createReport, try_catch, bind, getUser. rewrite Hauth.
    unfold refused. simpl. rewrite <- app_assoc. reflexivity.
  - unfold updateReport, try_catch, bind, getUser. rewrite Hauth.
    unfold refused. simpl. rewrite <- app_assoc. reflexivity.
  - unfold deleteReport, try_catch, bind, getUser. rewrite Hauth.
    unfold refused. simpl. rewrite <- app_assoc. reflexivity.
  - apply refused_no_persistence.
Qed.

(** The signed-out backend of the scenarios. *)
Lemma C8_unauthenticated_witness :
  createReport Scenario.signedOut Scenario.draft Scenario.world
  = (Returns None,
     World.mk Scenario.reports false
              [AuthGetUser;
               Toast "Authentication Required"
                     "Please sign in to create reports." true]) /\
  deleteReport Scenario.signedOut "r1" Scenario.world
  = (Returns false,
     World.mk Scenario.reports false
              [AuthGetUser;
               Toast "Authentication Required"
                     "Please sign in to delete reports." true]).
Proof.
  destruct (C8_unauthenticated Scenario.signedOut Scenario.world "r1"
              Scenario.draft eq_refl) as (Hc & _ & Hd & _).
  split; [exact Hc | exact Hd].
Defined.

(** With a user, the same backend is written to. *)
Example signed_in_persists :
  let backend :=
    {| auth_getUser := fun _ => Returns (Some {| user_id := "u1" |});
       select_reports := select_reports Scenario.signedOut;
       insert_report := insert_report Scenario.signedOut;
       insert_items := insert_items Scenario.signedOut;
       update_report := update_report Scenario.signedOut;
       delete_items := delete_items Scenario.signedOut;
       delete_report := delete_report Scenario.signedOut |} in
  let '(result, w) := deleteReport backend "r1" Scenario.world in
  result = Returns true /\
  persistenceCalls (World.trace w) = [DeleteReport "r1" "u1"; SelectReports].
Proof. split; reflexivity. Qed.

End Unauthenticated.

(* ================================================================== *)
(** ** Currency formatting *)
(* ================================================================== *)

Module Currency.
Import Renderer.








Example sanitize_amount :
  sanitizeCost (OfString "₦1,500.50") = Num.dec 15005 1.
Proof. vm_compute. reflexivity. Qed.

Example sanitize_words : sanitizeCost (OfString "n/a") = Num.zero.
Proof. reflexivity. Qed.

Example sanitize_sign_dropped :
  sanitizeCost (OfString "-250") = Num.of_Z 250.
Proof. vm_compute. reflexivity. Qed.

Example sanitize_second_dot :
  sanitizeCost (OfString "1.2.3") = Num.dec 12 1.
Proof. vm_compute. reflexivity. Qed.

Example sanitize_number_nan : sanitizeCost (OfNumber Num.nan) = Num.nan.
Proof. reflexivity. Qed.

End Currency.

(* ================================================================== *)
(** ** The sort in place *)
(* ================================================================== *)

Module SortInPlace.
Import Engine.

Section WithHost.
Context {host : Host}.

(** C10.  The route analysis leaves every report with its items sorted
    by location: the same items, in the order of the comparator, the
    other fields untouched.  A report in which two neighbours were out
    of that order no longer has its items in the order in which they
    were entered. *)
Theorem C10_items_sorted_in_place (reports : list Report.t)
  (patterns : list TransportPattern.t) :
  (forall a b, localeCompare a b = Gt -> localeCompare b a <> Gt) ->
  let after := snd (routeAnalysis reports patterns) in
  after
  = map (fun report =>
           Report.with_items report
             (Arr.sort compareByLocation (Report.items report)))
        reports /\
  Forall2 (fun before now =>
             Permutation (Report.items now) (Report.items before) /\
             Sorted (Arr.inOrder compareByLocation) (Report.items now) /\
             (forall l1 a b l2,
                 Report.items before = l1 ++ a :: b :: l2 ->
                 compareByLocation a b = Gt ->
                 Report.items now <> Report.items before))
          reports after.
Proof.
  intros Htotal after.
  assert (Hafter : after
                   = map (fun report =>
                            Report.with_items report
                              (Arr.sort compareByLocation
                                        (Report.items report)))
                         reports).
  { subst after. rewrite EngineFacts.routeAnalysis_eq. reflexivity. }
  split; [exact Hafter |].
  rewrite Hafter. clear Hafter after.
  assert (Ht : forall x y : ReportItem.t,
             compareByLocation x y = Gt -> compareByLocation y x <> Gt).
  { intros x y. apply Htotal. }
  induction reports as [| r reports IH]; simpl; constructor; [| exact IH].
  split; [apply ArrFacts.sort_perm |].
  split; [apply ArrFacts.sort_sorted, Ht |].
  intros l1 a b l2 Hitems Hab. rewrite Hitems.
  apply ArrFacts.sort_changes; assumption.
Qed.

End WithHost.

Lemma compare_total (a b : string) :
  String.compare a b = Gt -> String.compare b a <> Gt.
Proof.
  intros H. rewrite String.compare_antisym, H. discriminate.
Qed.

(** The March report of the scenario was entered as Yaba, Ikeja, Lekki
    and is left as Ikeja, Lekki, Yaba. *)
Lemma C10_items_sorted_in_place_witness :
  map (fun report => map ReportItem.location (Report.items report))
      Scenario.reports
  = [["Yaba"; "Ikeja"; "Lekki"]; ["Lekki"; "Ikeja"]] /\
  map (fun report => map ReportItem.location (Report.items report))
      (snd (@routeAnalysis IsoHost.host Scenario.reports []))
  = [["Ikeja"; "Lekki"; "Yaba"]; ["Ikeja"; "Lekki"]].
Proof.
  split; [reflexivity |].
  destruct (@C10_items_sorted_in_place IsoHost.host Scenario.reports []
              compare_total) as [-> _].
  reflexivity.
Defined.

End SortInPlace.

(* ================================================================== *)
(** ** Counting in lists and groupings *)
(* ================================================================== *)

(** Counting lemmas on lists and on the groupings. *)
Module GroupFacts.

Lemma list_sum_perm (l l' : list nat) :
  Permutation l l' -> list_sum l = list_sum l'.
Proof.
  induction 1; simpl; lia.
Qed.

Lemma list_sum_map_add {A : Type} (f g : A -> nat) (l : list A) :
  list_sum (map (fun a => f a + g a) l)
  = list_sum (map f l) + list_sum (map g l).
Proof.
  induction l as [| a l IH]; simpl; lia.
Qed.

Lemma list_sum_firstn (n : nat) (l : list nat) :
  list_sum (firstn n l) <= list_sum l.
Proof.
  revert n. induction l as [| a l IH]; intros [| n]; simpl; try lia.
  specialize (IH n). lia.
Qed.

Lemma NoDup_firstn_keep {A : Type} (n : nat) (l : list A) :
  NoDup l -> NoDup (firstn n l).
Proof.
  intros H. rewrite <- (firstn_skipn n l) in H.
  eapply NoDup_app_remove_r. exact H.
Qed.

Lemma NoDup_map_eq {A B : Type} (f : A -> B) (l : list A) (a b : A) :
  NoDup (map f l) -> In a l -> In b l -> f a = f b -> a = b.
Proof.
  induction l as [| x l IH]; simpl; intros Hnd Ha Hb Hf; [contradiction |].
  inversion Hnd as [| ? ? Hx Hl]; subst.
  destruct Ha as [-> | Ha]; destruct Hb as [-> | Hb].
  - reflexivity.
  - exfalso. apply Hx. rewrite Hf. apply in_map, Hb.
  - exfalso. apply Hx. rewrite <- Hf. apply in_map, Ha.
  - apply IH; assumption.
Qed.

Lemma StronglySorted_impl {A : Type} (R R' : A -> A -> Prop) (l : list A) :
  (forall x y, R x y -> R' x y) -> StronglySorted R l -> StronglySorted R' l.
Proof.
  intros Himp. induction 1 as [| x l Hs IH Hf]; constructor.
  - exact IH.
  - eapply Forall_impl; [| exact Hf]. intros y. apply Himp.
Qed.

Lemma StronglySorted_filter {A : Type} (R : A -> A -> Prop)
  (f : A -> bool) (l : list A) :
  StronglySorted R l -> StronglySorted R (filter f l).
Proof.
  induction 1 as [| x l Hs IH Hf]; simpl; [constructor |].
  destruct (f x); [| exact IH].
  constructor; [exact IH |].
  rewrite Forall_forall in *. intros y Hy. apply Hf.
  apply filter_In in Hy. tauto.
Qed.

Lemma last_In {A : Type} (l : list A) (d : A) :
  l <> [] -> In (last l d) l.
Proof.
  intros H. destruct (exists_last H) as (l' & z & ->).
  rewrite last_last. apply in_or_app. right. left. reflexivity.
Qed.

(** In a list in order, every element is before the last one. *)
Lemma StronglySorted_last {A : Type} (R : A -> A -> Prop) (l : list A)
  (d x : A) :
  (forall a, In a l -> R a a) ->
  StronglySorted R l -> In x l -> R x (last l d).
Proof.
  intros Hrefl Hs. revert x.
  induction Hs as [| a l Hs IH Hf]; intros x Hx; [contradiction |].
  destruct l as [| b l].
  - destruct Hx as [-> | []]. apply Hrefl. left. reflexivity.
  - change (last (a :: b :: l) d) with (last (b :: l) d).
    destruct Hx as [-> | Hx].
    + rewrite Forall_forall in Hf. apply Hf.
      apply last_In. discriminate.
    + apply IH; [| exact Hx]. intros c Hc. apply Hrefl. right. exact Hc.
Qed.

Lemma last_map_Some {A : Type} (l : list A) (d : A) :
  last (map Some l) None
  = match l with [] => None | _ :: _ => Some (last l d) end.
Proof.
  induction l as [| a l IH]; [reflexivity |].
  destruct l as [| b l]; [reflexivity |].
  change (last (map Some (a :: b :: l)) None)
    with (last (map Some (b :: l)) None).
  rewrite IH. reflexivity.
Qed.

(** A key of a list without repetitions is met once. *)
Lemma count_key (ks : list string) (k0 : string) :
  NoDup ks -> In k0 ks ->
  list_sum (map (fun k => if String.eqb k0 k then 1 else 0) ks) = 1.
Proof.
  induction 1 as [| k ks Hk Hnd IH]; simpl; [contradiction |].
  intros [-> | Hin].
  - rewrite String.eqb_refl.
    assert (H0 : list_sum (map (fun k => if String.eqb k0 k then 1 else 0) ks)
                 = 0).
    { clear IH Hnd. induction ks as [| a ks IH]; simpl; [reflexivity |].
      destruct (String.eqb k0 a) eqn:E.
      - apply String.eqb_eq in E. subst a. exfalso. apply Hk. left.
        reflexivity.
      - apply IH. intros H. apply Hk. right. exact H. }
    lia.
  - destruct (String.eqb k0 k) eqn:E.
    + apply String.eqb_eq in E. subst k. contradiction.
    + apply IH, Hin.
Qed.

(** The groups of the keys of a list share out the list. *)
Lemma group_sizes {X : Type} (key : X -> string) (ks : list string)
  (xs : list X) :
  NoDup ks -> (forall x, In x xs -> In (key x) ks) ->
  list_sum (map (fun k => List.length (JSMap.groupOf key k xs)) ks)
  = List.length xs.
Proof.
  intros Hnd. induction xs as [| x xs IH]; intros Hin.
  - clear. induction ks as [| k ks IHk]; simpl; auto.
  - rewrite (map_ext
               (fun k => List.length (JSMap.groupOf key k (x :: xs)))
               (fun k => (if String.eqb (key x) k then 1 else 0)
                         + List.length (JSMap.groupOf key k xs))).
    + rewrite list_sum_map_add, IH, count_key.
      * reflexivity.
      * exact Hnd.
      * apply Hin. left. reflexivity.
      * intros y Hy. apply Hin. right. exact Hy.
    + intros k. unfold JSMap.groupOf. simpl.
      destruct (String.eqb (key x) k); reflexivity.
Qed.

Section GroupBy.
Context {X V : Type}.
Variable key : X -> string.
Variable init : V.
Variable upd : V -> X -> V.
Variable step : JSMap.t V -> X -> JSMap.t V.

Hypothesis step_sets :
  forall m x,
    step m x = JSMap.set m (key x) (upd (JSMap.held init m (key x)) x).

(** The grouping, entry by entry: the keys as they are first met, each
    with the fold of its elements. *)
Lemma group_entries (xs : list X) :
  fold_left step xs JSMap.empty
  = map (fun k => (k, fold_left upd (JSMap.groupOf key k xs) init))
        (Spec.firstSeen (map key xs)).
Proof.
  rewrite <- (MapFacts.group_keys key init upd step step_sets xs).
  assert (H : forall k v, In (k, v) (fold_left step xs JSMap.empty) ->
                          v = fold_left upd (JSMap.groupOf key k xs) init).
  { intros k v Hin.
    apply (MapFacts.group_entry key init upd step step_sets xs k v Hin). }
  revert H. generalize (fold_left step xs JSMap.empty) as m.
  induction m as [| [k v] m IH]; intros H; simpl.
  - reflexivity.
  - rewrite <- (H k v) by (left; reflexivity).
    f_equal. apply IH. intros k' v' Hin. apply H. right. exact Hin.
Qed.

(** The sizes of the groups of the entries add up to the whole. *)
Lemma group_total (xs : list X) (size : string * V -> nat) :
  (forall k,
      size (k, fold_left upd (JSMap.groupOf key k xs) init)
      = List.length (JSMap.groupOf key k xs)) ->
  list_sum (map size (fold_left step xs JSMap.empty)) = List.length xs.
Proof.
  intros Hsize. rewrite group_entries, map_map.
  rewrite (map_ext _ (fun k => List.length (JSMap.groupOf key k xs)))
    by exact Hsize.
  apply group_sizes.
  - apply MapFacts.firstSeen_NoDup.
  - intros x Hx. apply MapFacts.firstSeen_In, in_map, Hx.
Qed.

End GroupBy.

End GroupFacts.

(* ================================================================== *)
(** ** The patterns by location *)
(* ================================================================== *)

Module PatternsByLocation.
Import Engine.
Import Reading.

Lemma compareByVisitCount_total (a b : TransportPattern.t) :
  compareByVisitCount a b = Gt -> compareByVisitCount b a <> Gt.
Proof.
  unfold compareByVisitCount. intros H.
  rewrite Nat.compare_antisym, H. discriminate.
Qed.

Lemma compareByVisitCount_le (a b : TransportPattern.t) :
  Arr.inOrder compareByVisitCount a b <->
  TransportPattern.visitCount b <= TransportPattern.visitCount a.
Proof.
  unfold Arr.inOrder, compareByVisitCount.
  destruct (Nat.compare_spec (TransportPattern.visitCount b)
                             (TransportPattern.visitCount a));
    split; intros; try lia; try discriminate; congruence.
Qed.

Lemma locationMap_entries (items : list TransportItem.t) :
  JSMap.entries (locationMapOf items)
  = map (fun location =>
           (location,
            LocationData.mk
              (map visitOf (Spec.itemsAt location items))
              (Arr.sum (map TransportItem.cost
                            (Spec.itemsAt location items)))))
        (Spec.firstSeen (map TransportItem.location items)).
Proof.
  unfold JSMap.entries, locationMapOf.
  rewrite (GroupFacts.group_entries TransportItem.location initLocation
             updLocation addVisit EngineFacts.addVisit_sets).
  apply map_ext. intros location.
  rewrite EngineFacts.fold_updLocation. reflexivity.
Qed.

Section WithHost.
Context {host : Host}.

Lemma locations_perm (items : list TransportItem.t) :
  Permutation (map TransportPattern.location (transportPatterns items))
              (Spec.firstSeen (map TransportItem.location items)).
Proof.
  unfold transportPatterns.
  eapply perm_trans; [apply Permutation_map, ArrFacts.sort_perm |].
  rewrite locationMap_entries, !map_map.
  rewrite (map_ext _ (fun location => location)), map_id.
  - apply Permutation_refl.
  - intros location. apply EngineFacts.patternOf_location.
Qed.

Lemma locations_NoDup (items : list TransportItem.t) :
  NoDup (map TransportPattern.location (transportPatterns items)).
Proof.
  eapply Permutation_NoDup;
    [apply Permutation_sym, locations_perm | apply MapFacts.firstSeen_NoDup].
Qed.

Lemma patterns_sorted (items : list TransportItem.t) :
  StronglySorted
    (fun a b => TransportPattern.visitCount b <= TransportPattern.visitCount a)
    (transportPatterns items).
Proof.
  eapply GroupFacts.StronglySorted_impl;
    [intros x y; apply compareByVisitCount_le |].
  apply ArrFacts.sort_strongly_sorted.
  - apply compareByVisitCount_total.
  - intros x y z. rewrite !compareByVisitCount_le. lia.
Qed.

Lemma location_has_pattern (items : list TransportItem.t)
  (location : string) :
  In location (map TransportPattern.location (transportPatterns items))
  <-> exists item, In item items /\ TransportItem.location item = location.
Proof.
  split.
  - intros H. apply (Permutation_in _ (locations_perm items)) in H.
    apply MapFacts.firstSeen_In, in_map_iff in H.
    destruct H as (item & H1 & H2). exists item. auto.
  - intros (item & H1 & H2).
    apply (Permutation_in _ (Permutation_sym (locations_perm items))).
    apply MapFacts.firstSeen_In, in_map_iff. exists item. auto.
Qed.

(** X1.  The patterns come by descending visit count: no pattern has
    more visits than one listed before it. *)
Theorem patterns_by_descending_visits (items : list TransportItem.t) :
  StronglySorted
    (fun earlier later =>
       TransportPattern.visitCount later
       <= TransportPattern.visitCount earlier)
    (transportPatterns items).
Proof.
  unfold transportPatterns.
  eapply GroupFacts.StronglySorted_impl;
    [intros x y; apply compareByVisitCount_le |].
  apply ArrFacts.sort_strongly_sorted.
  - apply compareByVisitCount_total.
  - intros x y z. rewrite !compareByVisitCount_le. lia.
Qed.

Lemma visit_counts_total (items : list TransportItem.t) :
  list_sum (map TransportPattern.visitCount (transportPatterns items))
  = List.length items.
Proof.
  unfold transportPatterns.
  rewrite (GroupFacts.list_sum_perm _ _
             (Permutation_map TransportPattern.visitCount
                (ArrFacts.sort_perm compareByVisitCount _))).
  rewrite map_map. unfold JSMap.entries, locationMapOf.
  apply (GroupFacts.group_total TransportItem.location initLocation
           updLocation addVisit EngineFacts.addVisit_sets).
  intros location. rewrite EngineFacts.fold_updLocation. simpl.
  apply length_map.
Qed.

(** X2.  The patterns share out the items by location: no location has two
    patterns, a location has a pattern exactly when some item is at
    it, and the visit counts add up to the number of the items. *)
Theorem patterns_share_out_items (items : list TransportItem.t) :
  NoDup (map TransportPattern.location (transportPatterns items)) /\
  (forall location,
      In location (map TransportPattern.location (transportPatterns items))
      <-> exists item,
            In item items /\ TransportItem.location item = location) /\
  list_sum (map TransportPattern.visitCount (transportPatterns items))
  = List.length items.
Proof.
  split; [apply locations_NoDup |].
  split; [apply location_has_pattern | apply visit_counts_total].
Qed.

(** X3.  The figures of a pattern are those of the items at its
    location, of which there is one at least: their number, the sum of
    their costs from left to right, and the quotient of the two. *)
Theorem pattern_figures (items : list TransportItem.t)
  (p : TransportPattern.t) :
  In p (transportPatterns items) ->
  let group := Spec.itemsAt (TransportPattern.location p) items in
  group <> [] /\
  TransportPattern.visitCount p = List.length group /\
  TransportPattern.totalCost p = Arr.sum (map TransportItem.cost group) /\
  TransportPattern.averageCost p
  = Num.div (TransportPattern.totalCost p)
            (Num.of_nat (TransportPattern.visitCount p)).
Proof.
  intros Hp. destruct (EngineFacts.pattern_inv items p Hp)
    as (location & Hne & ->).
  simpl. rewrite length_map. repeat split; try reflexivity. exact Hne.
Qed.

Lemma upTo_trans (a b c : Visit.t) : upTo a b -> upTo b c -> upTo a c.
Proof.
  intros (ta & tb & Ha & Hb & Hab) (tb' & tc & Hb' & Hc & Hbc).
  rewrite Hb in Hb'. inversion Hb'; subst tb'.
  exists ta, tc. repeat split; auto. lia.
Qed.

Lemma compareByDate_consistent (a b : Visit.t) :
  compareByDate a b = Gt -> compareByDate b a <> Gt.
Proof.
  unfold compareByDate.
  destruct (Date_getTime (Visit.date a)) as [ta |];
    destruct (Date_getTime (Visit.date b)) as [tb |]; try discriminate.
  intros H. rewrite Z.compare_antisym, H. discriminate.
Qed.

Lemma sorted_upTo (visits : list Visit.t) :
  Forall (fun v => Date_getTime (Visit.date v) <> None) visits ->
  StronglySorted upTo (Arr.sort compareByDate visits).
Proof.
  intros Hvalid.
  assert (Hv : Forall (fun v => Date_getTime (Visit.date v) <> None)
                      (Arr.sort compareByDate visits)).
  { rewrite Forall_forall in *. intros v Hin. apply Hvalid.
    apply (ArrFacts.sort_In compareByDate). exact Hin. }
  pose proof (ArrFacts.sort_sorted compareByDate compareByDate_consistent
                visits) as Hs.
  apply Sorted_StronglySorted; [intros a b c; apply upTo_trans |].
  induction Hs as [| v l Hs IH Hd]; constructor.
  - apply IH. inversion Hv; assumption.
  - destruct Hd as [| w l Hvw]; constructor.
    inversion Hv as [| ? ? Hv1 Hv2]; subst.
    inversion Hv2 as [| ? ? Hw1 _]; subst.
    unfold Arr.inOrder, compareByDate in Hvw. unfold upTo.
    destruct (Date_getTime (Visit.date v)) as [tv |]; [| congruence].
    destruct (Date_getTime (Visit.date w)) as [tw |]; [| congruence].
    exists tv, tw. repeat split.
    destruct (Z.compare_spec tv tw); try lia. congruence.
Qed.

(** X4.  When the dates of the items are valid, [lastVisited] of a
    pattern is the date of an item at its location, and no item at the
    location is dated after it. *)
Theorem last_visited_is_latest (items : list TransportItem.t)
  (p : TransportPattern.t) :
  (forall item, In item items ->
                Date_getTime (TransportItem.reportDate item) <> None) ->
  In p (transportPatterns items) ->
  (exists item,
      In item items /\
      TransportItem.location item = TransportPattern.location p /\
      TransportItem.reportDate item = TransportPattern.lastVisited p) /\
  forall item,
    In item items ->
    TransportItem.location item = TransportPattern.location p ->
    exists t tlast,
      Date_getTime (TransportItem.reportDate item) = Some t /\
      Date_getTime (TransportPattern.lastVisited p) = Some tlast /\
      (t <= tlast)%Z.
Proof.
  intros Hvalid Hp.
  destruct (EngineFacts.pattern_inv items p Hp) as (location & Hne & ->).
  set (group := Spec.itemsAt location items) in *.
  set (visits := map visitOf group).
  set (sorted := Arr.sort compareByDate visits).
  assert (Hgroup : forall item, In item group ->
                                In item items /\
                                TransportItem.location item = location).
  { intros item Hin. apply filter_In in Hin. destruct Hin as [H1 H2].
    apply String.eqb_eq in H2. auto. }
  assert (Hvisits : Forall (fun v => Date_getTime (Visit.date v) <> None)
                           visits).
  { apply Forall_forall. intros v Hv. apply in_map_iff in Hv.
    destruct Hv as (item & <- & Hin). simpl.
    apply Hvalid, Hgroup, Hin. }
  assert (Hlast : forall d,
             TransportPattern.lastVisited
               (patternOf (location,
                           LocationData.mk visits
                             (Arr.sum (map TransportItem.cost group))))
             = Visit.date (last sorted d)).
  { intros d. unfold patternOf.
    rewrite (EngineFacts.sortedVisitsOf_valid
               (LocationData.mk visits
                  (Arr.sum (map TransportItem.cost group))) Hvisits).
    simpl.
    fold sorted. rewrite (GroupFacts.last_map_Some sorted d).
    destruct sorted as [| v l] eqn:E; [| reflexivity].
    exfalso. apply Hne.
    apply (f_equal (@List.length _)) in E. subst sorted.
    rewrite ArrFacts.sort_length in E. subst visits.
    rewrite length_map in E. destruct group; [reflexivity | discriminate]. }
  fold visits.
  assert (Hnonempty : sorted <> []).
  { intros E. apply Hne. apply (f_equal (@List.length _)) in E.
    subst sorted. rewrite ArrFacts.sort_length in E. subst visits.
    rewrite length_map in E. destruct group; [reflexivity | discriminate]. }
  set (d := Visit.mk Num.zero "" "").
  rewrite (Hlast d). simpl TransportPattern.location.
  split.
  - pose proof (GroupFacts.last_In sorted d Hnonempty) as Hin.
    apply (proj1 (ArrFacts.sort_In compareByDate visits _)) in Hin.
    apply in_map_iff in Hin. destruct Hin as (item & Hitem & Hin).
    exists item. destruct (Hgroup item Hin) as [H1 H2].
    repeat split; auto. rewrite <- Hitem. reflexivity.
  - intros item Hin Hloc.
    assert (Hv : In (visitOf item) sorted).
    { apply (proj2 (ArrFacts.sort_In compareByDate visits _)). apply in_map.
      apply filter_In. split; [exact Hin |]. apply String.eqb_eq, Hloc. }
    pose proof (sorted_upTo visits Hvisits) as Hs. fold sorted in Hs.
    assert (Hrefl : forall a, In a sorted -> upTo a a).
    { intros a Ha.
      apply (proj1 (ArrFacts.sort_In compareByDate visits _)) in Ha.
      rewrite Forall_forall in Hvisits. specialize (Hvisits a Ha).
      unfold upTo.
      destruct (Date_getTime (Visit.date a)) as [ta |]; [| congruence].
      exists ta, ta. repeat split. lia. }
    exact (GroupFacts.StronglySorted_last upTo sorted d (visitOf item)
             Hrefl Hs Hv).
Qed.

(** X5.  The function [calculateOptimalRoute], given the patterns of the
    items, answers a route of at most five stops, all different, and
    they are the most visited locations: a location left out has no
    more visits than any stop. *)
Theorem optimal_route_most_visited (items : list TransportItem.t) :
  let patterns := transportPatterns items in
  let route := calculateOptimalRoute patterns in
  List.length (OptimalRoute.locations route)
  = Nat.min 5 (List.length patterns) /\
  NoDup (OptimalRoute.locations route) /\
  (forall stop, In stop (OptimalRoute.locations route) ->
                exists item, In item items /\
                             TransportItem.location item = stop) /\
  (forall p q,
      In p patterns -> In q patterns ->
      In (TransportPattern.location q) (OptimalRoute.locations route) ->
      ~ In (TransportPattern.location p) (OptimalRoute.locations route) ->
      TransportPattern.visitCount p <= TransportPattern.visitCount q).
Proof.
  intros patterns route.
  change (OptimalRoute.locations route)
    with (map TransportPattern.location (firstn 5 patterns)).
  split; [rewrite length_map; apply length_firstn |].
  split.
  { rewrite <- firstn_map. apply GroupFacts.NoDup_firstn_keep.
    apply locations_NoDup. }
  split.
  { intros stop Hstop. rewrite <- firstn_map in Hstop.
    apply ArrFacts.In_firstn in Hstop.
    apply (proj1 (location_has_pattern items stop) Hstop). }
  intros p q Hp Hq Hqin Hpout.
  apply in_map_iff in Hqin. destruct Hqin as (q' & Hq' & Hin).
  assert (q' = q).
  { apply (GroupFacts.NoDup_map_eq TransportPattern.location patterns).
    - apply locations_NoDup.
    - eapply ArrFacts.In_firstn; eassumption.
    - exact Hq.
    - exact Hq'. }
  subst q'.
  assert (Hskip : In p (skipn 5 patterns)).
  { rewrite <- (firstn_skipn 5 patterns) in Hp. apply in_app_or in Hp.
    destruct Hp as [Hp | Hp]; [| exact Hp].
    exfalso. apply Hpout. apply in_map. exact Hp. }
  apply (ArrFacts.StronglySorted_split _ 5 patterns q p
           (patterns_sorted items) Hin Hskip).
Qed.

End WithHost.

Lemma scenario_dates_valid :
  forall item,
    In item (allTransportItems Scenario.reports) ->
    @Date_getTime IsoHost.host (TransportItem.reportDate item) <> None.
Proof.
  intros item Hin. simpl in Hin.
  repeat (destruct Hin as [<- | Hin]; [discriminate |]).
  contradiction.
Qed.

(** Lekki in the scenario: two items, at 200 and at 10000. *)
Lemma pattern_figures_witness :
  exists p,
    In p (@transportPatterns IsoHost.host
            (allTransportItems Scenario.reports)) /\
    TransportPattern.location p = "Lekki" /\
    TransportPattern.visitCount p = 2 /\
    TransportPattern.totalCost p = Num.of_Z 10200.
Proof.
  eexists. split; [right; left; reflexivity |].
  split; [reflexivity |].
  match goal with
  | |- TransportPattern.visitCount ?p = _ /\ _ =>
      destruct (@pattern_figures IsoHost.host
                  (allTransportItems Scenario.reports) p
                  (or_intror (or_introl eq_refl)))
        as (_ & Hcount & Htotal & _)
  end.
  split; [rewrite Hcount | rewrite Htotal]; reflexivity.
Defined.

(** Ikeja in the scenario was last visited in March, by the report
    listed first. *)
Lemma last_visited_is_latest_witness :
  exists p,
    In p (@transportPatterns IsoHost.host
            (allTransportItems Scenario.reports)) /\
    TransportPattern.location p = "Ikeja" /\
    TransportPattern.lastVisited p = "2024-03-10" /\
    exists item,
      In item (allTransportItems Scenario.reports) /\
      TransportItem.location item = "Ikeja" /\
      TransportItem.reportDate item = "2024-03-10".
Proof.
  eexists. split; [left; reflexivity |].
  split; [reflexivity |]. split; [reflexivity |].
  match goal with
  | |- exists item, In item ?items /\ _ =>
      destruct (@last_visited_is_latest IsoHost.host items
                  (hd (TransportPattern.mk "" 0 Num.zero Num.zero ""
                                           stable Num.zero [])
                      (@transportPatterns IsoHost.host items))
                  scenario_dates_valid (or_introl eq_refl))
        as ((item & Hin & Hloc & Hdate) & _)
  end.
  exists item. auto.
Defined.

(** Six places of which one was visited once: it is left out of the
    route. *)
Lemma optimal_route_most_visited_witness :
  OptimalRoute.locations
    (calculateOptimalRoute
       (@transportPatterns IsoHost.host
          (allTransportItems Cases.sixPlaces)))
  = ["Badagry"; "Epe"; "Festac"; "Gbagada"; "Ikoyi"] /\
  NoDup (OptimalRoute.locations
           (calculateOptimalRoute
              (@transportPatterns IsoHost.host
                 (allTransportItems Cases.sixPlaces)))).
Proof.
  destruct (@optimal_route_most_visited IsoHost.host
              (allTransportItems Cases.sixPlaces))
    as (_ & Hnd & _).
  split; [reflexivity | exact Hnd].
Defined.

End PatternsByLocation.

(* ================================================================== *)
(** ** The insights, the modes and the reports left sorted *)
(* ================================================================== *)

Module InsightsSummary.
Import Engine.

Lemma fold_costs (items : list TransportItem.t) (acc : Num.number) :
  fold_left (fun sum item => Num.add sum (TransportItem.cost item)) items acc
  = fold_left Num.add (map TransportItem.cost items) acc.
Proof.
  revert acc. induction items as [| item items IH]; intros acc; simpl.
  - reflexivity.
  - apply IH.
Qed.

Section WithHost.
Context {host : Host}.

Lemma addMonth_thrown (items : list TransportItem.t) (e : JSError) :
  fold_left addMonth items (Throws e) = Throws e.
Proof.
  induction items as [| item items IH]; simpl; [reflexivity | exact IH].
Qed.

Lemma monthlyData_invalid (items : list TransportItem.t)
  (m : JSMap.t Num.number) :
  (exists item, In item items /\
                Date_getTime (TransportItem.reportDate item) = None) ->
  fold_left addMonth items (Returns m)
  = Throws (RangeError "Invalid time value").
Proof.
  revert m. induction items as [| item items IH]; intros m (bad & Hin & Hbad).
  - contradiction.
  - cbn [fold_left]. unfold addMonth at 2.
    destruct (Date_getTime (TransportItem.reportDate item)) as [t |] eqn:E.
    + apply IH. destruct Hin as [-> | Hin]; [congruence |].
      exists bad. auto.
    + apply addMonth_thrown.
Qed.

Lemma monthlyData_returned (items : list TransportItem.t)
  (m : JSMap.t Num.number) :
  (forall item, In item items ->
                Date_getTime (TransportItem.reportDate item) <> None) ->
  exists m', fold_left addMonth items (Returns m) = Returns m'.
Proof.
  revert m. induction items as [| item items IH]; intros m Hvalid.
  - exists m. reflexivity.
  - cbn [fold_left]. unfold addMonth at 2.
    destruct (Date_getTime (TransportItem.reportDate item)) as [t |] eqn:E.
    + apply IH. intros it Hit. apply Hvalid. right. exact Hit.
    + exfalso. apply (Hvalid item); [left; reflexivity | exact E].
Qed.

(** X6.  The insights throw exactly when the date of some item cannot be
    read, and what is thrown is the [RangeError] of [toISOString],
    whatever the other items and the patterns. *)
Theorem insights_throw_on_unreadable_date (items : list TransportItem.t)
  (patterns : list TransportPattern.t) :
  (exists item, In item items /\
                Date_getTime (TransportItem.reportDate item) = None)
  <-> generateAIInsights items patterns
      = Throws (RangeError "Invalid time value").
Proof.
  split.
  - intros Hbad. unfold generateAIInsights, monthlyDataOf.
    rewrite (monthlyData_invalid items JSMap.empty Hbad). reflexivity.
  - intros Hthrows.
    destruct (existsb (fun item =>
                         match Date_getTime (TransportItem.reportDate item)
                         with None => true | Some _ => false end) items)
      eqn:E.
    + apply existsb_exists in E. destruct E as (item & Hin & Hitem).
      exists item. split; [exact Hin |].
      destruct (Date_getTime (TransportItem.reportDate item));
        [discriminate | reflexivity].
    + exfalso.
      assert (Hvalid : forall item, In item items ->
                Date_getTime (TransportItem.reportDate item) <> None).
      { intros item Hin Hnone.
        assert (Ht : existsb (fun item =>
                         match Date_getTime (TransportItem.reportDate item)
                         with None => true | Some _ => false end) items
                     = true).
        { apply existsb_exists. exists item. rewrite Hnone. auto. }
        congruence. }
      destruct (monthlyData_returned items JSMap.empty Hvalid) as [m' Hm].
      unfold generateAIInsights, monthlyDataOf in Hthrows.
      rewrite Hm in Hthrows. discriminate.
Qed.

(** X7.  With one item at least, costs that are not negative and fewer
    than [2^53] items, the total, the average per visit and the
    efficiency score of returned insights are numbers that are not
    negative: the average is [NaN] for no item only. *)
Theorem insights_figures_defined (items : list TransportItem.t)
  (patterns : list TransportPattern.t) (insights : AIInsights.t) :
  items <> [] ->
  (forall item, In item items ->
                Num.ge (TransportItem.cost item) Num.zero = true) ->
  (Z.of_nat (List.length items) < 2 ^ 53)%Z ->
  generateAIInsights items patterns = Returns insights ->
  Num.ge (CostAnalysis.totalSpent (AIInsights.costAnalysis insights))
         Num.zero = true /\
  Num.ge (CostAnalysis.averagePerVisit (AIInsights.costAnalysis insights))
         Num.zero = true /\
  Num.ge (AIInsights.efficiencyScore insights) Num.zero = true.
Proof.
  intros Hne Hcost Hsize Hret.
  unfold generateAIInsights in Hret.
  destruct (monthlyDataOf items) as [monthlyData | e]; [| discriminate].
  inversion Hret; subst insights; clear Hret. simpl.
  rewrite fold_costs.
  assert (Htotal : Num.nonneg (fold_left Num.add
                                 (map TransportItem.cost items) n0)).
  { apply NumFacts.sum_from_nonneg; [reflexivity |].
    apply Forall_forall. intros c Hc. apply in_map_iff in Hc.
    destruct Hc as (item & <- & Hin). apply Hcost, Hin. }
  assert (Hcount : Num.posfin (Num.of_nat (List.length items))).
  { apply NumFacts.of_nat_posfin; [| exact Hsize].
    apply EngineFacts.nonempty_length, Hne. }
  split; [exact Htotal |].
  split.
  - apply NumFacts.div_nonneg; assumption.
  - apply NumFacts.efficiencyOf_nonneg; [| apply EngineFacts.posfin_n50].
    apply NumFacts.div_nonneg; assumption.
Qed.

End WithHost.

(** The report dated "someday". *)
Lemma insights_throw_on_unreadable_date_witness :
  @generateAIInsights IsoHost.host (allTransportItems Cases.undated) []
  = Throws (RangeError "Invalid time value").
Proof.
  apply (proj1 (@insights_throw_on_unreadable_date IsoHost.host
                  (allTransportItems Cases.undated) [])).
  eexists. split; [left; reflexivity | reflexivity].
Defined.

(** The scenario: five items that cost 11400 together. *)
Lemma insights_figures_defined_witness :
  exists insights,
    @generateAIInsights IsoHost.host
      (allTransportItems Scenario.reports) [] = Returns insights /\
    CostAnalysis.totalSpent (AIInsights.costAnalysis insights)
    = Num.of_Z 11400 /\
    Num.ge (CostAnalysis.averagePerVisit (AIInsights.costAnalysis insights))
           Num.zero = true.
Proof.
  eexists. split; [reflexivity |]. split; [reflexivity |].
  match goal with
  | |- Num.ge (CostAnalysis.averagePerVisit
                 (AIInsights.costAnalysis ?i)) _ = _ =>
      destruct (@insights_figures_defined IsoHost.host
                  (allTransportItems Scenario.reports) [] i)
        as (_ & Havg & _)
  end.
  - discriminate.
  - intros item Hin. simpl in Hin.
    repeat (destruct Hin as [<- | Hin]; [reflexivity |]).
    contradiction.
  - reflexivity.
  - reflexivity.
  - exact Havg.
Defined.

End InsightsSummary.

Module ModesByLabel.
Import Engine.

Lemma labels_perm (items : list TransportItem.t) :
  Permutation (map TransportEfficiency.transportationType
                   (transportEfficiency items))
              (Spec.firstSeen (map TransportItem.transportation items)).
Proof.
  unfold transportEfficiency.
  eapply perm_trans; [apply Permutation_map, ArrFacts.sort_perm |].
  unfold JSMap.entries, efficiencyMapOf.
  rewrite (GroupFacts.group_entries TransportItem.transportation initTally
             (fun t item => updTally t (TransportItem.cost item))
             addUsage EngineFacts.addUsage_sets).
  rewrite !map_map. simpl. rewrite map_id. apply Permutation_refl.
Qed.

(** X8.  The transport modes share out the items by label: no label is
    listed twice, a label is listed exactly when some item bears it,
    and the usages add up to the number of the items. *)
Theorem modes_share_out_items (items : list TransportItem.t) :
  NoDup (map TransportEfficiency.transportationType
             (transportEfficiency items)) /\
  (forall label,
      In label (map TransportEfficiency.transportationType
                    (transportEfficiency items))
      <-> exists item,
            In item items /\ TransportItem.transportation item = label) /\
  list_sum (map TransportEfficiency.totalUsage (transportEfficiency items))
  = List.length items.
Proof.
  split; [| split].
  - eapply Permutation_NoDup;
      [apply Permutation_sym, labels_perm | apply MapFacts.firstSeen_NoDup].
  - intros label. split.
    + intros H. apply (Permutation_in _ (labels_perm items)) in H.
      apply MapFacts.firstSeen_In, in_map_iff in H.
      destruct H as (item & H1 & H2). exists item. auto.
    + intros (item & H1 & H2).
      apply (Permutation_in _ (Permutation_sym (labels_perm items))).
      apply MapFacts.firstSeen_In, in_map_iff. exists item. auto.
  - unfold transportEfficiency.
    rewrite (GroupFacts.list_sum_perm _ _
               (Permutation_map TransportEfficiency.totalUsage
                  (ArrFacts.sort_perm compareByEfficiency _))).
    rewrite map_map. unfold JSMap.entries, efficiencyMapOf.
    apply (GroupFacts.group_total TransportItem.transportation initTally
             (fun t item => updTally t (TransportItem.cost item))
             addUsage EngineFacts.addUsage_sets).
    intros label. rewrite EngineFacts.fold_updTally. reflexivity.
Qed.

End ModesByLabel.

Module SortedOnce.
Import Engine.

Section WithHost.
Context {host : Host}.

Lemma sortedItems_settled (report : Report.t) :
  (forall a b, localeCompare a b = Gt -> localeCompare b a <> Gt) ->
  Spec.sortedItems (Report.with_items report (Spec.sortedItems report))
  = Spec.sortedItems report.
Proof.
  intros Htotal. unfold Spec.sortedItems at 1. simpl Report.items.
  apply ArrFacts.sort_fixed. unfold Spec.sortedItems.
  apply ArrFacts.sort_sorted.
  intros x y. unfold compareByLocation. apply Htotal.
Qed.

(** X10.  Sorting the items in place changes the reports once: the reports
    as a run of the callback of [routeAnalysis] has left them are left
    as they are by another run. *)
Theorem reports_settle_after_one_run (reports : list Report.t)
  (patterns : list TransportPattern.t) :
  (forall a b, localeCompare a b = Gt -> localeCompare b a <> Gt) ->
  snd (routeAnalysis (snd (routeAnalysis reports patterns)) patterns)
  = snd (routeAnalysis reports patterns).
Proof.
  intros Htotal. rewrite !EngineFacts.routeAnalysis_eq. simpl snd.
  rewrite map_map. apply map_ext. intros r.
  change (Arr.sort compareByLocation
            (Report.items
               (Report.with_items r
                  (Arr.sort compareByLocation (Report.items r)))))
    with (Spec.sortedItems (Report.with_items r (Spec.sortedItems r))).
  rewrite (sortedItems_settled r Htotal).
  destruct r; reflexivity.
Qed.

End WithHost.

Lemma code_units_consistent (a b : string) :
  String.compare a b = Gt -> String.compare b a <> Gt.
Proof.
  intros H. rewrite String.compare_antisym, H. discriminate.
Qed.

(** The scenario after two runs: Ikeja, Lekki, Yaba and Ikeja, Lekki,
    as after one. *)
Lemma reports_settle_after_one_run_witness :
  map (fun report => map ReportItem.location (Report.items report))
      (snd (@routeAnalysis IsoHost.host
              (snd (@routeAnalysis IsoHost.host Scenario.reports [])) []))
  = [["Ikeja"; "Lekki"; "Yaba"]; ["Ikeja"; "Lekki"]].
Proof.
  rewrite (@reports_settle_after_one_run IsoHost.host Scenario.reports []
             code_units_consistent).
  reflexivity.
Defined.

End SortedOnce.

(* ================================================================== *)
(** ** The lifecycle of a report *)
(* ================================================================== *)

Module LifecycleFacts.
Import Manager.
Import Reading.

(** Running the operations of the hook: the monad is unfolded, and the
    answers of the collaborators are met one after the other. *)
Ltac run :=
  unfold createReport, updateReport, deleteReport, fetchReports,
    try_catch, try_finally, bind, ret, getUser, persist, toast,
    console_error, emit, setLoading, setReports;
  cbn beta iota zeta delta [World.trace World.reports World.loading fst snd].

Ltac answer :=
  match goal with
  | |- context [match auth_getUser ?b ?tr with _ => _ end] =>
      destruct (auth_getUser b tr) as [[?user |] | ?e] eqn:?
  | |- context [match insert_report ?b ?tr ?u ?c with _ => _ end] =>
      destruct (insert_report b tr u c) as [?id | ?e] eqn:?
  | |- context [match insert_items ?b ?tr ?r with _ => _ end] =>
      destruct (insert_items b tr r) as [[] | ?e] eqn:?
  | |- context [match update_report ?b ?tr ?i ?u ?c with _ => _ end] =>
      destruct (update_report b tr i u c) as [[] | ?e] eqn:?
  | |- context [match delete_items ?b ?tr ?i with _ => _ end] =>
      destruct (delete_items b tr i) as [[] | ?e] eqn:?
  | |- context [match delete_report ?b ?tr ?i ?u with _ => _ end] =>
      destruct (delete_report b tr i u) as [[] | ?e] eqn:?
  | |- context [match select_reports ?b ?tr with _ => _ end] =>
      destruct (select_reports b tr) as [?rows | ?e] eqn:?
  | |- context [if (0 <? ?n)%nat then _ else _] =>
      destruct (0 <? n)%nat eqn:?
  end;
  cbn beta iota zeta delta [World.trace World.reports World.loading fst snd].

Ltac settled :=
  eexists; eexists; split; [reflexivity |];
  cbn beta iota zeta delta [World.trace World.reports World.loading fst snd];
  try (eexists; eexists); eexists; reflexivity.

(** X11.  The three mutations never throw, whatever the collaborators
    answer or throw: each returns its result, the success value
    exactly when the last thing it did was to show its toast of
    success, and a failure value after a destructive toast. *)
Theorem mutations_never_throw (backend : Backend) (w : World.t)
  (reportId : string) (reportData : Draft.t) :
  (exists r w',
      createReport backend reportData w = (Returns r, w') /\
      match r with
      | Some _ =>
          endsWith (World.trace w')
            (Toast "Report Created Successfully"
                   "Your field report has been saved to the database." false)
      | None =>
          exists title description,
            endsWith (World.trace w') (Toast title description true)
      end) /\
  (exists r w',
      updateReport backend reportId reportData w = (Returns r, w') /\
      if r : bool
      then endsWith (World.trace w')
             (Toast "Report Updated Successfully"
                    "Your field report has been updated." false)
      else exists title description,
             endsWith (World.trace w') (Toast title description true)) /\
  (exists r w',
      deleteReport backend reportId w = (Returns r, w') /\
      if r : bool
      then endsWith (World.trace w')
             (Toast "Report Deleted"
                    "The report has been successfully deleted." false)
      else exists title description,
             endsWith (World.trace w') (Toast title description true)).
Proof.
  split; [| split]; run; repeat answer; settled.
Qed.


Lemma length_pos_nonempty {A : Type} (l : list A) :
  (0 <? List.length l)%nat = true <-> l <> [].
Proof.
  destruct l; simpl; split; intros H; try congruence; try reflexivity.
  discriminate.
Qed.

Ltac step := cbn beta iota zeta delta [fst snd World.trace].

Lemma create_succeeds_iff (backend : Backend) (w : World.t)
  (reportData : Draft.t) (id : string) :
  fst (createReport backend reportData w) = Returns (Some id) <->
  exists user,
    auth_getUser backend (World.trace w) = Returns (Some user) /\
    insert_report backend (World.trace w ++ [AuthGetUser]) (user_id user)
                  (columnsOf reportData) = Data id /\
    (Draft.items reportData = [] \/
     insert_items backend
       ((World.trace w ++ [AuthGetUser])
          ++ [Persist (InsertReport (user_id user) (columnsOf reportData))])
       (itemRowsOf id (Draft.items reportData)) = Data tt).
Proof.
  run.
  destruct (auth_getUser backend (World.trace w)) as [[user |] | e] eqn:Eauth;
    step.
  - destruct (insert_report backend (World.trace w ++ [AuthGetUser])
                (user_id user) (columnsOf reportData)) as [id' | e] eqn:Eins;
      step.
    + destruct (0 <? List.length (Draft.items reportData))%nat eqn:Elen; step.
      * destruct (insert_items backend _
                    (itemRowsOf id' (Draft.items reportData)))
          as [[] | e] eqn:Eitems; step.
        -- destruct (select_reports backend _) as [rows | e]; step;
             (split;
              [intros H; inversion H; subst id'; exists user; auto
              | intros (u & Hu & Hi & _); inversion Hu; subst u;
                rewrite Eins in Hi; inversion Hi; reflexivity]).
        -- split; [discriminate |].
           intros (u & Hu & Hi & Hit). inversion Hu. subst u.
           rewrite Eins in Hi. inversion Hi. subst id'.
           destruct Hit as [Hnil | Hit].
           ++ apply length_pos_nonempty in Elen. contradiction.
           ++ rewrite Eitems in Hit. discriminate.
      * assert (Hnil : Draft.items reportData = []).
        { destruct (Draft.items reportData); [reflexivity | discriminate]. }
        destruct (select_reports backend _) as [rows | e]; step;
          (split;
           [intros H; inversion H; subst id'; exists user; auto
           | intros (u & Hu & Hi & _); inversion Hu; subst u;
             rewrite Eins in Hi; inversion Hi; reflexivity]).
    + split; [discriminate |].
      intros (u & Hu & Hi & _). inversion Hu. subst u.
      rewrite Eins in Hi. discriminate.
  - split; [discriminate |]. intros (u & Hu & _). discriminate.
  - split; [discriminate |]. intros (u & Hu & _). discriminate.
Qed.

Lemma update_succeeds_iff (backend : Backend) (w : World.t)
  (reportId : string) (reportData : Draft.t) :
  fst (updateReport backend reportId reportData w) = Returns true <->
  exists user,
    auth_getUser backend (World.trace w) = Returns (Some user) /\
    update_report backend (World.trace w ++ [AuthGetUser]) reportId
                  (user_id user) (columnsOf reportData) = Data tt /\
    delete_items backend
      ((World.trace w ++ [AuthGetUser])
         ++ [Persist (UpdateReport reportId (user_id user)
                                   (columnsOf reportData))])
      reportId = Data tt /\
    (Draft.items reportData = [] \/
     insert_items backend
       (((World.trace w ++ [AuthGetUser])
           ++ [Persist (UpdateReport reportId (user_id user)
                                     (columnsOf reportData))])
          ++ [Persist (DeleteItems reportId)])
       (itemRowsOf reportId (Draft.items reportData)) = Data tt).
Proof.
  run.
  destruct (auth_getUser backend (World.trace w)) as [[user |] | e] eqn:Eauth;
    step.
  - destruct (update_report backend (World.trace w ++ [AuthGetUser]) reportId
                (user_id user) (columnsOf reportData)) as [[] | e] eqn:Eupd;
      step.
    + destruct (delete_items backend _ reportId) as [[] | e] eqn:Edel; step.
      * destruct (0 <? List.length (Draft.items reportData))%nat eqn:Elen;
          step.
        -- destruct (insert_items backend _
                       (itemRowsOf reportId (Draft.items reportData)))
             as [[] | e] eqn:Eitems; step.
           ++ destruct (select_reports backend _) as [rows | e]; step;
                (split; [intros _; exists user; auto | reflexivity]).
           ++ split; [discriminate |].
              intros (u & Hu & _ & _ & Hit). inversion Hu. subst u.
              destruct Hit as [Hnil | Hit].
              ** apply length_pos_nonempty in Elen. contradiction.
              ** rewrite Eitems in Hit. discriminate.
        -- assert (Hnil : Draft.items reportData = []).
           { destruct (Draft.items reportData);
               [reflexivity | discriminate]. }
           destruct (select_reports backend _) as [rows | e]; step;
             (split; [intros _; exists user; auto | reflexivity]).
      * split; [discriminate |].
        intros (u & Hu & _ & Hd & _). inversion Hu. subst u.
        rewrite Edel in Hd. discriminate.
    + split; [discriminate |].
      intros (u & Hu & Hup & _). inversion Hu. subst u.
      rewrite Eupd in Hup. discriminate.
  - split; [discriminate |]. intros (u & Hu & _). discriminate.
  - split; [discriminate |]. intros (u & Hu & _). discriminate.
Qed.

Lemma delete_succeeds_iff (backend : Backend) (w : World.t)
  (reportId : string) :
  fst (deleteReport backend reportId w) = Returns true <->
  exists user,
    auth_getUser backend (World.trace w) = Returns (Some user) /\
    delete_report backend (World.trace w ++ [AuthGetUser]) reportId
                  (user_id user) = Data tt.
Proof.
  run.
  destruct (auth_getUser backend (World.trace w)) as [[user |] | e] eqn:Eauth;
    step.
  - destruct (delete_report backend (World.trace w ++ [AuthGetUser]) reportId
                (user_id user)) as [[] | e] eqn:Edel; step.
    + destruct (select_reports backend _) as [rows | e]; step;
        (split; [intros _; exists user; auto | reflexivity]).
    + split; [discriminate |].
      intros (u & Hu & Hd). inversion Hu. subst u.
      rewrite Edel in Hd. discriminate.
  - split; [discriminate |]. intros (u & Hu & _). discriminate.
  - split; [discriminate |]. intros (u & Hu & _). discriminate.
Qed.

(** X12.  A mutation succeeds exactly when a user is signed in and every
    write of the mutation is answered without an error: the insert of
    the report and of its items for create, the update, the delete of
    the old items and the insert of the new ones for update, the
    delete for delete; an empty list of items is not inserted.  The
    refresh that follows plays no part: a failed select does not fail
    the mutation. *)
Theorem mutations_succeed_iff (backend : Backend) (w : World.t)
  (reportId : string) (reportData : Draft.t) :
  (forall id,
      fst (createReport backend reportData w) = Returns (Some id) <->
      exists user,
        auth_getUser backend (World.trace w) = Returns (Some user) /\
        insert_report backend (World.trace w ++ [AuthGetUser])
                      (user_id user) (columnsOf reportData) = Data id /\
        (Draft.items reportData = [] \/
         insert_items backend
           ((World.trace w ++ [AuthGetUser])
              ++ [Persist (InsertReport (user_id user)
                                        (columnsOf reportData))])
           (itemRowsOf id (Draft.items reportData)) = Data tt)) /\
  (fst (updateReport backend reportId reportData w) = Returns true <->
   exists user,
     auth_getUser backend (World.trace w) = Returns (Some user) /\
     update_report backend (World.trace w ++ [AuthGetUser]) reportId
                   (user_id user) (columnsOf reportData) = Data tt /\
     delete_items backend
       ((World.trace w ++ [AuthGetUser])
          ++ [Persist (UpdateReport reportId (user_id user)
                                    (columnsOf reportData))])
       reportId = Data tt /\
     (Draft.items reportData = [] \/
      insert_items backend
        (((World.trace w ++ [AuthGetUser])
            ++ [Persist (UpdateReport reportId (user_id user)
                                      (columnsOf reportData))])
           ++ [Persist (DeleteItems reportId)])
        (itemRowsOf reportId (Draft.items reportData)) = Data tt)) /\
  (fst (deleteReport backend reportId w) = Returns true <->
   exists user,
     auth_getUser backend (World.trace w) = Returns (Some user) /\
     delete_report backend (World.trace w ++ [AuthGetUser]) reportId
                   (user_id user) = Data tt).
Proof.
  split; [| split].
  - intros id. apply create_succeeds_iff.
  - apply update_succeeds_iff.
  - apply delete_succeeds_iff.
Qed.

(** The draft of the scenario is created by the backend that answers
    every call, and also by the one whose select fails. *)
Lemma mutations_succeed_iff_witness :
  fst (createReport Cases.signedIn Scenario.draft Scenario.world)
  = Returns (Some "new-id") /\
  fst (createReport Cases.selectFails Scenario.draft Scenario.world)
  = Returns (Some "new-id").
Proof.
  split.
  - apply (proj1 (mutations_succeed_iff Cases.signedIn Scenario.world
                    "r1" Scenario.draft)).
    exists {| user_id := "u1" |}. repeat split. right. reflexivity.
  - apply (proj1 (mutations_succeed_iff Cases.selectFails Scenario.world
                    "r1" Scenario.draft)).
    exists {| user_id := "u1" |}. repeat split. right. reflexivity.
Defined.

(** X13.  Nothing is undone.  When the insert of the items fails, create
    returns [null] with the row of the report written, and update
    returns [false] with the report updated and its old items
    deleted; neither makes a further call, and the reports of the
    hook are not refreshed. *)
Theorem failed_item_insert_is_not_undone (backend : Backend) (w : World.t)
  (reportId : string) (reportData : Draft.t) (user : User) (e : JSError) :
  auth_getUser backend (World.trace w) = Returns (Some user) ->
  Draft.items reportData <> [] ->
  let columns := columnsOf reportData in
  let items := Draft.items reportData in
  let tr := World.trace w ++ [AuthGetUser] in
  (forall id,
      insert_report backend tr (user_id user) columns = Data id ->
      insert_items backend
        (tr ++ [Persist (InsertReport (user_id user) columns)])
        (itemRowsOf id items) = Error e ->
      createReport backend reportData w
      = (Returns None,
         World.mk (World.reports w) (World.loading w)
           (World.trace w
              ++ [AuthGetUser;
                  Persist (InsertReport (user_id user) columns);
                  Persist (InsertItems (itemRowsOf id items));
                  ConsoleError "Error creating report:";
                  Toast "Error" "Failed to create report. Please try again."
                        true]))) /\
  (update_report backend tr reportId (user_id user) columns = Data tt ->
   delete_items backend
     (tr ++ [Persist (UpdateReport reportId (user_id user) columns)])
     reportId = Data tt ->
   insert_items backend
     ((tr ++ [Persist (UpdateReport reportId (user_id user) columns)])
        ++ [Persist (DeleteItems reportId)])
     (itemRowsOf reportId items) = Error e ->
   updateReport backend reportId reportData w
   = (Returns false,
      World.mk (World.reports w) (World.loading w)
        (World.trace w
           ++ [AuthGetUser;
               Persist (UpdateReport reportId (user_id user) columns);
               Persist (DeleteItems reportId);
               Persist (InsertItems (itemRowsOf reportId items));
               ConsoleError "Error updating report:";
               Toast "Error" "Failed to update report. Please try again."
                     true]))).
Proof.
  intros Hauth Hitems columns items tr. subst columns items tr.
  apply length_pos_nonempty in Hitems.
  split.
  - intros id Hins Hrows. run.
    rewrite Hauth. step. rewrite Hins. step.
    rewrite Hitems. step. rewrite Hrows. step.
    repeat rewrite <- app_assoc. reflexivity.
  - intros Hupd Hdel Hrows. run.
    rewrite Hauth. step. rewrite Hupd. step.
    rewrite Hdel. step.
    rewrite Hitems. step. rewrite Hrows. step.
    repeat rewrite <- app_assoc. reflexivity.
Qed.

Lemma failed_item_insert_is_not_undone_witness :
  createReport Cases.itemsFail Scenario.draft Scenario.world
  = (Returns None,
     World.mk Scenario.reports false
       [AuthGetUser;
        Persist (InsertReport "u1" (columnsOf Scenario.draft));
        Persist (InsertItems
                   (itemRowsOf "new-id" (Draft.items Scenario.draft)));
        ConsoleError "Error creating report:";
        Toast "Error" "Failed to create report. Please try again." true]).
Proof.
  destruct (failed_item_insert_is_not_undone Cases.itemsFail Scenario.world
              "r1" Scenario.draft {| user_id := "u1" |}
              (ServiceError "insert failed") eq_refl
              ltac:(discriminate)) as [Hcreate _].
  exact (Hcreate "new-id" eq_refl eq_refl).
Defined.

(** X14.  A refresh never throws and always ends with [loading] off.  The
    reports become the transformed rows of the select, none for
    [null]; when the select fails they are left as they were, and the
    failure is logged and shown. *)
Theorem refresh_outcome (backend : Backend) (w : World.t) :
  exists w',
    fetchReports backend w = (Returns tt, w') /\
    World.loading w' = false /\
    match select_reports backend (World.trace w) with
    | Data rows =>
        World.reports w'
        = map transform (match rows with Some l => l | None => [] end) /\
        World.trace w' = World.trace w ++ [Persist SelectReports]
    | Error _ =>
        World.reports w' = World.reports w /\
        World.trace w'
        = World.trace w
            ++ [Persist SelectReports;
                ConsoleError "Error fetching reports:";
                Toast "Error" "Failed to fetch reports. Please try again."
                      true]
    end.
Proof.
  run.
  destruct (select_reports backend (World.trace w)) as [rows | e]; step;
    eexists; (split; [reflexivity |]);
    cbn beta iota zeta delta [World.trace World.reports World.loading];
    repeat split; repeat rewrite <- app_assoc; reflexivity.
Qed.

Ltac followed :=
  intros r w' H; inversion H; subst; clear H;
  eexists; split;
  [cbn beta iota zeta delta [World.trace];
   repeat rewrite <- app_assoc; reflexivity
  | cbn; repeat split; auto; intuition discriminate].

(** X15.  The state of the hook follows the result of a mutation.  A
    mutation only extends the trace.  When it fails, the reports and
    the loading flag are as before and no select was made; when it
    succeeds, the reports were refreshed by a select and [loading] is
    off. *)
Theorem mutation_state_follows_result (backend : Backend) (w : World.t)
  (reportId : string) (reportData : Draft.t) :
  (forall r w',
      createReport backend reportData w = (Returns r, w') ->
      exists more,
        World.trace w' = World.trace w ++ more /\
        match r with
        | Some _ =>
            World.loading w' = false /\
            In SelectReports (persistenceCalls more)
        | None =>
            World.reports w' = World.reports w /\
            World.loading w' = World.loading w /\
            ~ In SelectReports (persistenceCalls more)
        end) /\
  (forall r w',
      updateReport backend reportId reportData w = (Returns r, w') ->
      exists more,
        World.trace w' = World.trace w ++ more /\
        if r : bool
        then World.loading w' = false /\
             In SelectReports (persistenceCalls more)
        else World.reports w' = World.reports w /\
             World.loading w' = World.loading w /\
             ~ In SelectReports (persistenceCalls more)) /\
  (forall r w',
      deleteReport backend reportId w = (Returns r, w') ->
      exists more,
        World.trace w' = World.trace w ++ more /\
        if r : bool
        then World.loading w' = false /\
             In SelectReports (persistenceCalls more)
        else World.reports w' = World.reports w /\
             World.loading w' = World.loading w /\
             ~ In SelectReports (persistenceCalls more)).
Proof.
  split; [| split]; run; repeat answer; followed.
Qed.

(** The draft of the scenario: created, and refused by the backend
    whose insert of the items fails. *)
Lemma mutation_state_follows_result_witness :
  (exists more,
      World.trace (snd (createReport Cases.signedIn Scenario.draft
                                     Scenario.world))
      = World.trace Scenario.world ++ more /\
      In SelectReports (persistenceCalls more)) /\
  World.reports (snd (createReport Cases.itemsFail Scenario.draft
                                   Scenario.world))
  = Scenario.reports.
Proof.
  split.
  - destruct (proj1 (mutation_state_follows_result Cases.signedIn
                       Scenario.world "r1" Scenario.draft)
                (Some "new-id")
                (snd (createReport Cases.signedIn Scenario.draft
                                   Scenario.world)) eq_refl)
      as (more & Htrace & _ & Hselect).
    exists more. split; assumption.
  - destruct (proj1 (mutation_state_follows_result Cases.itemsFail
                       Scenario.world "r1" Scenario.draft)
                None
                (snd (createReport Cases.itemsFail Scenario.draft
                                   Scenario.world)) eq_refl)
      as (more & _ & Hreports & _).
    exact Hreports.
Defined.

End LifecycleFacts.

(* ================================================================== *)
(** ** The page and its form *)
(* ================================================================== *)

Module PageFacts.
Import Manager.
Import Reading.
Import LifecycleFacts.

Ltac traced :=
  eexists; split;
  [cbn beta iota zeta delta [World.trace snd];
   repeat rewrite <- app_assoc; reflexivity
  | cbn; repeat constructor; try assumption; try reflexivity].

Lemma create_writes (backend : Backend) (reportData : Draft.t)
  (w : World.t) :
  exists more,
    World.trace (snd (createReport backend reportData w))
    = World.trace w ++ more /\
    Forall (writesOf reportData) (persistenceCalls more).
Proof.
  run; repeat answer; traced;
    try (apply length_pos_nonempty; assumption);
    eexists; reflexivity.
Qed.

Lemma update_writes (backend : Backend) (reportId : string)
  (reportData : Draft.t) (w : World.t) :
  exists more,
    World.trace (snd (updateReport backend reportId reportData w))
    = World.trace w ++ more /\
    Forall (writesOf reportData) (persistenceCalls more).
Proof.
  run; repeat answer; traced;
    try (apply length_pos_nonempty; assumption);
    eexists; reflexivity.
Qed.

Section WithBackend.
Variable backend : Backend.
Variable toBlob : Report.t -> completion unit.

Lemma handleReportSubmit_world (now : string) (reportData : Draft.t)
  (p : Page.t) :
  Page.world (snd (Page.handleReportSubmit backend toBlob now reportData p))
  = match Page.editingReport p with
    | Some editing =>
        snd (updateReport backend (Report.id editing) reportData
                          (Page.world p))
    | None => snd (createReport backend reportData (Page.world p))
    end.
Proof.
  unfold Page.handleReportSubmit, Page.generatePDF.
  destruct (Page.editingReport p) as [editing |].
  - destruct (updateReport backend (Report.id editing) reportData
                           (Page.world p)) as [[[|] | e] w]; reflexivity.
  - destruct (createReport backend reportData (Page.world p))
      as [[[id |] | e] w]; try reflexivity.
    destruct (String.eqb id ""); [reflexivity |].
    destruct (toBlob _); reflexivity.
Qed.

Lemma handleReportSubmit_writes (now : string) (reportData : Draft.t)
  (p : Page.t) :
  exists more,
    World.trace
      (Page.world
         (snd (Page.handleReportSubmit backend toBlob now reportData p)))
    = World.trace (Page.world p) ++ more /\
    Forall (writesOf reportData) (persistenceCalls more).
Proof.
  rewrite handleReportSubmit_world.
  destruct (Page.editingReport p) as [editing |].
  - apply update_writes.
  - apply create_writes.
Qed.

(** X16.  A file is downloaded only for a report that was created.  After
    [handleReportSubmit] the downloads are those before, or one more;
    and then the page was not editing, a user was signed in, the
    insert of the report was answered with the identifier, the file
    renders the draft under that identifier and bears the name of its
    type and date, and the page shows the history. *)
Theorem download_follows_creation (now : string) (reportData : Draft.t)
  (p : Page.t) :
  let after :=
    snd (Page.handleReportSubmit backend toBlob now reportData p) in
  Page.downloads after = Page.downloads p \/
  exists id user,
    Page.editingReport p = None /\
    auth_getUser backend (World.trace (Page.world p))
    = Returns (Some user) /\
    insert_report backend (World.trace (Page.world p) ++ [AuthGetUser])
                  (user_id user) (columnsOf reportData) = Data id /\
    Page.downloads after
    = Page.downloads p
        ++ [(String.append (Page.reportTypeText (Draft.reportType reportData))
               (String.append "-report-"
                  (String.append (Draft.reportDate reportData) ".pdf")),
             Report.mk id (Draft.reportType reportData)
                       (Draft.reportDate reportData)
                       (Draft.description reportData)
                       (Draft.items reportData)
                       (Draft.totalCost reportData)
                       (Draft.accountNumber reportData)
                       (Draft.accountName reportData)
                       (Draft.bankName reportData) now)] /\
    Page.activeTab after = "history".
Proof.
  unfold Page.handleReportSubmit, Page.generatePDF.
  destruct (Page.editingReport p) as [editing |] eqn:Eedit.
  - left.
    destruct (updateReport backend (Report.id editing) reportData
                           (Page.world p)) as [[[|] | e] w]; reflexivity.
  - destruct (createReport backend reportData (Page.world p))
      as [[[id |] | e] w] eqn:Ecreate; try (left; reflexivity).
    destruct (String.eqb id ""); [left; reflexivity |].
    destruct (toBlob _); [| left; reflexivity].
    right.
    assert (Hid : fst (createReport backend reportData (Page.world p))
                  = Returns (Some id)) by (rewrite Ecreate; reflexivity).
    apply create_succeeds_iff in Hid.
    destruct Hid as (user & Hauth & Hins & _).
    exists id, user. repeat split; assumption.
Qed.

Section WithText.
Context {text : Text}.

Lemma valid_rows (id : string) (items : list ReportItem.t)
  (row : ItemColumns) :
  In row (itemRowsOf id (filter ReportForm.isValidItem items)) ->
  Num.gt (col_cost row) Num.zero = true /\
  ReportForm.filled (col_location row) = true /\
  ReportForm.filled (col_transportation row) = true.
Proof.
  unfold itemRowsOf. rewrite in_map_iff.
  intros (item & <- & Hin). apply filter_In in Hin.
  destruct Hin as [_ Hvalid]. unfold ReportForm.isValidItem in Hvalid.
  apply andb_true_iff in Hvalid. destruct Hvalid as [Hvalid Hcost].
  apply andb_true_iff in Hvalid. destruct Hvalid as [Hloc Htr].
  simpl. auto.
Qed.

(** X17.  What a submission of the form writes.  Every item row that it
    inserts comes from an item with a location, a transportation and
    a cost above zero, and an insert of items has a row; the total
    cost written with the report is the total of all the items of the
    form, those that are not inserted included. *)
Theorem submission_writes_valid_rows (now fresh : string) (p : Page.t) :
  let after := snd (Page.submit backend toBlob now fresh p) in
  exists more,
    World.trace (Page.world after)
    = World.trace (Page.world p) ++ more /\
    forall call, In call (persistenceCalls more) ->
      match call with
      | InsertItems rows =>
          rows <> [] /\
          forall row, In row rows ->
            Num.gt (col_cost row) Num.zero = true /\
            ReportForm.filled (col_location row) = true /\
            ReportForm.filled (col_transportation row) = true
      | InsertReport _ columns
      | UpdateReport _ _ columns =>
          col_total_cost columns
          = ReportForm.totalCost (ReportForm.items (Page.form p))
      | _ => True
      end.
Proof.
  unfold Page.submit.
  destruct (ReportForm.handleSubmit (Page.editingReport p) fresh
                                    (Page.form p))
    as [[title description | reportData] form'] eqn:Esubmit.
  - exists [Toast title description true]. split; [reflexivity |].
    intros call [].
  - assert (Hdata :
              Draft.items reportData
              = filter ReportForm.isValidItem
                       (ReportForm.items (Page.form p)) /\
              Draft.totalCost reportData
              = ReportForm.totalCost (ReportForm.items (Page.form p))).
    { unfold ReportForm.handleSubmit in Esubmit.
      destruct (ReportForm.reportType (Page.form p)); [| discriminate].
      destruct (_ || _); [discriminate |].
      destruct (_ =? 0)%nat; [discriminate |].
      inversion Esubmit. split; reflexivity. }
    destruct Hdata as [Hitems Htotal].
    destruct (handleReportSubmit_writes now reportData
                (Page.mk (Page.world p) form' (Page.activeTab p)
                         (Page.viewingReport p) (Page.editingReport p)
                         (Page.downloads p)))
      as (more & Htrace & Hwrites).
    exists more. split; [exact Htrace |].
    intros call Hcall. rewrite Forall_forall in Hwrites.
    specialize (Hwrites call Hcall).
    destruct call as [| uid columns | rows | rid uid columns | |];
      simpl in Hwrites; try exact I.
    + rewrite Hwrites. simpl. exact Htotal.
    + destruct Hwrites as [Hne (id & ->)]. split.
      * intros Hnil. apply Hne. unfold itemRowsOf in Hnil.
        apply map_eq_nil in Hnil. exact Hnil.
      * intros row Hrow. rewrite Hitems in Hrow.
        apply (valid_rows id _ row Hrow).
    + rewrite Hwrites. simpl. exact Htotal.
Qed.

(** X18.  A form that lacks a required field, or has no valid item, reaches
    no collaborator: its submission shows one destructive toast and
    leaves the form, the reports, the tab and the downloads as they
    are, without asking for the user and without a persistence
    call. *)
Theorem refused_form_calls_nothing (now fresh : string) (p : Page.t) :
  ReportForm.reportType (Page.form p) = None \/
  ReportForm.reportDate (Page.form p) = "" \/
  ReportForm.filled (ReportForm.accountNumber (Page.form p)) = false \/
  ReportForm.filled (ReportForm.accountName (Page.form p)) = false \/
  ReportForm.filled (ReportForm.bankName (Page.form p)) = false \/
  Forall (fun item => ReportForm.isValidItem item = false)
         (ReportForm.items (Page.form p)) ->
  exists title description,
    Page.submit backend toBlob now fresh p
    = (Returns tt,
       Page.mk
         (World.mk (World.reports (Page.world p))
                   (World.loading (Page.world p))
                   (World.trace (Page.world p)
                      ++ [Toast title description true]))
         (Page.form p) (Page.activeTab p) (Page.viewingReport p)
         (Page.editingReport p) (Page.downloads p)).
Proof.
  intros Hform. unfold Page.submit, ReportForm.handleSubmit.
  destruct (ReportForm.reportType (Page.form p)) as [type |] eqn:Etype.
  - destruct (String.eqb (ReportForm.reportDate (Page.form p)) ""
              || negb (ReportForm.filled
                         (ReportForm.accountNumber (Page.form p)))
              || negb (ReportForm.filled
                         (ReportForm.accountName (Page.form p)))
              || negb (ReportForm.filled
                         (ReportForm.bankName (Page.form p)))) eqn:Emiss.
    + eexists. eexists. reflexivity.
    + apply orb_false_iff in Emiss. destruct Emiss as [Emiss Hbank].
      apply orb_false_iff in Emiss. destruct Emiss as [Emiss Hname].
      apply orb_false_iff in Emiss. destruct Emiss as [Hdate Hnumber].
      apply negb_false_iff in Hbank, Hname, Hnumber.
      destruct Hform as [H | [H | [H | [H | [H | H]]]]]; try congruence.
      * rewrite H, String.eqb_refl in Hdate. discriminate.
      * assert (Hnone : filter ReportForm.isValidItem
                               (ReportForm.items (Page.form p)) = []).
        { induction H as [| item items Hitem _ IH]; simpl;
            [reflexivity |]. rewrite Hitem. exact IH. }
        rewrite Hnone. simpl. eexists. eexists. reflexivity.
  - eexists. eexists. reflexivity.
Qed.

End WithText.
End WithBackend.

(** The form of the scenario whose only item is blank. *)
Lemma refused_form_calls_nothing_witness :
  @Page.submit Cases.signedIn (fun _ => Returns tt) PlainText.text
    "2024-06-01T09:00:00Z" "f9" (Cases.page Cases.emptyForm)
  = (Returns tt,
     Page.mk
       (World.mk Scenario.reports false
          [Toast "No Valid Items"
                 "Please add at least one complete journey record" true])
       Cases.emptyForm "create" None None []).
Proof.
  destruct (@refused_form_calls_nothing Cases.signedIn (fun _ => Returns tt)
              PlainText.text "2024-06-01T09:00:00Z" "f9"
              (Cases.page Cases.emptyForm))
    as (title & description & H).
  - right. right. right. right. right. repeat constructor.
  - reflexivity.
Defined.

(** The form of the scenario with two journeys: the one with a
    location is inserted, and the total written is that of both. *)
Lemma submission_writes_valid_rows_witness :
  persistenceCalls
    (World.trace
       (Page.world
          (snd (@Page.submit Cases.signedIn (fun _ => Returns tt)
                  PlainText.text "2024-06-01T09:00:00Z" "f9"
                  (Cases.page Cases.filledForm)))))
  = [InsertReport "u1"
       {| col_report_type := verification;
          col_report_date := "2024-03-10";
          col_description := "";
          col_total_cost := Num.of_Z 800;
          col_account_number := "0123456789";
          col_account_name := "A. Officer";
          col_bank_name := "First Bank" |};
     InsertItems
       [{| col_report_id := "new-id"; col_location := "Yaba";
           col_transportation := "Bus"; col_cost := Num.of_Z 500 |}];
     SelectReports] /\
  exists more,
    World.trace
      (Page.world
         (snd (@Page.submit Cases.signedIn (fun _ => Returns tt)
                 PlainText.text "2024-06-01T09:00:00Z" "f9"
                 (Cases.page Cases.filledForm))))
    = World.trace (Page.world (Cases.page Cases.filledForm)) ++ more.
Proof.
  split; [reflexivity |].
  destruct (@submission_writes_valid_rows Cases.signedIn
              (fun _ => Returns tt) PlainText.text
              "2024-06-01T09:00:00Z" "f9" (Cases.page Cases.filledForm))
    as (more & Htrace & _).
  exists more. exact Htrace.
Defined.

(** The draft of the scenario, created and rendered. *)
Lemma download_follows_creation_witness :
  map fst
      (Page.downloads
         (snd (Page.handleReportSubmit Cases.signedIn (fun _ => Returns tt)
                 "2024-06-01T09:00:00Z" Scenario.draft
                 (Cases.page Cases.emptyForm))))
  = ["verification-report-2024-03-10.pdf"] /\
  (Page.downloads
     (snd (Page.handleReportSubmit Cases.itemsFail (fun _ => Returns tt)
             "2024-06-01T09:00:00Z" Scenario.draft
             (Cases.page Cases.emptyForm)))
   = [] \/
   exists id user,
     auth_getUser Cases.itemsFail [] = Returns (Some user) /\
     insert_report Cases.itemsFail [AuthGetUser] (user_id user)
                   (columnsOf Scenario.draft) = Data id).
Proof.
  split; [reflexivity |].
  destruct (download_follows_creation Cases.itemsFail (fun _ => Returns tt)
              "2024-06-01T09:00:00Z" Scenario.draft
              (Cases.page Cases.emptyForm))
    as [H | (id & user & _ & Hauth & Hins & _)].
  - left. exact H.
  - right. exists id, user. split; assumption.
Defined.

End PageFacts.

(* ================================================================== *)
(** ** The route optimizer *)
(* ================================================================== *)

Module OptimizerFacts.
Import RouteOptimizer.

Lemma includes_In (l : list string) (x : string) :
  includes l x = true <-> In x l.
Proof.
  unfold includes. rewrite existsb_exists. split.
  - intros (y & Hy & E). apply String.eqb_eq in E. subst. exact Hy.
  - intros H. exists x. split; [exact H | apply String.eqb_refl].
Qed.

Lemma includes_app (l1 l2 : list string) (x : string) :
  includes (l1 ++ l2) x = includes l1 x || includes l2 x.
Proof. apply existsb_app. Qed.

Lemma includes_without (l : list string) (x location : string) :
  includes (filter (fun l' => negb (String.eqb l' location)) l) x
  = negb (String.eqb x location) && includes l x.
Proof.
  unfold includes. induction l as [| a l IH]; simpl.
  - apply eq_sym, andb_false_r.
  - destruct (String.eqb a location) eqn:Ea; simpl; rewrite IH.
    + apply String.eqb_eq in Ea. subst a.
      destruct (String.eqb x location); reflexivity.
    + destruct (String.eqb x a) eqn:Ex; simpl.
      * apply String.eqb_eq in Ex. subst a. rewrite Ea. reflexivity.
      * reflexivity.
Qed.

(** X19.  A toggle flips the selection of its location and of no other, and
    does not repeat a location. *)
Theorem toggle_flips_one_location (location : string)
  (prev : list string) :
  (forall x,
      includes (handleLocationToggle location prev) x
      = if String.eqb x location then negb (includes prev location)
        else includes prev x) /\
  (NoDup prev -> NoDup (handleLocationToggle location prev)).
Proof.
  unfold handleLocationToggle. split.
  - intros x. destruct (includes prev location) eqn:E.
    + rewrite includes_without.
      destruct (String.eqb x location); reflexivity.
    + rewrite includes_app. unfold includes at 2. simpl.
      rewrite orb_false_r.
      destruct (String.eqb x location) eqn:Ex.
      * apply String.eqb_eq in Ex. subst x. rewrite E. reflexivity.
      * apply orb_false_r.
  - intros Hnd. destruct (includes prev location) eqn:E.
    + apply NoDup_filter, Hnd.
    + apply NoDup_app; [exact Hnd | repeat constructor; simpl; tauto |].
      intros a Ha [<- | []].
      apply includes_In in Ha. congruence.
Qed.

Lemma toggle_flips_one_location_witness :
  handleLocationToggle "Ikeja" ["Yaba"; "Ikeja"] = ["Yaba"] /\
  handleLocationToggle "Lekki" ["Yaba"; "Ikeja"] = ["Yaba"; "Ikeja"; "Lekki"] /\
  NoDup (handleLocationToggle "Lekki" ["Yaba"; "Ikeja"]).
Proof.
  split; [reflexivity |]. split; [reflexivity |].
  apply (proj2 (toggle_flips_one_location "Lekki" ["Yaba"; "Ikeja"])).
  repeat constructor; simpl; intuition discriminate.
Defined.

Section WithHost.
Context {host : Host}.

Lemma route_perm (selectedLocations : list string)
  (optimizationType : OptimizationType)
  (patterns : list TransportPattern.t) (r : OptimizedRoute.t) :
  optimizedRoute selectedLocations optimizationType patterns = Some r ->
  Permutation (OptimizedRoute.route r)
              (map TransportPattern.location
                   (selectedPatternsOf selectedLocations patterns)) /\
  selectedPatternsOf selectedLocations patterns <> [] /\
  OptimizedRoute.estimatedTime r
  = Engine.hoursOf (List.length (OptimizedRoute.route r)) /\
  OptimizedRoute.route r
  = map TransportPattern.location
        (Arr.sort (comparatorOf optimizationType)
                  (selectedPatternsOf selectedLocations patterns)).
Proof.
  unfold optimizedRoute.
  destruct (List.length selectedLocations =? 0)%nat; [discriminate |].
  destruct (List.length (selectedPatternsOf selectedLocations patterns)
            =? 0)%nat eqn:E; [discriminate |].
  intros H. inversion H; subst r; clear H.
  cbn [OptimizedRoute.route OptimizedRoute.estimatedTime].
  split; [apply Permutation_map, ArrFacts.sort_perm |].
  split; [| split; reflexivity].
  intros Hnil. rewrite Hnil in E. discriminate.
Qed.

(** X20.  The optimized route over the patterns of the items: there is none
    exactly when no selected location has an item; otherwise its stops
    are the selected locations that have an item, each once, and the
    estimated time is two hours for each stop. *)
Theorem optimized_route_visits_selection (items : list TransportItem.t)
  (selectedLocations : list string) (optimizationType : OptimizationType) :
  match optimizedRoute selectedLocations optimizationType
                       (Engine.transportPatterns items) with
  | None =>
      forall item, In item items ->
                   ~ In (TransportItem.location item) selectedLocations
  | Some r =>
      OptimizedRoute.route r <> [] /\
      NoDup (OptimizedRoute.route r) /\
      (forall stop,
          In stop (OptimizedRoute.route r)
          <-> In stop selectedLocations /\
              exists item, In item items /\
                           TransportItem.location item = stop) /\
      OptimizedRoute.estimatedTime r
      = Engine.hoursOf (List.length (OptimizedRoute.route r))
  end.
Proof.
  set (patterns := Engine.transportPatterns items).
  assert (Hsel : forall stop,
             In stop (map TransportPattern.location
                          (selectedPatternsOf selectedLocations patterns))
             <-> In stop selectedLocations /\
                 exists item, In item items /\
                              TransportItem.location item = stop).
  { intros stop. unfold selectedPatternsOf.
    rewrite <- (PatternsByLocation.location_has_pattern items stop).
    fold patterns. rewrite !in_map_iff. split.
    - intros (p & Hp & Hin). apply filter_In in Hin.
      destruct Hin as [Hin Hinc]. apply includes_In in Hinc.
      rewrite Hp in Hinc. split; [exact Hinc |]. exists p. auto.
    - intros (Hinc & p & Hp & Hin). exists p. split; [exact Hp |].
      apply filter_In. split; [exact Hin |].
      apply includes_In. rewrite Hp. exact Hinc. }
  destruct (optimizedRoute selectedLocations optimizationType patterns)
    as [r |] eqn:E.
  - destruct (route_perm _ _ _ _ E) as (Hperm & Hne & Htime & _).
    split.
    { intros Hnil. rewrite Hnil in Hperm.
      apply Permutation_nil in Hperm. apply map_eq_nil in Hperm.
      contradiction. }
    split.
    { eapply Permutation_NoDup; [apply Permutation_sym, Hperm |].
      unfold selectedPatternsOf.
      assert (Hnd := PatternsByLocation.locations_NoDup items).
      fold patterns in Hnd. clear - Hnd.
      induction patterns as [| p ps IH]; simpl; [constructor |].
      inversion Hnd as [| ? ? Hout Hrest]; subst.
      destruct (includes selectedLocations (TransportPattern.location p));
        simpl; [| apply IH, Hrest].
      constructor; [| apply IH, Hrest].
      intros Hin. apply Hout. apply in_map_iff in Hin.
      destruct Hin as (q & Hq & Hin). apply filter_In in Hin.
      apply in_map_iff. exists q. tauto. }
    split; [| exact Htime].
    intros stop. rewrite <- Hsel. split.
    + apply Permutation_in, Hperm.
    + apply Permutation_in, Permutation_sym, Hperm.
  - intros item Hin Hsel'.
    assert (Hstop : In (TransportItem.location item)
                       (map TransportPattern.location
                            (selectedPatternsOf selectedLocations patterns))).
    { apply Hsel. split; [exact Hsel' |]. exists item. auto. }
    unfold optimizedRoute in E.
    destruct (List.length selectedLocations =? 0)%nat eqn:E0.
    + apply Nat.eqb_eq, length_zero_iff_nil in E0. rewrite E0 in Hsel'.
      contradiction.
    + destruct (List.length (selectedPatternsOf selectedLocations patterns)
                =? 0)%nat eqn:E1; [| discriminate].
      apply Nat.eqb_eq, length_zero_iff_nil in E1. rewrite E1 in Hstop.
      contradiction.
Qed.

(** X21.  By time the route keeps the order of the patterns: they come by
    descending visit count already, and the sort leaves the selected
    ones where they are. *)
Theorem time_route_keeps_pattern_order (items : list TransportItem.t)
  (selectedLocations : list string) (r : OptimizedRoute.t) :
  optimizedRoute selectedLocations time (Engine.transportPatterns items)
  = Some r ->
  OptimizedRoute.route r
  = map TransportPattern.location
        (selectedPatternsOf selectedLocations
                            (Engine.transportPatterns items)).
Proof.
  intros E. destruct (route_perm _ _ _ _ E) as (_ & _ & _ & ->).
  f_equal. apply ArrFacts.sort_fixed.
  apply StronglySorted_Sorted.
  eapply GroupFacts.StronglySorted_impl;
    [intros x y; apply PatternsByLocation.compareByVisitCount_le |].
  apply GroupFacts.StronglySorted_filter.
  apply PatternsByLocation.patterns_sorted.
Qed.

End WithHost.

(** The scenario, with Yaba and a place without items selected. *)
Lemma optimized_route_visits_selection_witness :
  exists r,
    optimizedRoute ["Yaba"; "Abuja"] cost
      (@Engine.transportPatterns IsoHost.host
         (Engine.allTransportItems Scenario.reports))
    = Some r /\
    OptimizedRoute.route r = ["Yaba"] /\
    NoDup (OptimizedRoute.route r).
Proof.
  eexists. split; [reflexivity |]. split; [reflexivity |].
  match goal with
  | |- NoDup (OptimizedRoute.route ?r) =>
      pose proof (@optimized_route_visits_selection IsoHost.host
                    (Engine.allTransportItems Scenario.reports)
                    ["Yaba"; "Abuja"] cost) as H;
      change (optimizedRoute ["Yaba"; "Abuja"] cost
                (@Engine.transportPatterns IsoHost.host
                   (Engine.allTransportItems Scenario.reports)))
        with (Some r) in H
  end.
  destruct H as (_ & Hnd & _). exact Hnd.
Defined.

(** The scenario, with Yaba and Lekki selected: Lekki, visited twice,
    comes before Yaba. *)
Lemma time_route_keeps_pattern_order_witness :
  exists r,
    optimizedRoute ["Yaba"; "Lekki"] time
      (@Engine.transportPatterns IsoHost.host
         (Engine.allTransportItems Scenario.reports))
    = Some r /\
    OptimizedRoute.route r = ["Lekki"; "Yaba"].
Proof.
  eexists. split; [reflexivity |].
  rewrite (@time_route_keeps_pattern_order IsoHost.host
             (Engine.allTransportItems Scenario.reports)
             ["Yaba"; "Lekki"] _ eq_refl).
  reflexivity.
Defined.

End OptimizerFacts.

(* ================================================================== *)
(** ** The items of the form *)
(* ================================================================== *)

Module FormFacts.
Import ReportForm.
Import Reading.

Lemma filter_other_ids (id : string) (items : list ReportItem.t) :
  ~ In id (map ReportItem.id items) ->
  filter (fun item => negb (String.eqb (ReportItem.id item) id)) items
  = items.
Proof.
  induction items as [| item items IH]; simpl; intros Hout.
  - reflexivity.
  - destruct (String.eqb (ReportItem.id item) id) eqn:E; simpl.
    + apply String.eqb_eq in E. exfalso. apply Hout. left. exact E.
    + rewrite IH; [reflexivity |]. intros H. apply Hout. right. exact H.
Qed.

Lemma filter_ids_out (id : string) (items : list ReportItem.t) :
  ~ In id
      (map ReportItem.id
           (filter (fun item => negb (String.eqb (ReportItem.id item) id))
                   items)).
Proof.
  rewrite in_map_iff. intros (item & Hid & Hin).
  apply filter_In in Hin. destruct Hin as [_ H].
  rewrite Hid, String.eqb_refl in H. discriminate.
Qed.

Lemma filter_ids_NoDup (f : ReportItem.t -> bool)
  (items : list ReportItem.t) :
  NoDup (map ReportItem.id items) ->
  NoDup (map ReportItem.id (filter f items)).
Proof.
  induction items as [| item items IH]; simpl; intros Hnd.
  - constructor.
  - inversion Hnd as [| ? ? Hout Hrest]; subst.
    destruct (f item); simpl; [| apply IH, Hrest].
    constructor; [| apply IH, Hrest].
    intros Hin. apply Hout. apply in_map_iff in Hin.
    destruct Hin as (it & Hid & Hit). apply filter_In in Hit.
    apply in_map_iff. exists it. tauto.
Qed.

(** Of two items or more with different identifiers, one is left. *)
Lemma removeItem_keeps_one (id : string) (items : list ReportItem.t) :
  items <> [] -> NoDup (map ReportItem.id items) ->
  removeItem id items <> [].
Proof.
  intros Hne Hnd. unfold removeItem.
  destruct (1 <? List.length items)%nat eqn:E; [| exact Hne].
  destruct items as [| a [| b rest]]; try discriminate.
  simpl in Hnd. inversion Hnd as [| ? ? Hab _]; subst.
  simpl filter.
  destruct (String.eqb (ReportItem.id a) id) eqn:Ea; simpl;
    [| discriminate].
  destruct (String.eqb (ReportItem.id b) id) eqn:Eb; simpl;
    [| discriminate].
  apply String.eqb_eq in Ea, Eb. exfalso. apply Hab. left. congruence.
Qed.

Lemma updateItem_ids (id : string) (fv : FieldValue)
  (items : list ReportItem.t) :
  match fv with IdIs _ => False | _ => True end ->
  map ReportItem.id (updateItem id fv items) = map ReportItem.id items.
Proof.
  intros Hfv. unfold updateItem. rewrite map_map. apply map_ext.
  intros item. destruct (String.eqb (ReportItem.id item) id);
    [| reflexivity].
  destruct fv; simpl; try reflexivity. contradiction.
Qed.

Lemma act_invariant (items : list ReportItem.t) (a : Action) :
  performed items a ->
  items <> [] /\ NoDup (map ReportItem.id items) ->
  act items a <> [] /\ NoDup (map ReportItem.id (act items a)).
Proof.
  intros Hdone [Hne Hnd]. destruct a as [id | id | id fv]; simpl in *.
  - unfold addItem. split.
    + intros H. apply app_eq_nil in H. destruct H. discriminate.
    + rewrite map_app. simpl.
      apply NoDup_app; [exact Hnd | |].
      * constructor; [simpl; tauto | constructor].
      * intros x Hx [<- | []]. contradiction.
  - split; [apply removeItem_keeps_one; assumption |].
    unfold removeItem.
    destruct (1 <? List.length items)%nat; [| exact Hnd].
    apply filter_ids_NoDup, Hnd.
  - assert (Hfv : match fv with IdIs _ => False | _ => True end)
      by (destruct fv; auto).
    rewrite (updateItem_ids id fv items Hfv). split; [| exact Hnd].
    intros H. apply Hne. apply (f_equal (@List.length _)) in H.
    unfold updateItem in H. rewrite length_map in H.
    destruct items; [reflexivity | discriminate].
Qed.

(** X22.  The form never runs out of items.  From a list with an item and
    without a repeated identifier, adding items under fresh
    identifiers, removing items and editing their location,
    transportation or cost leads to a list with an item and without a
    repeated identifier: the last item cannot be removed. *)
Theorem form_keeps_an_item (items : list ReportItem.t)
  (actions : list Action) :
  items <> [] -> NoDup (map ReportItem.id items) ->
  session items actions ->
  fold_left act actions items <> [] /\
  NoDup (map ReportItem.id (fold_left act actions items)).
Proof.
  intros Hne Hnd. assert (Hinv := conj Hne Hnd). clear Hne Hnd.
  revert items Hinv.
  induction actions as [| a actions IH]; intros items Hinv Hs.
  - exact Hinv.
  - destruct Hs as [Hdone Hs]. cbn [fold_left].
    apply IH; [| exact Hs]. apply act_invariant; assumption.
Qed.

(** From the blank form: a second item is added and priced, then the
    first is removed, and the removal of the one left does nothing. *)
Lemma form_keeps_an_item_witness :
  fold_left act
    [AddItem "b"; UpdateItem "b" (CostIs (Num.of_Z 500));
     RemoveItem "a"; RemoveItem "b"]
    [blankItem "a"]
  = [ReportItem.mk "b" "" "" (Num.of_Z 500)] /\
  fold_left act
    [AddItem "b"; UpdateItem "b" (CostIs (Num.of_Z 500));
     RemoveItem "a"; RemoveItem "b"]
    [blankItem "a"] <> [].
Proof.
  split; [reflexivity |].
  apply (form_keeps_an_item [blankItem "a"]).
  - discriminate.
  - repeat constructor. simpl. tauto.
  - simpl. repeat split. intros [H | []]. discriminate.
Defined.

(** X23.  An item that was added can be removed again: with an item in the
    list and a fresh identifier, removing the added item gives the
    list back.  Removing from a list of one item does nothing, and
    from a longer list no item of the identifier is left. *)
Theorem added_item_can_be_removed (id : string)
  (items : list ReportItem.t) :
  (items <> [] -> ~ In id (map ReportItem.id items) ->
   removeItem id (addItem id items) = items) /\
  (forall item, removeItem id [item] = [item]) /\
  ((1 < List.length items)%nat ->
   ~ In id (map ReportItem.id (removeItem id items))).
Proof.
  split; [| split].
  - intros Hne Hout. unfold removeItem, addItem.
    rewrite length_app.
    replace (1 <? List.length items + List.length [blankItem id])%nat
      with true.
    + rewrite filter_app.
      change (filter (fun item => negb (String.eqb (ReportItem.id item) id))
                     [blankItem id])
        with (if negb (String.eqb id id) then [blankItem id] else []).
      rewrite String.eqb_refl. cbn [negb]. rewrite app_nil_r.
      apply filter_other_ids, Hout.
    + symmetry. apply Nat.ltb_lt.
      pose proof (EngineFacts.nonempty_length items Hne). simpl. lia.
  - intros item. reflexivity.
  - intros Hlen. unfold removeItem.
    apply Nat.ltb_lt in Hlen. rewrite Hlen. apply filter_ids_out.
Qed.

Lemma added_item_can_be_removed_witness :
  removeItem "f3" (addItem "f3" (items Cases.filledForm))
  = items Cases.filledForm.
Proof.
  apply (proj1 (added_item_can_be_removed "f3" (items Cases.filledForm))).
  - discriminate.
  - simpl. intros [H | [H | []]]; discriminate.
Defined.

Section WithText.
Context {text : Text}.

Lemma filter_all (f : ReportItem.t -> bool) (items : list ReportItem.t) :
  Forall (fun item => f item = true) items -> filter f items = items.
Proof.
  induction 1 as [| item items Hitem _ IH]; simpl; [reflexivity |].
  rewrite Hitem, IH. reflexivity.
Qed.

(** X24.  A report that is loaded for editing and submitted as it is goes
    out as it came in, its form kept: the same type, date,
    description, account and items, when the date and the account are
    filled in and every item is valid.  The total is not the one of
    the report: it is computed again from the items. *)
Theorem unchanged_edit_submits_report (report : Report.t) (fresh : string) :
  Report.reportDate report <> "" ->
  filled (Report.accountNumber report) = true ->
  filled (Report.accountName report) = true ->
  filled (Report.bankName report) = true ->
  Report.items report <> [] ->
  Forall (fun item => isValidItem item = true) (Report.items report) ->
  handleSubmit (Some report) fresh (load report)
  = (Submitted
       (Manager.Draft.mk (Report.reportType report)
          (Report.reportDate report) (Report.description report)
          (Report.items report) (totalCost (Report.items report))
          (Report.accountNumber report) (Report.accountName report)
          (Report.bankName report)),
     load report).
Proof.
  intros Hdate Hnumber Hname Hbank Hne Hvalid.
  unfold handleSubmit, load.
  cbn [reportType reportDate description accountNumber accountName
       bankName items].
  rewrite Hnumber, Hname, Hbank.
  destruct (String.eqb (Report.reportDate report) "") eqn:E.
  - apply String.eqb_eq in E. contradiction.
  - cbn [orb negb]. rewrite (filter_all _ _ Hvalid).
    destruct (Report.items report) as [| item rest]; [congruence |].
    reflexivity.
Qed.

End WithText.

(** The March report of the scenario, whose total is stored as 1000. *)
Lemma unchanged_edit_submits_report_witness :
  @handleSubmit PlainText.text (Some Scenario.march) "f9"
                (load Scenario.march)
  = (Submitted Scenario.draft, load Scenario.march).
Proof.
  rewrite (@unchanged_edit_submits_report PlainText.text Scenario.march "f9").
  - reflexivity.
  - discriminate.
  - reflexivity.
  - reflexivity.
  - reflexivity.
  - discriminate.
  - repeat constructor.
Defined.

End FormFacts.

(* ================================================================== *)
(** ** The text of a cost *)
(* ================================================================== *)

Module SanitizeFacts.
Import Renderer.

Lemma strip_append (matches : ascii -> bool) (s1 s2 : string) :
  Str.strip matches (String.append s1 s2)
  = String.append (Str.strip matches s1) (Str.strip matches s2).
Proof.
  induction s1 as [| c s1 IH]; simpl.
  - reflexivity.
  - destruct (matches c); simpl; rewrite IH; reflexivity.
Qed.

Lemma strip_twice (matches : ascii -> bool) (s : string) :
  Str.strip matches (Str.strip matches s) = Str.strip matches s.
Proof.
  induction s as [| c s IH]; simpl.
  - reflexivity.
  - destruct (matches c) eqn:E; simpl; [exact IH |].
    rewrite E, IH. reflexivity.
Qed.

(** X25.  A character that is neither a digit nor a dot counts for nothing,
    wherever it stands: a minus sign, a separator of thousands, a
    currency sign or the letter of an exponent is dropped before the
    text is read, so a text with a minus sign gives the amount without
    it.  A text that was cleaned is read as it is. *)
Theorem other_characters_are_ignored (before after : string) (c : ascii) :
  notDigitNorDot c = true ->
  sanitizeCost (OfString (String.append before (String c after)))
  = sanitizeCost (OfString (String.append before after)) /\
  sanitizeCost (OfString (cleanedOf (String.append before after)))
  = sanitizeCost (OfString (String.append before after)).
Proof.
  intros Hc. unfold sanitizeCost, cleanedOf. split.
  - rewrite !strip_append. simpl. rewrite Hc. reflexivity.
  - rewrite strip_twice. reflexivity.
Qed.

(** [-1,500.50] is read as [1500.5]. *)
Lemma other_characters_are_ignored_witness :
  sanitizeCost (OfString "-1,500.50") = sanitizeCost (OfString "1500.50") /\
  sanitizeCost (OfString "1500.50") = Num.dec 15005 1.
Proof.
  split; [| vm_compute; reflexivity].
  exact (eq_trans
           (proj1 (other_characters_are_ignored "" "1,500.50" "-" eq_refl))
           (proj1 (other_characters_are_ignored "1" "500.50" "," eq_refl))).
Defined.

End SanitizeFacts.
